(** * TruthLayer front end (docs/app.js): a shallow embedding and its properties

    The page script collects a claim and evidence links, posts them to a
    Worker, and renders the verdict.  This development embeds the script's
    functions as Rocq functions over explicit data:

    - JavaScript strings are sequences of UTF-16 code units ([list N]);
    - JavaScript numbers are exact rationals extended with NaN and the two
      infinities (every finite double is a rational, and the operations the
      script applies to numbers, [>=], [Math.round], [Math.min] and
      [Math.max], are exact on doubles);
    - parsed JSON is an inductive type of values;
    - the page is a map from the ids the script looks up to the state of
      their elements, an absent element being [None];
    - a handler is run to its end as one step from page to page (what
      happens between two [await]s of one handler is not interleaved with
      other handlers);
    - code that may throw runs in a small state-and-exception monad;
    - what belongs to the browser and is not written in the script
      (JSON.parse, the network, conversions of objects to primitives, ...)
      is a record of host functions that every definition takes as a
      parameter. *)

From Stdlib Require Import List NArith ZArith QArith Qround Bool Ascii String Lia.
From Stdlib Require Import DecimalString Qcanon Lqa.
Import ListNotations.

Set Warnings "-register-all".

(* ================================================================== *)
(** ** JavaScript strings *)

Module JsStr.

(** A string value: its UTF-16 code units. *)
Definition jsstring : Type := list N.

(** An ASCII literal of the source, as code units. *)
Definition lit (s : string) : jsstring :=
  map N_of_ascii (list_ascii_of_string s).
Arguments lit s%_string : simpl never.

(** Characters the source writes that are outside ASCII, and the double
    quote. *)
Definition dq : jsstring := [34%N].
Definition nl : jsstring := [10%N].
Definition emdash : jsstring := [8212%N].      (* U+2014 *)
Definition endash : jsstring := [8211%N].      (* U+2013 *)
Definition ellipsis : jsstring := [8230%N].    (* U+2026 *)
Definition rsquo : jsstring := [8217%N].       (* U+2019 *)
Definition checkmark : jsstring := [9989%N].   (* U+2705 *)

Definition spaces (n : nat) : jsstring := repeat 32%N n.
Arguments spaces : simpl never.

(** [===] on two strings. *)
Fixpoint eqb (a b : jsstring) : bool :=
  match a, b with
  | [], [] => true
  | x :: a', y :: b' => N.eqb x y && eqb a' b'
  | _, _ => false
  end.

(** ToBoolean of a string: the empty string is the only falsy one. *)
Definition truthy (s : jsstring) : bool :=
  match s with [] => false | _ :: _ => true end.

(** WhiteSpace and LineTerminator of ECMAScript: the code units that
    [String.prototype.trim] strips and that the regex class [\s] holds. *)
Definition is_ws (c : N) : bool :=
  ((9 <=? c) && (c <=? 13) || (c =? 32) || (c =? 160) || (c =? 5760)
   || ((8192 <=? c) && (c <=? 8202)) || (c =? 8232) || (c =? 8233)
   || (c =? 8239) || (c =? 8287) || (c =? 12288) || (c =? 65279))%N.

Fixpoint trimStart (s : jsstring) : jsstring :=
  match s with
  | [] => []
  | c :: r => if is_ws c then trimStart r else s
  end.

Definition trimEnd (s : jsstring) : jsstring := rev (trimStart (rev s)).

(** [s.trim()] *)
Definition trim (s : jsstring) : jsstring := trimEnd (trimStart s).

(** [s.split(sep)] for a separator of one code unit. *)
Fixpoint split (sep : N) (s : jsstring) : list jsstring :=
  match s with
  | [] => [[]]
  | c :: r =>
      if N.eqb c sep then [] :: split sep r
      else match split sep r with
           | [] => [[c]]
           | h :: t => (c :: h) :: t
           end
  end.

(** [parts.join(sep)] *)
Fixpoint join (sep : jsstring) (parts : list jsstring) : jsstring :=
  match parts with
  | [] => []
  | [p] => p
  | p :: rest => p ++ sep ++ join sep rest
  end.

(** [s.slice(0, n)] for [n >= 0]. *)
Definition slice0 (n : nat) (s : jsstring) : jsstring := firstn n s.

(** [s.replace(/</g, "&lt;")] *)
Definition escape_lt (s : jsstring) : jsstring :=
  flat_map (fun c => if N.eqb c 60 then lit "&lt;" else [c]) s.

(** Decimal digits of a natural number, as Number::toString prints an
    integer below 2^53. *)
Definition dec (n : N) : jsstring :=
  lit (NilZero.string_of_uint (N.to_uint n)).
Arguments dec : simpl never.

End JsStr.

(* ================================================================== *)
(** ** The evidence extractor *)

Module Evidence.
Import JsStr.

(** What [extractUrls] receives: the value of a text area, or nothing. *)
Inductive JsText : Type :=
| TUndefined
| TNull
| TString (s : jsstring).

(** Canonicalize of a case-insensitive regex without the [u] flag, on the
    code units that can equal an ASCII pattern character: [toUpperCase] on
    ASCII letters; a code unit from 128 on is never mapped below 128. *)
Definition canonicalize (c : N) : N :=
  if ((97 <=? c) && (c <=? 122))%N then (c - 32)%N else c.

(** A literal pattern matched at the head of [s], case-insensitively:
    the text it matched and what follows. *)
Fixpoint match_lit (p s : jsstring) : option (jsstring * jsstring) :=
  match p with
  | [] => Some ([], s)
  | pc :: p' =>
      match s with
      | [] => None
      | c :: s' =>
          if N.eqb (canonicalize c) (canonicalize pc) then
            match match_lit p' s' with
            | Some (m, r) => Some (c :: m, r)
            | None => None
            end
          else None
      end
  end.

(** The longest run of code units outside [\s] at the head of [s]. *)
Fixpoint span_nonspace (s : jsstring) : jsstring * jsstring :=
  match s with
  | [] => ([], [])
  | c :: r =>
      if is_ws c then ([], s)
      else let (m, r') := span_nonspace r in (c :: m, r')
  end.

(** [:\/\/[^\s]+] at the head of [s]: the greedy class takes every code
    unit up to the next white space and needs at least one. *)
Definition match_tail (s : jsstring) : option jsstring :=
  match match_lit (lit "://") s with
  | None => None
  | Some (m1, r1) =>
      match span_nonspace r1 with
      | ([], _) => None
      | (m2, _) => Some (m1 ++ m2)
      end
  end.

(** [/https?:\/\/[^\s]+/i] anchored at the head of [s]: the optional [s]
    is tried first, and the match without it on backtracking. *)
Definition match_here (s : jsstring) : option jsstring :=
  match match_lit (lit "http") s with
  | None => None
  | Some (m0, r0) =>
      let with_s :=
        match match_lit (lit "s") r0 with
        | Some (ms, rs) => option_map (app (m0 ++ ms)) (match_tail rs)
        | None => None
        end in
      match with_s with
      | Some m => Some m
      | None => option_map (app m0) (match_tail r0)
      end
  end.

(** [line.match(/https?:\/\/[^\s]+/i)]: [match[0]] of the leftmost match,
    [None] for [null]. *)
Fixpoint url_match (line : jsstring) : option jsstring :=
  match match_here line with
  | Some m => Some m
  | None =>
      match line with
      | [] => None
      | _ :: r => url_match r
      end
  end.

(** [text.split("\n").map(l => l.trim()).filter(Boolean)] *)
Definition evidence_lines (s : jsstring) : list jsstring :=
  filter truthy (map trim (split 10 s)).

(** The [for] loop: [urls.push(match[0])] for each line with a match. *)
Definition collect_urls (lines : list jsstring) : list jsstring :=
  fold_left
    (fun urls line =>
       match url_match line with
       | Some m => urls ++ [m]
       | None => urls
       end)
    lines [].

(** What one line contributes to [urls] in that loop. *)
Definition pushed_by (line : jsstring) : list jsstring :=
  match url_match line with
  | Some m => [m]
  | None => []
  end.

(** A [Set] of strings, as the list of its elements in insertion order. *)
Definition Set_add (s : list jsstring) (x : jsstring) : list jsstring :=
  if existsb (eqb x) s then s else s ++ [x].

(** [new Set(iterable)] *)
Definition Set_new (l : list jsstring) : list jsstring :=
  fold_left Set_add l [].

(** [extractUrls(text)] *)
Definition extractUrls (text : JsText) : list jsstring :=
  match text with
  | TUndefined | TNull => []
  | TString s =>
      if negb (truthy s) then []
      else
        let lines := evidence_lines s in
        let urls := collect_urls lines in
        Set_new urls
  end.

(** The matches the loop pushes for a given input, before de-duplication. *)
Definition pushed_urls (text : JsText) : list jsstring :=
  match text with
  | TUndefined | TNull => []
  | TString s => collect_urls (evidence_lines s)
  end.

(** The lines the loop visits for a given input. *)
Definition visited_lines (text : JsText) : list jsstring :=
  match text with
  | TUndefined | TNull => []
  | TString s => evidence_lines s
  end.

(** [u] is seen before [v] in [l]: some occurrence of [u] has no [v]
    in front of it. *)
Definition seen_before (l : list jsstring) (u v : jsstring) : Prop :=
  exists p s, l = p ++ u :: s /\ ~ In v p.

(** The example input of the specification. *)
Definition example_evidence : jsstring :=
  lit "see https://a.example/x" ++ nl ++ lit "no link here" ++ nl
  ++ lit "https://a.example/x again" ++ nl ++ lit "https://b.example/y".

End Evidence.

(* ================================================================== *)
(** ** JavaScript numbers *)

Module Num.
Import JsStr.

(** A Number value.  [Fin q] is a finite number; the sign of zero is not
    kept, since nothing the script does with a number can tell the two
    zeros apart ([Math.max(0, -0)] is [+0] and both print as [0]). *)
Inductive JsNum : Type :=
| NaN
| NegInf
| Fin (q : Q)
| PosInf.

Definition of_Z (z : Z) : JsNum := Fin (inject_Z z).

(** [a < b] as IsLessThan computes it: [None] is the undefined result
    that a NaN operand gives. *)
Definition lt (a b : JsNum) : option bool :=
  match a, b with
  | NaN, _ | _, NaN => None
  | _, NegInf => Some false
  | NegInf, _ => Some true
  | PosInf, _ => Some false
  | _, PosInf => Some true
  | Fin p, Fin q => Some (negb (Qle_bool q p))
  end.

(** [a >= b]: true exactly when [a < b] is false. *)
Definition ge (a b : JsNum) : bool :=
  match lt a b with
  | Some false => true
  | _ => false
  end.

(** [Math.round]: the nearest integer, a tie going up. *)
Definition Math_round (x : JsNum) : JsNum :=
  match x with
  | Fin q => Fin (inject_Z (Qfloor (q + (1 # 2))))
  | _ => x
  end.

(** [Math.min(a, b)] *)
Definition Math_min (a b : JsNum) : JsNum :=
  match lt a b with
  | None => NaN
  | Some true => a
  | Some false => b
  end.

(** [Math.max(a, b)] *)
Definition Math_max (a b : JsNum) : JsNum :=
  match lt a b with
  | None => NaN
  | Some true => b
  | Some false => a
  end.

(** ToBoolean of a number. *)
Definition truthy (x : JsNum) : bool :=
  match x with
  | NaN => false
  | Fin q => negb (Qeq_bool q 0)
  | _ => true
  end.

(** Number::toString.  An integer below 2^53 in absolute value is a
    double, and the shortest digits that give it back are its own decimal
    digits; [frac] is the host's printing of every other finite number
    (shortest round-trip digits, padded with zeros or with an exponent
    for the larger integers, a decimal point for the fractions). *)
Definition NumberToString (frac : Q -> jsstring) (x : JsNum) : jsstring :=
  match x with
  | NaN => lit "NaN"
  | PosInf => lit "Infinity"
  | NegInf => lit "-Infinity"
  | Fin q =>
      let r := Qred q in
      if (Pos.eqb (Qden r) 1 && (Z.abs (Qnum r) <? 2 ^ 53)%Z)%bool then
        (if (Qnum r <? 0)%Z then lit "-" else []) ++ dec (Z.abs_N (Qnum r))
      else frac q
  end.

(** The order of the extended rationals, for stating properties; NaN is
    related to nothing. *)
Definition le (a b : JsNum) : Prop :=
  match a, b with
  | NaN, _ | _, NaN => False
  | NegInf, _ => True
  | _, PosInf => True
  | Fin p, Fin q => (p <= q)%Q
  | _, _ => False
  end.

Definition less (a b : JsNum) : Prop :=
  match a, b with
  | NaN, _ | _, NaN => False
  | PosInf, _ => False
  | _, NegInf => False
  | Fin p, Fin q => (p < q)%Q
  | _, _ => True
  end.

End Num.

(* ================================================================== *)
(** ** Exceptions *)

Module Exn.
Import JsStr.

(** An Error object, as far as the script looks at it. *)
Record JsError : Type := { err_name : jsstring; err_message : jsstring }.

(** [String(e)], that is Error.prototype.toString. *)
Definition Error_toString (e : JsError) : jsstring :=
  match err_name e, err_message e with
  | n, [] => n
  | [], m => m
  | n, m => n ++ lit ": " ++ m
  end.

(** The result of evaluating something that may throw. *)
Inductive Completion (A : Type) : Type :=
| Normal (a : A)
| Throw (e : JsError).
Arguments Normal {A} a.
Arguments Throw {A} e.

Definition cbind {A B} (c : Completion A) (k : A -> Completion B) : Completion B :=
  match c with
  | Normal a => k a
  | Throw e => Throw e
  end.

(** [xs.map(f)] for an [f] that may throw: left to right, stopping at the
    first exception. *)
Fixpoint cmap {A B} (f : A -> Completion B) (xs : list A) : Completion (list B) :=
  match xs with
  | [] => Normal []
  | x :: r => cbind (f x) (fun y => cbind (cmap f r) (fun ys => Normal (y :: ys)))
  end.

(** Where the script itself can raise a TypeError. *)
Inductive ThrowSite : Type :=
| PropertyOfNull        (* [c.title] with [c] null *)
| NotAFunction          (* [x.replace(...)] with [x] not a string *)
| SetPropertyOfNull.    (* [els.evidenceInput.value = ...] without the element *)

End Exn.

(* ================================================================== *)
(** ** Parsed JSON *)

Module Json.
Import JsStr Num Exn.

(** A value that [JSON.parse] returns. *)
Inductive json : Type :=
| JNull
| JBool (b : bool)
| JNumber (n : JsNum)
| JString (s : jsstring)
| JArray (items : list json)
| JObject (fields : list (jsstring * json)).

(** A JavaScript value the script handles: [None] is [undefined]. *)
Definition jsval : Type := option json.

Fixpoint assoc (k : jsstring) (fields : list (jsstring * json)) : jsval :=
  match fields with
  | [] => None
  | (k', v) :: r => if eqb k k' then Some v else assoc k r
  end.

(** [v?.k] for the property names the script reads ([score], [verdict],
    [title], ...): an own property of an object; no array, string, number
    or boolean has a property of one of these names. *)
Definition get_opt (v : jsval) (k : jsstring) : jsval :=
  match v with
  | Some (JObject fields) => assoc k fields
  | _ => None
  end.

(** [a ?? b] *)
Definition nullish (a b : jsval) : jsval :=
  match a with
  | None | Some JNull => b
  | _ => a
  end.

(** ToBoolean *)
Definition truthy (v : jsval) : bool :=
  match v with
  | None | Some JNull => false
  | Some (JBool b) => b
  | Some (JNumber n) => Num.truthy n
  | Some (JString s) => JsStr.truthy s
  | Some (JArray _) | Some (JObject _) => true
  end.

(** [v] is [undefined] or [null]: what the specification calls absent. *)
Definition is_nullish (v : jsval) : bool :=
  match v with
  | None | Some JNull => true
  | _ => false
  end.

(** [a || b] *)
Definition or_else (a b : jsval) : jsval := if truthy a then a else b.

(** [Array.isArray(v) ? v : []] *)
Definition array_or_empty (v : jsval) : list json :=
  match v with
  | Some (JArray items) => items
  | _ => []
  end.

End Json.

(* ================================================================== *)
(** ** The page: the elements the script holds in [els] *)

Module Dom.
Import JsStr.

(** The ids [boot] looks up with [document.getElementById]. *)
Inductive ElId : Type :=
| claimInput | evidenceInput | checkBtn | clearBtn
| apiPill | apiStatus
| resultTitle | resultBadge
| scoreLabel | scoreBar | scorePct
| whyList | citationsBox
| debugBox | debugToggle.

Definition ElId_eqb (a b : ElId) : bool :=
  match a, b with
  | claimInput, claimInput | evidenceInput, evidenceInput
  | checkBtn, checkBtn | clearBtn, clearBtn
  | apiPill, apiPill | apiStatus, apiStatus
  | resultTitle, resultTitle | resultBadge, resultBadge
  | scoreLabel, scoreLabel | scoreBar, scoreBar | scorePct, scorePct
  | whyList, whyList | citationsBox, citationsBox
  | debugBox, debugBox | debugToggle, debugToggle => true
  | _, _ => false
  end.

(** What an element shows: the string last assigned to [textContent] or
    to [innerHTML]. *)
Inductive Content : Type :=
| Text (s : jsstring)
| Markup (s : jsstring).

(** The part of an element's state that the script reads or writes.
    [style_width] and [style_display] are the strings last assigned. *)
Record Element : Type := {
  classList : list jsstring;
  content : Content;
  value : jsstring;
  style_width : jsstring;
  style_display : jsstring;
  data_open : option jsstring;
  focused : bool
}.

Definition set_classList (v : list jsstring) (e : Element) : Element :=
  {| classList := v; content := content e; value := value e;
     style_width := style_width e; style_display := style_display e;
     data_open := data_open e; focused := focused e |}.

Definition set_content (v : Content) (e : Element) : Element :=
  {| classList := classList e; content := v; value := value e;
     style_width := style_width e; style_display := style_display e;
     data_open := data_open e; focused := focused e |}.

Definition set_value (v : jsstring) (e : Element) : Element :=
  {| classList := classList e; content := content e; value := v;
     style_width := style_width e; style_display := style_display e;
     data_open := data_open e; focused := focused e |}.

Definition set_style_width (v : jsstring) (e : Element) : Element :=
  {| classList := classList e; content := content e; value := value e;
     style_width := v; style_display := style_display e;
     data_open := data_open e; focused := focused e |}.

Definition set_style_display (v : jsstring) (e : Element) : Element :=
  {| classList := classList e; content := content e; value := value e;
     style_width := style_width e; style_display := v;
     data_open := data_open e; focused := focused e |}.

Definition set_data_open (v : option jsstring) (e : Element) : Element :=
  {| classList := classList e; content := content e; value := value e;
     style_width := style_width e; style_display := style_display e;
     data_open := v; focused := focused e |}.

Definition set_focused (v : bool) (e : Element) : Element :=
  {| classList := classList e; content := content e; value := value e;
     style_width := style_width e; style_display := style_display e;
     data_open := data_open e; focused := v |}.

(** [els]: each id with its element, [None] when the page has none. *)
Definition Els : Type := ElId -> option Element.

Definition present (id : ElId) (ui : Els) : bool :=
  match ui id with Some _ => true | None => false end.

(** A write to the element [id]; nothing happens when it is absent, as
    with the script's [if (!el) return] and [if (els.x)] guards. *)
Definition update (id : ElId) (f : Element -> Element) (ui : Els) : Els :=
  fun j => if ElId_eqb j id then option_map f (ui j) else ui j.

(** [setText(el, text)] for a string [text]. *)
Definition setText (id : ElId) (text : jsstring) : Els -> Els :=
  update id (set_content (Text text)).

(** [setHTML(el, html)] *)
Definition setHTML (id : ElId) (html : jsstring) : Els -> Els :=
  update id (set_content (Markup html)).

(** [classList.remove(...names)] and [classList.add(name)] *)
Definition classList_remove (names : list jsstring) (cl : list jsstring) : list jsstring :=
  filter (fun c => negb (existsb (eqb c) names)) cl.

Definition classList_add (name : jsstring) (cl : list jsstring) : list jsstring :=
  if existsb (eqb name) cl then cl else cl ++ [name].

(** The [state] argument of [setStatus]. *)
Inductive ConnState : Type := SIdle | SChecking | SOk | SError.

Definition state_name (s : ConnState) : jsstring :=
  match s with
  | SIdle => lit "idle"
  | SChecking => lit "checking"
  | SOk => lit "ok"
  | SError => lit "error"
  end.

Definition is_state (a b : ConnState) : bool := eqb (state_name a) (state_name b).

(** The class changes [setStatus] makes on one element. *)
Definition restyle (state : ConnState) (cl : list jsstring) : list jsstring :=
  let cl := classList_remove [lit "ok"; lit "error"; lit "checking"] cl in
  let cl := if is_state state SOk then classList_add (lit "ok") cl else cl in
  let cl := if is_state state SError then classList_add (lit "error") cl else cl in
  if is_state state SChecking then classList_add (lit "checking") cl else cl.

(** [setStatus(statusEl, pillEl, state, detail)] *)
Definition setStatus (statusEl pillEl : ElId) (state : ConnState) (detail : jsstring)
  (ui : Els) : Els :=
  let ui := update pillEl (fun e => set_classList (restyle state (classList e)) e) ui in
  let ui := update statusEl (fun e => set_classList (restyle state (classList e)) e) ui in
  setText statusEl (if truthy detail then detail else state_name state) ui.

(** The connectivity state an element displays, read off its classes. *)
Definition shown_state (e : Element) : ConnState :=
  if existsb (eqb (lit "ok")) (classList e) then SOk
  else if existsb (eqb (lit "error")) (classList e) then SError
  else if existsb (eqb (lit "checking")) (classList e) then SChecking
  else SIdle.

(** What the element [id] shows, if the page has it. *)
Definition shown (id : ElId) (ui : Els) : option Content :=
  option_map content (ui id).

(** The bar width last assigned to [id], if the page has it. *)
Definition width_of (id : ElId) (ui : Els) : option jsstring :=
  option_map style_width (ui id).

(** The connectivity state that [id] displays, if the page has it. *)
Definition state_of (id : ElId) (ui : Els) : option ConnState :=
  option_map shown_state (ui id).

(** [v] for an element that exists, nothing for one that does not. *)
Definition written {A} (v : A) (before : option Element) : option A :=
  option_map (fun _ => v) before.

(** An attribute written as [name=value], the value in double quotes. *)
Definition attr (name : string) (v : jsstring) : jsstring :=
  lit name ++ lit "=" ++ dq ++ v ++ dq.

Definition muted_div (s : jsstring) : jsstring :=
  lit "<div " ++ attr "class" (lit "muted") ++ lit ">" ++ s ++ lit "</div>".

End Dom.

(* ================================================================== *)
(** ** The host: what the browser does for the script *)

Module Host.
Import JsStr Num Exn Json.

(** The body of the POST, before [JSON.stringify]. *)
Record Payload : Type := {
  p_claim : jsstring;
  p_evidence_urls : list jsstring;
  p_client_ts : jsstring
}.

Record Request : Type := {
  req_url : jsstring;
  req_method : jsstring;
  req_content_type : option jsstring;
  req_body : option Payload
}.

(** What [res.text()] settles to. *)
Inductive BodyRead : Type :=
| BodyText (raw : jsstring)
| BodyFails (message : jsstring).

Record Response : Type := {
  status : N;
  statusText : jsstring;
  body : BodyRead
}.

(** [res.ok] *)
Definition res_ok (r : Response) : bool :=
  ((200 <=? status r) && (status r <=? 299))%N.

(** What the network does with a request, on a clock of milliseconds
    started at the call of [fetch]: response headers arrive, or the request
    fails, after [ms] milliseconds, or nothing ever happens. *)
Inductive NetBehaviour : Type :=
| Responds (ms : N) (r : Response)
| Fails (ms : N) (message : jsstring)
| Hangs.

Record World : Type := {
  (** [JSON.parse(raw)]; [None] when it throws a SyntaxError *)
  JSON_parse : jsstring -> option json;
  (** [Number(s)] for a string *)
  StringToNumber : jsstring -> JsNum;
  (** [Number(o)] and [String(o)] for an array or an object *)
  ObjectToNumber : json -> Completion JsNum;
  ObjectToString : json -> Completion jsstring;
  (** Number::toString outside the integers below 2^53 *)
  NumberToString_frac : Q -> jsstring;
  (** [new URL(v).hostname]; [None] when the constructor throws *)
  URL_hostname : jsval -> option jsstring;
  (** [JSON.stringify({endpoint, sent: {claim, evidenceUrls}, received}, null, 2)] *)
  JSON_stringify_debug : jsstring -> jsstring -> list jsstring -> json -> jsstring;
  (** [new Date().toISOString()] *)
  Date_toISOString : jsstring;
  network : Request -> NetBehaviour;
  (** the message of the DOMException an aborted [fetch] rejects with *)
  abort_message : jsstring;
  (** the engine's message for a TypeError of the script's own *)
  TypeError_message : ThrowSite -> jsstring
}.

Definition TypeError (h : World) (site : ThrowSite) : JsError :=
  {| err_name := lit "TypeError"; err_message := TypeError_message h site |}.

(** [Number(v)] *)
Definition ToNumber (h : World) (v : jsval) : Completion JsNum :=
  match v with
  | None => Normal NaN
  | Some JNull => Normal (of_Z 0)
  | Some (JBool b) => Normal (of_Z (if b then 1 else 0))
  | Some (JNumber n) => Normal n
  | Some (JString s) => Normal (StringToNumber h s)
  | Some o => ObjectToNumber h o
  end.

(** [String(v)] *)
Definition ToString (h : World) (v : jsval) : Completion jsstring :=
  match v with
  | None => Normal (lit "undefined")
  | Some JNull => Normal (lit "null")
  | Some (JBool b) => Normal (if b then lit "true" else lit "false")
  | Some (JNumber n) => Normal (NumberToString (NumberToString_frac h) n)
  | Some (JString s) => Normal s
  | Some o => ObjectToString h o
  end.

(** [c.k] without optional chaining: reading a property of [null] throws. *)
Definition get_strict (h : World) (c : json) (k : jsstring) : Completion jsval :=
  match c with
  | JNull => Throw (TypeError h PropertyOfNull)
  | _ => Normal (get_opt (Some c) k)
  end.

(** [v.replace(/</g, "&lt;")]: only a string has the method. *)
Definition replace_lt (h : World) (v : jsval) : Completion jsstring :=
  match v with
  | Some (JString s) => Normal (escape_lt s)
  | _ => Throw (TypeError h NotAFunction)
  end.

End Host.

(* ================================================================== *)
(** ** The script *)

Module App.
Import JsStr Evidence Num Exn Json Dom Host.

Definition WORKER_BASE : jsstring :=
  lit "https://rapid-flower-be72truthlayer.truthlayer-ai.workers.dev".
Definition CHECK_ENDPOINT : jsstring := lit "/api/check".
Definition FETCH_TIMEOUT_MS : N := 20000.

(** [fetchWithTimeout(url, options, timeoutMs)]: the timer aborts the
    request when it has not settled after [timeoutMs]; the rejection of an
    aborted [fetch] is a DOMException named AbortError, that of a failed
    one a TypeError. *)
Definition fetchWithTimeout (h : World) (req : Request) (timeoutMs : N)
  : Completion Response :=
  let aborted :=
    Throw {| err_name := lit "AbortError"; err_message := abort_message h |} in
  match network h req with
  | Responds ms res => if (ms <? timeoutMs)%N then Normal res else aborted
  | Fails ms message =>
      if (ms <? timeoutMs)%N
      then Throw {| err_name := lit "TypeError"; err_message := message |}
      else aborted
  | Hangs => aborted
  end.

(** [await res.text()] *)
Definition res_text (res : Response) : Completion jsstring :=
  match body res with
  | BodyText raw => Normal raw
  | BodyFails message =>
      Throw {| err_name := lit "TypeError"; err_message := message |}
  end.

Record Verdict : Type := { label : jsstring; badge : jsstring }.

(** [verdictFromScore(score)] *)
Definition verdictFromScore (score : JsNum) : Verdict :=
  if ge score (of_Z 85) then {| label := lit "Likely true"; badge := lit "Strong support" |}
  else if ge score (of_Z 65) then {| label := lit "Mixed / uncertain"; badge := lit "Some support" |}
  else if ge score (of_Z 40) then {| label := lit "Unclear"; badge := lit "Weak support" |}
  else {| label := lit "Unclear / likely false"; badge := lit "Low support" |}.

(** One citation of [renderCitations], [i] counting from 0. *)
Definition render_citation (h : World) (i : nat) (c : json) : Completion jsstring :=
  cbind (get_strict h c (lit "title")) (fun c_title =>
  cbind (replace_lt h
           (or_else c_title (Some (JString (lit "Source " ++ dec (N.of_nat (i + 1)))))))
        (fun title =>
  cbind (get_strict h c (lit "url")) (fun c_url =>
  cbind (replace_lt h (or_else c_url (Some (JString [])))) (fun url =>
  cbind (get_strict h c (lit "snippet")) (fun c_snippet =>
  cbind (replace_lt h (or_else c_snippet (Some (JString [])))) (fun snippet =>
  let host := match URL_hostname h c_url with Some x => x | None => [] end in
  Normal
    (nl ++ spaces 8 ++ lit "<div " ++ attr "class" (lit "citation") ++ lit ">"
     ++ nl ++ spaces 10 ++ lit "<div " ++ attr "class" (lit "citation-title") ++ lit ">"
     ++ nl ++ spaces 12 ++ lit "<a " ++ attr "href" url ++ lit " "
     ++ attr "target" (lit "_blank") ++ lit " "
     ++ attr "rel" (lit "noopener noreferrer") ++ lit ">" ++ title ++ lit "</a>"
     ++ nl ++ spaces 12
     ++ (if JsStr.truthy host
         then lit "<span " ++ attr "class" (lit "citation-host") ++ lit ">"
              ++ host ++ lit "</span>"
         else [])
     ++ nl ++ spaces 10 ++ lit "</div>"
     ++ nl ++ spaces 10
     ++ (if JsStr.truthy snippet
         then lit "<div " ++ attr "class" (lit "citation-snippet") ++ lit ">"
              ++ snippet ++ lit "</div>"
         else [])
     ++ nl ++ spaces 8 ++ lit "</div>"
     ++ nl ++ spaces 6))))))).

(** [citations.map((c, i) => ...)] from index [i] on. *)
Fixpoint render_items (h : World) (i : nat) (cs : list json) : Completion (list jsstring) :=
  match cs with
  | [] => Normal []
  | c :: r =>
      cbind (render_citation h i c) (fun x =>
      cbind (render_items h (S i) r) (fun xs => Normal (x :: xs)))
  end.

(** [renderCitations(citations)] *)
Definition renderCitations (h : World) (citations : list json) : Completion jsstring :=
  match citations with
  | [] => Normal (muted_div (lit "None"))
  | _ =>
      cbind (render_items h 0 citations) (fun items =>
      Normal (lit "<div " ++ attr "class" (lit "citations") ++ lit ">"
              ++ join [] items ++ lit "</div>"))
  end.

Record PingResult : Type := { ping_ok : bool; ping_status : N; ping_text : jsstring }.

(** [pingWorker()] *)
Definition pingWorker (h : World) : Completion PingResult :=
  let url := WORKER_BASE ++ lit "/" in
  cbind (fetchWithTimeout h
           {| req_url := url; req_method := lit "GET";
              req_content_type := None; req_body := None |} 8000)
        (fun res =>
  let text := match body res with BodyText t => t | BodyFails _ => [] end in
  Normal {| ping_ok := res_ok res; ping_status := status res; ping_text := text |}).

(** The object JSON.parse is replaced by when it throws. *)
Definition not_json (raw : jsstring) : json :=
  JObject [(lit "error", JString (lit "Bad response (not JSON)"));
           (lit "raw", JString raw)].

(** The request [checkClaim] hands to [fetchWithTimeout]. *)
Definition check_request (h : World) (claim : jsstring) (evidenceUrls : list jsstring)
  : Request :=
  let url := WORKER_BASE ++ CHECK_ENDPOINT in
  let payload :=
    {| p_claim := claim; p_evidence_urls := evidenceUrls;
       p_client_ts := Date_toISOString h |} in
  {| req_url := url; req_method := lit "POST";
     req_content_type := Some (lit "application/json");
     req_body := Some payload |}.

(** [checkClaim({ claim, evidenceUrls })], returning [{ res, data, raw }] *)
Definition checkClaim (h : World) (claim : jsstring) (evidenceUrls : list jsstring)
  : Completion (Response * json * jsstring) :=
  cbind (fetchWithTimeout h (check_request h claim evidenceUrls) FETCH_TIMEOUT_MS)
        (fun res =>
  cbind (res_text res) (fun raw =>
  let data :=
    match JSON_parse h raw with
    | Some d => d
    | None => not_json raw
    end in
  Normal (res, data, raw))).

(** *** Statements that write to the page and may throw *)

Definition M (A : Type) : Type := Els -> Completion A * Els.

Definition ret {A} (a : A) : M A := fun ui => (Normal a, ui).

Definition bind {A B} (m : M A) (k : A -> M B) : M B :=
  fun ui =>
    match m ui with
    | (Normal a, ui') => k a ui'
    | (Throw e, ui') => (Throw e, ui')
    end.

Definition lift {A} (c : Completion A) : M A := fun ui => (c, ui).

Definition write (f : Els -> Els) : M unit := fun ui => (Normal tt, f ui).

(** [if (els.id) { m }] *)
Definition when_present (id : ElId) (m : M unit) : M unit :=
  fun ui => if present id ui then m ui else (Normal tt, ui).

Notation "x <- c1 ;; c2" := (bind c1 (fun x => c2))
  (at level 61, c1 at next level, right associativity).
Notation "c1 ;; c2" := (bind c1 (fun _ => c2))
  (at level 61, right associativity).

(** A statement that leaves every element but [id] as it was, however
    it ends. *)
Definition only_writes {A} (id : ElId) (m : M A) : Prop :=
  forall ui j, j <> id -> snd (m ui) j = ui j.

(** A statement that neither adds nor removes an element, however it
    ends. *)
Definition keeps_elements {A} (m : M A) : Prop :=
  forall ui j, present j (snd (m ui)) = present j ui.

(** A statement that runs to its end on every page. *)
Definition succeeds (m : M unit) : Prop :=
  forall ui, exists ui', m ui = (Normal tt, ui').

(** [setText(el, v)] for a value of the response: [String(v ?? "")] is
    evaluated only when the element exists. *)
Definition setText_value (h : World) (id : ElId) (v : jsval) : M unit :=
  when_present id
    (s <- lift (ToString h (nullish v (Some (JString [])))) ;;
     write (setText id s)).

(** How the click handler of the check button ended.  The script has no
    such value: it names the [return] (or the end of the [try] or [catch]
    block) that the run reached. *)
Inductive Exit : Type :=
| ExitNoClaim                  (* "Enter a claim first." *)
| ExitHttpError (code : N)     (* [!res.ok] *)
| ExitPayloadError             (* [data?.error] *)
| ExitOk                       (* end of the [try] block *)
| ExitCaught (e : JsError).    (* end of the [catch] block *)

Definition li (x : jsstring) : jsstring := lit "<li>" ++ x ++ lit "</li>".

Definition hint_no_evidence : jsstring :=
  lit "No evidence links provided " ++ emdash ++ lit " add 1" ++ endash
  ++ lit "2 credible sources.".
Definition hint_short_claim : jsstring :=
  lit "Claim is short " ++ emdash ++ lit " add who/what/when/where details.".
Definition hint_minimal_mode : jsstring :=
  lit "No explanation returned " ++ emdash ++ lit " backend may be in minimal mode.".

(** The [hints] array of the handler. *)
Definition fallback_hints (claim : jsstring) (evidenceUrls : list jsstring) : list jsstring :=
  let hints := [] in
  let hints := if Nat.eqb (List.length evidenceUrls) 0 then hints ++ [hint_no_evidence] else hints in
  let hints := if Nat.ltb (List.length claim) 12 then hints ++ [hint_short_claim] else hints in
  if Nat.eqb (List.length hints) 0 then hints ++ [hint_minimal_mode] else hints.

(** [Math.max(0, Math.min(100, Math.round(score)))] *)
Definition pct_of (score : JsNum) : JsNum :=
  Math_max (of_Z 0) (Math_min (of_Z 100) (Math_round score)).

(** The text [`${pct}%`] *)
Definition pct_text (h : World) (pct : JsNum) : jsstring :=
  NumberToString (NumberToString_frac h) pct ++ lit "%".

(** The branch of the handler for [!res.ok]. *)
Definition show_http_error (res : Response) (raw : jsstring) (ui : Els) : Els :=
  let ui := setStatus apiStatus apiPill SError
              (lit "API error (" ++ dec (status res) ++ lit ")") ui in
  let ui := setText resultTitle (lit "Error") ui in
  let ui := setText resultBadge (lit "HTTP " ++ dec (status res)) ui in
  let ui := setHTML whyList
              (lit "<li>Backend returned HTTP " ++ dec (status res) ++ lit ".</li>"
               ++ nl ++ spaces 13
               ++ lit "<li>Most common cause: wrong route or method (needs <b>POST "
               ++ CHECK_ENDPOINT ++ lit "</b>).</li>") ui in
  let ui := setHTML citationsBox (muted_div (lit "None")) ui in
  setText debugBox
    (lit "[HTTP " ++ dec (status res) ++ lit "] " ++ statusText res
     ++ nl ++ nl ++ lit "RAW:" ++ nl ++ slice0 2000 raw) ui.

(** The branch of the handler for [data?.error]. *)
Definition show_payload_error (h : World) (data : json) (raw : jsstring) : M unit :=
  write (setStatus apiStatus apiPill SError (lit "Bad response")) ;;
  write (setText resultTitle (lit "Error")) ;;
  write (setText resultBadge (lit "Bad response")) ;;
  write (setHTML whyList
           (lit "<li>Backend responded, but payload wasn" ++ rsquo
            ++ lit "t usable JSON.</li>"
            ++ nl ++ spaces 13 ++ lit "<li>See Debug for raw response.</li>")) ;;
  write (setHTML citationsBox (muted_div (lit "None"))) ;;
  when_present debugBox
    (s <- lift (ToString h (or_else (get_opt (Some data) (lit "raw"))
                                    (Some (JString raw)))) ;;
     write (setText debugBox (lit "[BAD JSON]" ++ nl ++ slice0 2000 s))).

(** [data?.score ?? data?.confidence ?? 0], the argument of [Number]. *)
Definition score_source (data : json) : jsval :=
  let d := Some data in
  nullish (nullish (get_opt d (lit "score")) (get_opt d (lit "confidence")))
          (Some (JNumber (of_Z 0))).

(** The object [v]: its [label] and its [badge]. *)
Definition verdict_of (data : json) (score : JsNum) : jsval * jsval :=
  let d := Some data in
  if Json.truthy (get_opt d (lit "verdict"))
  then (get_opt d (lit "verdict"),
        or_else (get_opt d (lit "badge")) (Some (JString [])))
  else let v := verdictFromScore score in
       (Some (JString (label v)), Some (JString (badge v))).

(** The status and the verdict of a usable response. *)
Definition show_verdict (h : World) (v : jsval * jsval) : M unit :=
  write (setStatus apiStatus apiPill SOk (lit "Checked " ++ checkmark)) ;;
  setText_value h resultTitle (fst v) ;;
  setText_value h resultBadge (or_else (snd v) (Some (JString []))).

(** The score bar, the percentage and the score label. *)
Definition show_score (h : World) (score : JsNum) (ui : Els) : Els :=
  let pct := pct_of score in
  let ui := update scoreBar (set_style_width (pct_text h pct)) ui in
  let ui := setText scorePct (pct_text h pct) ui in
  setText scoreLabel (lit "Confidence") ui.

(** One item of the service's [why] list as markup. *)
Definition why_item (h : World) (x : json) : Completion jsstring :=
  cbind (ToString h (Some x)) (fun s => Normal (li (escape_lt s))).

(** The explanation list. *)
Definition show_why (h : World) (claim : jsstring) (evidenceUrls : list jsstring)
  (data : json) : M unit :=
  let why := array_or_empty (get_opt (Some data) (lit "why")) in
  when_present whyList
    (if Nat.eqb (List.length why) 0 then
       let hints := fallback_hints claim evidenceUrls in
       write (setHTML whyList (join [] (map li hints)))
     else
       items <- lift (cmap (why_item h) why) ;;
       write (setHTML whyList (join [] items))).

(** The citations. *)
Definition show_citations (h : World) (data : json) : M unit :=
  let citations := array_or_empty (get_opt (Some data) (lit "citations")) in
  when_present citationsBox
    (html <- lift (renderCitations h citations) ;;
     write (setHTML citationsBox html)).

(** The debug box of a usable response. *)
Definition show_debug (h : World) (claim : jsstring) (evidenceUrls : list jsstring)
  (data : json) : Els -> Els :=
  setText debugBox
    (JSON_stringify_debug h (WORKER_BASE ++ CHECK_ENDPOINT) claim evidenceUrls data).

(** The rest of the [try] block, for a usable response. *)
Definition show_result (h : World) (claim : jsstring) (evidenceUrls : list jsstring)
  (data : json) : M unit :=
  score <- lift (ToNumber h (score_source data)) ;;
  show_verdict h (verdict_of data score) ;;
  write (show_score h score) ;;
  show_why h claim evidenceUrls data ;;
  show_citations h data ;;
  write (show_debug h claim evidenceUrls data).

(** The [try] block of the handler. *)
Definition try_block (h : World) (claim : jsstring) (evidenceUrls : list jsstring)
  : M Exit :=
  r <- lift (checkClaim h claim evidenceUrls) ;;
  let '(res, data, raw) := r in
  if negb (res_ok res) then
    write (show_http_error res raw) ;;
    ret (ExitHttpError (status res))
  else if Json.truthy (get_opt (Some data) (lit "error")) then
    show_payload_error h data raw ;;
    ret ExitPayloadError
  else
    show_result h claim evidenceUrls data ;;
    ret ExitOk.

(** The message the [catch] block picks. *)
Definition catch_message (e : JsError) : jsstring :=
  if eqb (err_name e) (lit "AbortError")
  then lit "Request timed out"
  else lit "Failed to fetch".

(** The [catch] block of the handler. *)
Definition catch_block (e : JsError) (ui : Els) : Els :=
  let msg := catch_message e in
  let ui := setStatus apiStatus apiPill SError msg ui in
  let ui := setText resultTitle (lit "Error") ui in
  let ui := setText resultBadge msg ui in
  let ui := setHTML whyList
              (lit "<li>Frontend couldn" ++ rsquo ++ lit "t reach the Worker.</li>"
               ++ nl ++ spaces 11
               ++ lit "<li>Check WORKER_BASE in <code>docs/app.js</code>.</li>"
               ++ nl ++ spaces 11
               ++ lit "<li>Confirm Worker is deployed + route <b>POST "
               ++ CHECK_ENDPOINT ++ lit "</b> exists.</li>") ui in
  let ui := setHTML citationsBox (muted_div (lit "None")) ui in
  setText debugBox
    (lit "[FETCH ERROR]" ++ nl ++ Error_toString e ++ nl ++ nl
     ++ lit "WORKER_BASE=" ++ WORKER_BASE) ui.

(** The writes that put the page in the checking state. *)
Definition show_checking (ui : Els) : Els :=
  let ui := setStatus apiStatus apiPill SChecking (lit "Checking" ++ ellipsis) ui in
  let ui := setText resultTitle (lit "Checking" ++ ellipsis) ui in
  let ui := setText resultBadge [] ui in
  let ui := update scoreBar (set_style_width (lit "0%")) ui in
  let ui := setText scorePct emdash ui in
  let ui := setHTML whyList
              (lit "<li " ++ attr "class" (lit "muted") ++ lit ">Working"
               ++ ellipsis ++ lit "</li>") ui in
  let ui := setHTML citationsBox (muted_div (lit "Loading" ++ ellipsis)) ui in
  setText debugBox [] ui.

(** [els.claimInput.value] and [els.evidenceInput.value] *)
Definition value_of (id : ElId) (ui : Els) : jsstring :=
  match ui id with Some e => value e | None => [] end.

Definition claim_of (ui : Els) : jsstring := trim (value_of claimInput ui).

Definition evidence_of (ui : Els) : list jsstring :=
  extractUrls (TString (if present evidenceInput ui then value_of evidenceInput ui else [])).

(** The click handler of the check button: how it ended and the page it
    leaves. *)
Definition checkBtn_click (h : World) (ui : Els) : Exit * Els :=
  let claim := claim_of ui in
  let evidenceUrls := evidence_of ui in
  if negb (JsStr.truthy claim) then
    (ExitNoClaim, setStatus apiStatus apiPill SError (lit "Enter a claim first.") ui)
  else
    let ui := show_checking ui in
    match try_block h claim evidenceUrls ui with
    | (Normal exit, ui') => (exit, ui')
    | (Throw e, ui') => (ExitCaught e, catch_block e ui')
    end.

(** The click handler of the clear button. *)
Definition clearBtn_click (ui : Els) : Els :=
  let ui := update claimInput (set_value []) ui in
  let ui := update evidenceInput (set_value []) ui in
  let ui := setText resultTitle emdash ui in
  let ui := setText resultBadge [] ui in
  let ui := setText scoreLabel (lit "Confidence") ui in
  let ui := update scoreBar (set_style_width (lit "0%")) ui in
  let ui := setText scorePct (lit "0%") ui in
  let ui := setHTML whyList [] ui in
  let ui := setHTML citationsBox (muted_div (lit "None")) ui in
  let ui := setText debugBox [] ui in
  let ui := setStatus apiStatus apiPill SIdle (lit "API: not checked") ui in
  update claimInput (set_focused true) ui.

(** The click handler of the debug toggle. *)
Definition debugToggle_click (ui : Els) : Els :=
  let open :=
    match ui debugBox with
    | Some e => match data_open e with Some a => eqb a (lit "true") | None => false end
    | None => false
    end in
  let ui := update debugBox
              (set_data_open (Some (if open then lit "false" else lit "true"))) ui in
  update debugBox (set_style_display (if open then lit "none" else lit "block")) ui.

(** The click handler of an example button whose [data-example]
    attribute is [example]. *)
Definition example_click (h : World) (example : jsstring) : M unit :=
  let parts := map trim (split 124 example) in
  let c := nth 0 parts [] in
  let urls := nth_error parts 1 in
  (if JsStr.truthy c then write (update claimInput (set_value c)) else ret tt) ;;
  match urls with
  | Some u =>
      if JsStr.truthy u then
        let list := filter JsStr.truthy (map trim (split 44 u)) in
        fun ui =>
          if present evidenceInput ui
          then (Normal tt, update evidenceInput (set_value (join nl list)) ui)
          else (Throw (TypeError h SetPropertyOfNull), ui)
      else ret tt
  | None => ret tt
  end ;;
  write (update claimInput (set_focused true)).

(** The connectivity probe that [boot] starts. *)
Definition ping_on_load (h : World) (ui : Els) : Els :=
  let ui := setStatus apiStatus apiPill SChecking (lit "API: checking" ++ ellipsis) ui in
  match pingWorker h with
  | Normal ping =>
      if ping_ok ping then
        setStatus apiStatus apiPill SOk (lit "API: reachable") ui
      else
        let ui := setStatus apiStatus apiPill SError
                    (lit "API: unreachable (" ++ dec (ping_status ping) ++ lit ")") ui in
        setText debugBox
          (lit "[PING] " ++ dec (ping_status ping) ++ nl ++ slice0 800 (ping_text ping)) ui
  | Throw e =>
      let ui := setStatus apiStatus apiPill SError (lit "API: unreachable") ui in
      setText debugBox (lit "[PING ERROR]" ++ nl ++ Error_toString e) ui
  end.

(** What happens on the page once [boot] has run. *)
Inductive Event : Type :=
| Loaded                                   (* DOMContentLoaded: [boot] runs *)
| ClickCheck
| ClickClear
| ClickDebugToggle
| ClickExample (data_example : jsstring).

(** [boot] wires nothing when the check button or the claim input is
    missing. *)
Definition wired (ui : Els) : bool := present checkBtn ui && present claimInput ui.

(** The page after an event, each handler run to its end; an exception
    that leaves a handler ends it and keeps the writes made so far. *)
Definition handle (h : World) (ev : Event) (ui : Els) : Els :=
  if negb (wired ui) then ui
  else
    match ev with
    | Loaded => ping_on_load h ui
    | ClickCheck => snd (checkBtn_click h ui)
    | ClickClear => if present clearBtn ui then clearBtn_click ui else ui
    | ClickDebugToggle =>
        if present debugToggle ui && present debugBox ui then debugToggle_click ui else ui
    | ClickExample example => snd (example_click h example ui)
    end.

End App.

(* ================================================================== *)
(** ** Concrete pages, worlds and responses *)

Module Samples.
Import JsStr Evidence Num Exn Json Dom Host App.

Definition blank : Element :=
  {| classList := []; content := Text []; value := []; style_width := [];
     style_display := []; data_open := None; focused := false |}.

(** A page that has every element, with [claim] and [evidence] typed in. *)
Definition page (claim evidence : jsstring) : Els :=
  update evidenceInput (set_value evidence)
    (update claimInput (set_value claim) (fun _ => Some blank)).

(** The same page showing the result of an earlier check. *)
Definition checked_page : Els :=
  setStatus apiStatus apiPill SOk (lit "Checked " ++ checkmark)
    (page (lit "The sky is blue today") []).

(** A world whose network behaves as [net] and whose JSON.parse is
    [parse]; plain objects and arrays convert as objects without own
    [toString] or [valueOf] do. *)
Definition world (net : NetBehaviour) (parse : jsstring -> option json) : World :=
  {| JSON_parse := parse;
     StringToNumber := fun _ => NaN;
     ObjectToNumber := fun _ => Normal NaN;
     ObjectToString := fun _ => Normal (lit "[object Object]");
     NumberToString_frac := fun _ => lit "?";
     URL_hostname := fun _ => None;
     JSON_stringify_debug := fun _ _ _ _ => lit "{}";
     Date_toISOString := lit "2026-01-01T00:00:00.000Z";
     network := fun _ => net;
     abort_message := lit "signal is aborted without reason";
     TypeError_message := fun _ => lit "type error" |}.

(** A response that arrives after 120 ms. *)
Definition responds (code : N) (raw : jsstring) : NetBehaviour :=
  Responds 120 {| status := code; statusText := []; body := BodyText raw |}.

(** A parser that knows one text: it agrees with JSON.parse on [raw] when
    [d] is the value of [raw], and rejects every other text. *)
Definition parses (raw : jsstring) (d : json) : jsstring -> option json :=
  fun s => if eqb s raw then Some d else None.

Definition rejects : jsstring -> option json := fun _ => None.

(** A number written with a decimal point, as the rational it denotes
    (the double nearest to 142.7 rounds and compares as 142.7 does). *)
Definition decimal (num : Z) (den : positive) : JsNum := Fin (num # den).

Definition field (k : string) (v : json) : jsstring * json := (lit k, v).

(** [{"badge":"Verified","score":90}] *)
Definition body_badge_only : jsstring :=
  lit "{" ++ dq ++ lit "badge" ++ dq ++ lit ":" ++ dq ++ lit "Verified" ++ dq
  ++ lit "," ++ dq ++ lit "score" ++ dq ++ lit ":90}".
Definition data_badge_only : json :=
  JObject [field "badge" (JString (lit "Verified")); field "score" (JNumber (of_Z 90))].

(** [{"error":"boom","raw":"upstream"}] *)
Definition body_error_raw : jsstring :=
  lit "{" ++ dq ++ lit "error" ++ dq ++ lit ":" ++ dq ++ lit "boom" ++ dq
  ++ lit "," ++ dq ++ lit "raw" ++ dq ++ lit ":" ++ dq ++ lit "upstream" ++ dq ++ lit "}".
Definition data_error_raw : json :=
  JObject [field "error" (JString (lit "boom")); field "raw" (JString (lit "upstream"))].

(** [{"score":142.7}] and [{"score":-5}] and [{}] *)
Definition data_score (n : JsNum) : json := JObject [field "score" (JNumber n)].

Definition html_oops : jsstring := lit "<html>oops</html>".

(** The response with status [code] and body [raw]. *)
Definition response (code : N) (raw : jsstring) : Response :=
  {| status := code; statusText := []; body := BodyText raw |}.

(** A world in which the Worker answers every request with status [code]
    and a body [raw] that parses to [d]. *)
Definition answering (code : N) (raw : jsstring) (d : json) : World :=
  world (Responds 120 (response code raw)) (parses raw d).

(** [{"score":142.7}] as a body. *)
Definition body_score_high : jsstring :=
  lit "{" ++ dq ++ lit "score" ++ dq ++ lit ":142.7}".

(** [{"why":["a<b"]}] *)
Definition body_why : jsstring :=
  lit "{" ++ dq ++ lit "why" ++ dq ++ lit ":[" ++ dq ++ lit "a<b" ++ dq ++ lit "]}".
Definition data_why : json :=
  JObject [field "why" (JArray [JString (lit "a<b")])].

(** [{"verdict":"True","badge":"Verified","score":10}] *)
Definition body_verdict : jsstring :=
  lit "{" ++ dq ++ lit "verdict" ++ dq ++ lit ":" ++ dq ++ lit "True" ++ dq
  ++ lit "," ++ dq ++ lit "badge" ++ dq ++ lit ":" ++ dq ++ lit "Verified" ++ dq
  ++ lit "," ++ dq ++ lit "score" ++ dq ++ lit ":10}".
Definition data_verdict : json :=
  JObject [field "verdict" (JString (lit "True"));
           field "badge" (JString (lit "Verified"));
           field "score" (JNumber (of_Z 10))].

(** [{"score":90,"citations":[null]}]: a citation that is not an
    object. *)
Definition body_null_citation : jsstring :=
  lit "{" ++ dq ++ lit "score" ++ dq ++ lit ":90," ++ dq ++ lit "citations" ++ dq
  ++ lit ":[null]}".
Definition data_null_citation : json :=
  JObject [field "score" (JNumber (of_Z 90)); field "citations" (JArray [JNull])].

(** [{}] *)
Definition body_empty : jsstring := lit "{}".
Definition data_empty : json := JObject [].

(** Pages with a short claim and with a longer one. *)
Definition page_hello : Els := page (lit "hello") [].
Definition page_sky : Els := page (lit "The sky is blue today") [].

End Samples.

(* ================================================================== *)
(** ** The specification's words, for comparison with the script *)

Module Spec.
Import JsStr Evidence Num Exn Json Dom Host App.

(** "The first http(s):// token up to the next whitespace
    (case-insensitive scheme)": [u] is http or https in any case, then
    [://], then at least one code unit, none of them white space. *)
Definition is_http_token (u : jsstring) : Prop :=
  exists scheme rest,
    u = scheme ++ lit "://" ++ rest
    /\ (map canonicalize scheme = lit "HTTP" \/ map canonicalize scheme = lit "HTTPS")
    /\ rest <> []
    /\ Forall (fun c => is_ws c = false) rest.

(** [u] is a run of consecutive code units of [line]. *)
Definition part_of (u line : jsstring) : Prop :=
  exists before after, line = before ++ u ++ after.

(** [r] is the integer nearest to [q], the upper one on a tie. *)
Definition nearest_integer (q : Q) (r : Z) : Prop :=
  (inject_Z r - (1 # 2) <= q)%Q /\ (q < inject_Z r + (1 # 2))%Q.

(** "Clamp to [0,100] and round to nearest integer for display": [n] is
    the percentage to display for the number [x]. *)
Definition displayed_pct (x : JsNum) (n : Z) : Prop :=
  match x with
  | NaN => False
  | NegInf => n = 0%Z
  | PosInf => n = 100%Z
  | Fin q => exists r, nearest_integer q r /\ n = Z.max 0 (Z.min 100 r)
  end.

(** "Evidence hint, length hint, fallback hint (fallback suppressed if any
    other hint present)". *)
Definition hints_in_order (no_evidence short_claim : bool) : list jsstring :=
  (if no_evidence then [hint_no_evidence] else [])
  ++ (if short_claim then [hint_short_claim] else [])
  ++ (if negb no_evidence && negb short_claim then [hint_minimal_mode] else []).

(** "Escaped for the [<] character": [s] with [&lt;] written for each
    [<]. *)
Fixpoint escaped (s : jsstring) : jsstring :=
  match s with
  | [] => []
  | c :: r =>
      if N.eqb c 60 then [38; 108; 116; 59]%N ++ escaped r else c :: escaped r
  end.

(** "Use service-provided list if non-empty": one list item for each
    text of the list, escaped, in the order of the list, and nothing
    else. *)
Definition why_markup (texts : list jsstring) : jsstring :=
  List.concat (map (fun s => lit "<li>" ++ escaped s ++ lit "</li>") texts).

(** The check of the page [ui] got the response [res] with a body that
    gave [data], the status was successful, the body carried no error
    marker, and the handler rendered it to the end. *)
Definition rendered (h : World) (ui : Els) (res : Response) (data : json)
  (raw : jsstring) : Prop :=
  JsStr.truthy (claim_of ui) = true
  /\ checkClaim h (claim_of ui) (evidence_of ui) = Normal (res, data, raw)
  /\ res_ok res = true
  /\ Json.truthy (get_opt (Some data) (lit "error")) = false
  /\ fst (checkBtn_click h ui) = ExitOk.

(** The check of the page [ui] was submitted, and the response [res]
    arrived before the deadline with a body that reads as [raw]. *)
Definition answered (h : World) (ui : Els) (res : Response) (raw : jsstring) : Prop :=
  JsStr.truthy (claim_of ui) = true
  /\ exists ms,
       network h (check_request h (claim_of ui) (evidence_of ui)) = Responds ms res
       /\ (ms < FETCH_TIMEOUT_MS)%N
       /\ body res = BodyText raw.

(** The request settles, one way or the other, before [t] milliseconds. *)
Definition settles_before (b : NetBehaviour) (t : N) : bool :=
  match b with
  | Responds ms _ | Fails ms _ => (ms <? t)%N
  | Hangs => false
  end.

(** The elements the error branches of the handler write to. *)
Definition error_view : list ElId :=
  [apiStatus; apiPill; resultTitle; resultBadge; whyList; citationsBox; debugBox].

(** The submit did not give a response to render: it was rejected, or the
    status was not successful, or the body carried an error marker. *)
Definition not_usable (c : Completion (Response * json * jsstring)) : Prop :=
  match c with
  | Throw _ => True
  | Normal (res, data, _) =>
      res_ok res = false \/ Json.truthy (get_opt (Some data) (lit "error")) = true
  end.

(** The page the payload-error branch leaves when the text it converts
    for the debug box is [s]. *)
Definition payload_error_page (s : jsstring) (ui : Els) : Els :=
  let ui := setStatus apiStatus apiPill SError (lit "Bad response") ui in
  let ui := setText resultTitle (lit "Error") ui in
  let ui := setText resultBadge (lit "Bad response") ui in
  let ui := setHTML whyList
              (lit "<li>Backend responded, but payload wasn" ++ rsquo
               ++ lit "t usable JSON.</li>"
               ++ nl ++ spaces 13 ++ lit "<li>See Debug for raw response.</li>") ui in
  let ui := setHTML citationsBox (muted_div (lit "None")) ui in
  setText debugBox (lit "[BAD JSON]" ++ nl ++ slice0 2000 s) ui.

(** "Non-JSON success body ... yields PayloadError, UI error state, raw
    body available in diagnostics truncated to a bounded length", for a
    body that does not parse and for one that carries an error marker
    alike: the debug box shows the first 2000 code units of the body. *)
Definition payload_error_keeps_raw_body : Prop :=
  forall h ui res raw,
    answered h ui res raw ->
    res_ok res = true ->
    (JSON_parse h raw = None
     \/ exists data, JSON_parse h raw = Some data
                     /\ Json.truthy (get_opt (Some data) (lit "error")) = true) ->
    fst (checkBtn_click h ui) = ExitPayloadError
    /\ state_of apiStatus (snd (checkBtn_click h ui)) = written SError (ui apiStatus)
    /\ shown debugBox (snd (checkBtn_click h ui))
       = written (Text (lit "[BAD JSON]" ++ nl ++ slice0 2000 raw)) (ui debugBox).

(** "ConnectivityState: ... mutated only by the probe and the check flow":
    clearing, toggling the debug box and filling in an example leave the
    status indicator and the pill as they are. *)
Definition status_written_only_by_probe_and_check : Prop :=
  forall h ui ev,
    (ev = ClickClear \/ ev = ClickDebugToggle \/ exists x, ev = ClickExample x) ->
    handle h ev ui apiStatus = ui apiStatus
    /\ handle h ev ui apiPill = ui apiPill.

(** The expected success body of the interface: every field optional,
    [score] and [confidence] numbers, [verdict] and [badge] strings, [why]
    a list of strings, [citations] a list of objects whose [title], [url]
    and [snippet] are strings. *)
Definition optional (P : json -> Prop) (v : jsval) : Prop :=
  match v with
  | None => True
  | Some x => P x
  end.

Definition is_number (x : json) : Prop := exists n, x = JNumber n.
Definition is_string (x : json) : Prop := exists s, x = JString s.
Definition is_list_of (P : json -> Prop) (x : json) : Prop :=
  exists items, x = JArray items /\ Forall P items.

Definition is_citation (c : json) : Prop :=
  (exists fields, c = JObject fields)
  /\ optional is_string (get_opt (Some c) (lit "title"))
  /\ optional is_string (get_opt (Some c) (lit "url"))
  /\ optional is_string (get_opt (Some c) (lit "snippet")).

Definition conforming (data : json) : Prop :=
  optional is_number (get_opt (Some data) (lit "score"))
  /\ optional is_number (get_opt (Some data) (lit "confidence"))
  /\ optional is_string (get_opt (Some data) (lit "verdict"))
  /\ optional is_string (get_opt (Some data) (lit "badge"))
  /\ optional (is_list_of is_string) (get_opt (Some data) (lit "why"))
  /\ optional (is_list_of is_citation) (get_opt (Some data) (lit "citations")).

(** "Use service-provided verdict/badge if present; otherwise derive via
    fixed thresholds", read field by field: a verdict that is there is the
    label shown, and a badge that is there is the badge shown. *)
Definition shows_service_verdict_and_badge_when_present : Prop :=
  forall h ui res data raw,
    rendered h ui res data raw ->
    (forall s, get_opt (Some data) (lit "verdict") = Some (JString s) -> s <> [] ->
               shown resultTitle (snd (checkBtn_click h ui))
               = written (Text s) (ui resultTitle))
    /\ (forall s, get_opt (Some data) (lit "badge") = Some (JString s) -> s <> [] ->
               shown resultBadge (snd (checkBtn_click h ui))
               = written (Text s) (ui resultBadge)).

End Spec.

(* ================================================================== *)
(** ** Notions for the properties of the handlers *)

Module More.
Import JsStr Evidence Num Exn Json Dom Host App.

(** The three class names [setStatus] manages. *)
Definition state_classes : list jsstring := [lit "ok"; lit "error"; lit "checking"].

(** The class [setStatus] adds for a state: none for idle. *)
Definition state_class (st : ConnState) : list jsstring :=
  match st with
  | SIdle => []
  | SChecking => [lit "checking"]
  | SOk => [lit "ok"]
  | SError => [lit "error"]
  end.

(** The debug box is open and displayed, or closed and hidden. *)
Definition debug_consistent (e : Element) : Prop :=
  (data_open e = Some (lit "true") /\ style_display e = lit "block")
  \/ (data_open e = Some (lit "false") /\ style_display e = lit "none").

(** The elements a check writes to. *)
Definition check_view : list ElId :=
  [apiStatus; apiPill; resultTitle; resultBadge; scoreLabel; scoreBar; scorePct;
   whyList; citationsBox; debugBox].


(** The probe's request. *)
Definition ping_request : Request :=
  {| req_url := WORKER_BASE ++ lit "/"; req_method := lit "GET";
     req_content_type := None; req_body := None |}.

(** What a check never writes to: the value of an input, the open state
    and the display of the debug box, the focus. *)
Definition user_part (e : Element) : jsstring * option jsstring * jsstring * bool :=
  (value e, data_open e, style_display e, focused e).

(** Every code unit of [s] is white space. *)
Definition blank_text (s : jsstring) : Prop := Forall (fun c => is_ws c = true) s.

(** What the clear button does to the element [j]. *)
Definition clear_element (j : ElId) (e : Element) : Element :=
  match j with
  | claimInput => set_focused true (set_value [] e)
  | evidenceInput => set_value [] e
  | resultTitle => set_content (Text emdash) e
  | resultBadge => set_content (Text []) e
  | scoreLabel => set_content (Text (lit "Confidence")) e
  | scoreBar => set_style_width (lit "0%") e
  | scorePct => set_content (Text (lit "0%")) e
  | whyList => set_content (Markup []) e
  | citationsBox => set_content (Markup (muted_div (lit "None"))) e
  | debugBox => set_content (Text []) e
  | apiStatus =>
      set_content (Text (lit "API: not checked"))
        (set_classList (restyle SIdle (classList e)) e)
  | apiPill => set_classList (restyle SIdle (classList e)) e
  | checkBtn | clearBtn | debugToggle => e
  end.

(** The parts of an example's [data-example] attribute, trimmed. *)
Definition example_parts (example : jsstring) : list jsstring :=
  map trim (split 124 example).

(** The URL items of an example's second part. *)
Definition example_urls (u : jsstring) : list jsstring :=
  filter JsStr.truthy (map trim (split 44 u)).

(** A statement that keeps the part [g j] of every element [j], however
    it ends. *)
Definition keeps_parts {A B} (g : ElId -> Element -> B) (m : M A) : Prop :=
  forall ui j, option_map (g j) (snd (m ui) j) = option_map (g j) (ui j).

(** The elements whose text or markup a check writes. *)
Definition content_ids : list ElId :=
  [apiStatus; resultTitle; resultBadge; scoreLabel; scorePct; whyList;
   citationsBox; debugBox].

(** The state a check leaves the status indicator in: ok at the end of
    the rendering, error at every other exit. *)
Definition exit_state (x : Exit) : ConnState :=
  match x with
  | ExitOk => SOk
  | _ => SError
  end.

(** The page after a sequence of events, in their order. *)
Definition run (h : World) (evs : list Event) (ui : Els) : Els :=
  fold_left (fun u ev => handle h ev u) evs ui.

(** The debug box, if the page has one, is open and displayed or closed
    and hidden. *)
Definition debug_ok (ui : Els) : Prop :=
  match ui debugBox with
  | Some e => debug_consistent e
  | None => True
  end.

(** A value on which [(v || d).replace(...)] works: falsy, so that the
    default string is taken, or a string. *)
Definition stringish (v : jsval) : Prop :=
  Json.truthy v = false \/ exists s, v = Some (JString s).

(** A citation that [renderCitations] can render. *)
Definition renderable (c : json) : Prop :=
  c <> JNull
  /\ stringish (get_opt (Some c) (lit "title"))
  /\ stringish (get_opt (Some c) (lit "url"))
  /\ stringish (get_opt (Some c) (lit "snippet")).

(** The number of [<] in a string. *)
Definition count_lt (s : jsstring) : nat := count_occ N.eq_dec s 60%N.

(** The world [h] with another network. *)
Definition with_network (h : World) (net : Request -> NetBehaviour) : World :=
  {| JSON_parse := JSON_parse h;
     StringToNumber := StringToNumber h;
     ObjectToNumber := ObjectToNumber h;
     ObjectToString := ObjectToString h;
     NumberToString_frac := NumberToString_frac h;
     URL_hostname := URL_hostname h;
     JSON_stringify_debug := JSON_stringify_debug h;
     Date_toISOString := Date_toISOString h;
     network := net;
     abort_message := abort_message h;
     TypeError_message := TypeError_message h |}.

End More.

(* ================================================================== *)
(** * Properties *)

Import JsStr Evidence Num Exn Json Dom Host App Samples Spec.

(** ** Strings *)

Lemma eqb_eq : forall a b : jsstring, eqb a b = true <-> a = b.
Proof.
  induction a as [|x a IH]; destruct b as [|y b]; simpl; split;
    try discriminate; try reflexivity.
  - intros H. apply andb_true_iff in H. destruct H as [Hx Hr].
    apply N.eqb_eq in Hx. apply IH in Hr. now subst.
  - intros H. injection H as -> ->. rewrite N.eqb_refl. simpl. now apply IH.
Qed.

Lemma eqb_refl : forall a : jsstring, eqb a a = true.
Proof. intros a. now apply eqb_eq. Qed.

Lemma existsb_eqb_In : forall (x : jsstring) (s : list jsstring),
  existsb (eqb x) s = true <-> In x s.
Proof.
  intros x s. rewrite existsb_exists. split.
  - intros [y [Hy He]]. apply eqb_eq in He. now subst.
  - intros H. exists x. split; [assumption | apply eqb_refl].
Qed.

Lemma split_nonempty : forall (sep : N) (a : jsstring), split sep a <> [].
Proof.
  intros sep a. destruct a as [|c a]; simpl; [discriminate|].
  destruct (N.eqb c sep); [discriminate|]. destruct (split sep a); discriminate.
Qed.

Lemma split_app : forall (sep : N) (a b : jsstring),
  split sep (a ++ sep :: b) = split sep a ++ split sep b.
Proof.
  intros sep a b. induction a as [|c a IH]; simpl.
  - now rewrite N.eqb_refl.
  - destruct (N.eqb c sep); [now rewrite IH|].
    rewrite IH. destruct (split sep a) eqn:E; [|reflexivity].
    now apply split_nonempty in E.
Qed.

Lemma split_no_sep : forall (sep : N) (a : jsstring),
  ~ In sep a -> split sep a = [a].
Proof.
  intros sep a. induction a as [|c a IH]; simpl; intros H; [reflexivity|].
  destruct (N.eqb_spec c sep) as [->|Hne]; [exfalso; now apply H; left|].
  rewrite IH; [reflexivity|]. intros Hin. apply H. now right.
Qed.

(** ** The evidence extractor *)

Lemma collect_urls_fold : forall (lines acc : list jsstring),
  fold_left
    (fun urls line =>
       match url_match line with
       | Some m => urls ++ [m]
       | None => urls
       end) lines acc
  = acc ++ flat_map pushed_by lines.
Proof.
  induction lines as [|line lines IH]; intros acc; simpl.
  - now rewrite app_nil_r.
  - rewrite IH. unfold pushed_by. destruct (url_match line); simpl.
    + now rewrite <- app_assoc.
    + reflexivity.
Qed.

Lemma collect_urls_flat_map : forall lines : list jsstring,
  collect_urls lines = flat_map pushed_by lines.
Proof. intros lines. unfold collect_urls. now rewrite collect_urls_fold. Qed.

Lemma Set_new_snoc : forall (l : list jsstring) (x : jsstring),
  Set_new (l ++ [x]) = Set_add (Set_new l) x.
Proof. intros l x. unfold Set_new. now rewrite fold_left_app. Qed.

Lemma Set_new_In : forall (l : list jsstring) (u : jsstring),
  In u (Set_new l) <-> In u l.
Proof.
  induction l as [|x l IH] using rev_ind; intros u; [reflexivity|].
  rewrite Set_new_snoc. unfold Set_add.
  destruct (existsb (eqb x) (Set_new l)) eqn:E.
  - apply existsb_eqb_In in E. apply IH in E.
    rewrite IH, in_app_iff. simpl. split; [tauto|].
    intros [H|[H|[]]]; [assumption | now subst].
  - rewrite !in_app_iff, IH. reflexivity.
Qed.

Lemma Set_new_NoDup : forall l : list jsstring, NoDup (Set_new l).
Proof.
  induction l as [|x l IH] using rev_ind; [constructor|].
  rewrite Set_new_snoc. unfold Set_add.
  destruct (existsb (eqb x) (Set_new l)) eqn:E; [assumption|].
  apply NoDup_rev in IH. rewrite <- (rev_involutive (Set_new l ++ [x])).
  apply NoDup_rev. rewrite rev_app_distr. simpl. constructor; [|assumption].
  rewrite <- in_rev. intros H. apply existsb_eqb_In in H. congruence.
Qed.

Lemma seen_before_snoc : forall (l : list jsstring) (x u v : jsstring),
  seen_before l u v -> seen_before (l ++ [x]) u v.
Proof.
  intros l x u v [p [s [-> Hp]]]. exists p, (s ++ [x]). split; [|assumption].
  now rewrite <- app_assoc.
Qed.

Lemma Set_new_order : forall (l l1 : list jsstring) u l2 v l3,
  Set_new l = l1 ++ u :: l2 ++ v :: l3 -> seen_before l u v.
Proof.
  induction l as [|x l IH] using rev_ind; intros l1 u l2 v l3 H.
  - destruct l1; discriminate.
  - rewrite Set_new_snoc in H. unfold Set_add in H.
    destruct (existsb (eqb x) (Set_new l)) eqn:E.
    + apply seen_before_snoc. eauto.
    + destruct l3 as [|y l3 _] using rev_ind.
      * assert (Hre : l1 ++ u :: l2 ++ [v] = (l1 ++ u :: l2) ++ [v])
          by now rewrite <- app_assoc.
        rewrite Hre in H. apply app_inj_tail in H. destruct H as [Hacc <-].
        assert (Hu : In u l).
        { apply Set_new_In. rewrite Hacc, in_app_iff. right. now left. }
        apply in_split in Hu. destruct Hu as [p [s ->]].
        exists p, (s ++ [x]). split; [now rewrite <- app_assoc|].
        intros Hx. assert (In x (Set_new (p ++ u :: s))) as Hc.
        { apply Set_new_In, in_app_iff. now left. }
        apply existsb_eqb_In in Hc. congruence.
      * assert (Hre : l1 ++ u :: l2 ++ v :: l3 ++ [y]
                      = (l1 ++ u :: l2 ++ v :: l3) ++ [y]).
        { rewrite <- app_assoc. simpl. now rewrite <- app_assoc. }
        rewrite Hre in H. apply app_inj_tail in H. destruct H as [Hacc _].
        apply seen_before_snoc. eauto.
Qed.

Lemma match_lit_sound : forall p s m r,
  match_lit p s = Some (m, r) ->
  s = m ++ r /\ map canonicalize m = map canonicalize p.
Proof.
  induction p as [|pc p IH]; intros s m r H; simpl in H.
  - injection H as <- <-. now split.
  - destruct s as [|c s]; [discriminate|].
    destruct (N.eqb_spec (canonicalize c) (canonicalize pc)) as [E|]; [|discriminate].
    destruct (match_lit p s) as [[m' r']|] eqn:Em; [|discriminate].
    injection H as <- <-. destruct (IH _ _ _ Em) as [-> Hc].
    split; [reflexivity|]. simpl. now rewrite E, Hc.
Qed.

Lemma canonicalize_not_letter : forall c k : N,
  canonicalize c = k -> (k < 65 \/ 90 < k)%N -> c = k.
Proof.
  intros c k H Hk. unfold canonicalize in H.
  destruct ((97 <=? c) && (c <=? 122))%N eqn:E; [|exact H].
  apply andb_true_iff in E. destruct E as [E1 E2].
  apply N.leb_le in E1, E2. lia.
Qed.

Lemma span_nonspace_sound : forall s m r,
  span_nonspace s = (m, r) ->
  s = m ++ r /\ Forall (fun c => is_ws c = false) m.
Proof.
  induction s as [|c s IH]; intros m r H; simpl in H.
  - injection H as <- <-. now split.
  - destruct (is_ws c) eqn:E.
    + injection H as <- <-. now split.
    + destruct (span_nonspace s) as [m' r'] eqn:Es. injection H as <- <-.
      destruct (IH _ _ eq_refl) as [-> Hf]. split; [reflexivity|].
      now constructor.
Qed.

Lemma match_tail_sound : forall s m,
  match_tail s = Some m ->
  exists rest after,
    m = lit "://" ++ rest /\ s = m ++ after
    /\ rest <> [] /\ Forall (fun c => is_ws c = false) rest.
Proof.
  intros s m H. unfold match_tail in H.
  destruct (match_lit (lit "://") s) as [[m1 r1]|] eqn:E1; [|discriminate].
  destruct (span_nonspace r1) as [m2 r2] eqn:E2.
  destruct m2 as [|c m2]; [discriminate|]. injection H as <-.
  apply match_lit_sound in E1. destruct E1 as [-> Hc].
  apply span_nonspace_sound in E2. destruct E2 as [-> Hf].
  assert (Hm1 : m1 = lit "://").
  { destruct m1 as [|a [|b [|d [|? ?]]]]; try discriminate.
    change (map canonicalize (lit "://")) with [58; 47; 47]%N in Hc.
    cbn [map] in Hc. injection Hc as Ha Hb Hd.
    apply canonicalize_not_letter in Ha; [|lia].
    apply canonicalize_not_letter in Hb; [|lia].
    apply canonicalize_not_letter in Hd; [|lia].
    now subst. }
  subst m1. exists (c :: m2), r2. split; [reflexivity|]. split.
  - now rewrite <- app_assoc.
  - split; [discriminate | assumption].
Qed.

Lemma match_here_sound : forall s m,
  match_here s = Some m -> is_http_token m /\ exists after, s = m ++ after.
Proof.
  intros s m H. unfold match_here in H.
  destruct (match_lit (lit "http") s) as [[m0 r0]|] eqn:E0; [|discriminate].
  apply match_lit_sound in E0. destruct E0 as [-> H0].
  destruct (match_lit (lit "s") r0) as [[ms rs]|] eqn:Es.
  - apply match_lit_sound in Es. destruct Es as [-> Hs].
    destruct (match_tail rs) as [t|] eqn:Et; simpl in H.
    + injection H as <-. apply match_tail_sound in Et.
      destruct Et as (rest & after & -> & -> & Hne & Hf). split.
      * exists (m0 ++ ms), rest. repeat split; try assumption.
        right. rewrite map_app, H0, Hs. reflexivity.
      * exists after. now rewrite <- !app_assoc.
    + destruct (match_tail (ms ++ rs)) as [t|] eqn:Et'; [|discriminate].
      simpl in H. injection H as <-. apply match_tail_sound in Et'.
      destruct Et' as (rest & after & -> & Hr & Hne & Hf). split.
      * exists m0, rest. repeat split; try assumption. now left.
      * exists after. now rewrite Hr, <- !app_assoc.
  - destruct (match_tail r0) as [t|] eqn:Et; [|discriminate].
    simpl in H. injection H as <-. apply match_tail_sound in Et.
    destruct Et as (rest & after & -> & -> & Hne & Hf). split.
    + exists m0, rest. repeat split; try assumption. now left.
    + exists after. now rewrite <- !app_assoc.
Qed.

Lemma url_match_sound : forall line u,
  url_match line = Some u -> is_http_token u /\ part_of u line.
Proof.
  induction line as [|c line IH]; intros u H.
  - vm_compute in H. discriminate H.
  - simpl in H. destruct (match_here (c :: line)) eqn:E.
    + injection H as ->. apply match_here_sound in E. destruct E as [Ht [after Ha]].
      split; [assumption|]. now exists [], after.
    + destruct (IH u H) as [Ht (before & after & ->)].
      split; [assumption|]. now exists (c :: before), after.
Qed.

Lemma extractUrls_Set_new : forall text : JsText,
  extractUrls text = Set_new (pushed_urls text).
Proof.
  intros [| |s]; try reflexivity. simpl. destruct s; reflexivity.
Qed.

Lemma pushed_urls_flat_map : forall text : JsText,
  pushed_urls text = flat_map pushed_by (visited_lines text).
Proof.
  intros [| |s]; try reflexivity. simpl. apply collect_urls_flat_map.
Qed.

Lemma evidence_lines_app : forall a b : jsstring,
  evidence_lines (a ++ nl ++ b) = evidence_lines a ++ evidence_lines b.
Proof.
  intros a b. unfold evidence_lines, nl. simpl.
  now rewrite split_app, map_app, filter_app.
Qed.

Lemma evidence_lines_no_url : forall line : jsstring,
  ~ In 10%N line -> url_match (trim line) = None ->
  flat_map pushed_by (evidence_lines line) = [].
Proof.
  intros line Hnl Hno. unfold evidence_lines. rewrite split_no_sep by assumption.
  simpl. destruct (JsStr.truthy (trim line)); [|reflexivity].
  simpl. unfold pushed_by. now rewrite Hno.
Qed.

(** C1.  For every input, [extractUrls] returns a list that has no
    duplicate, whose members are exactly the regex matches of the
    non-empty trimmed lines (each an http(s):// token taken from its
    line), in the order in which the lines first show them; a line without
    a match adds nothing (the result is the same with the line deleted);
    [undefined], [null] and the empty string give the empty list; and the
    example of the specification gives its two URLs. *)
Theorem extractUrls_unique_first_seen :
  forall text : JsText,
    NoDup (extractUrls text)
    /\ (forall u, In u (extractUrls text) <->
                  exists line, In line (visited_lines text) /\ url_match line = Some u)
    /\ (forall line u, url_match line = Some u -> is_http_token u /\ part_of u line)
    /\ pushed_urls text = flat_map pushed_by (visited_lines text)
    /\ (forall l1 u l2 v l3,
          extractUrls text = l1 ++ u :: l2 ++ v :: l3 ->
          seen_before (pushed_urls text) u v)
    /\ (forall a line b,
          ~ In 10%N line -> url_match (trim line) = None ->
          extractUrls (TString (a ++ nl ++ line ++ nl ++ b))
          = extractUrls (TString (a ++ nl ++ b)))
    /\ extractUrls TUndefined = []
    /\ extractUrls TNull = []
    /\ extractUrls (TString []) = []
    /\ extractUrls (TString example_evidence)
       = [lit "https://a.example/x"; lit "https://b.example/y"].
Proof.
  intros text.
  split; [|split; [|split; [|split; [|split; [|split]]]]].
  - rewrite extractUrls_Set_new. apply Set_new_NoDup.
  - intros u.
    rewrite extractUrls_Set_new, Set_new_In, pushed_urls_flat_map, in_flat_map.
    split; intros [line [Hl Hu]]; exists line; (split; [assumption|]).
    + unfold pushed_by in Hu. destruct (url_match line); [|contradiction].
      destruct Hu as [->|[]]. reflexivity.
    + unfold pushed_by. rewrite Hu. now left.
  - apply url_match_sound.
  - apply pushed_urls_flat_map.
  - intros l1 u l2 v l3 H. rewrite extractUrls_Set_new in H.
    eapply Set_new_order. eassumption.
  - intros a line b Hnl Hno. rewrite !extractUrls_Set_new. f_equal.
    rewrite !pushed_urls_flat_map. unfold visited_lines.
    rewrite !evidence_lines_app, !flat_map_app.
    now rewrite (evidence_lines_no_url line) by assumption.
  - repeat split; reflexivity.
Qed.

(** ** Numbers *)

Lemma ge_Fin : forall p q : Q, ge (Fin p) (Fin q) = Qle_bool q p.
Proof. intros p q. unfold ge, lt. now destruct (Qle_bool q p). Qed.

Lemma ge_le : forall a b : JsNum, ge a b = true <-> Num.le b a.
Proof.
  intros [| |p|] [| |q|]; unfold ge; simpl; try tauto;
    try (split; [discriminate | contradiction]).
  fold (lt (Fin p) (Fin q)). change (ge (Fin p) (Fin q) = true <-> (q <= p)%Q).
  rewrite ge_Fin. apply Qle_bool_iff.
Qed.

Lemma less_ge : forall a b : JsNum, Num.less a b -> ge a b = false.
Proof.
  intros a b H. destruct (ge a b) eqn:E; [|reflexivity].
  apply ge_le in E. destruct a as [| |p|], b as [| |q|]; simpl in *; try contradiction.
  exfalso. now apply (Qlt_not_le p q).
Qed.

(** ** The fallback verdict *)

(** C3.  [verdictFromScore] maps a score to its tier by inclusive lower
    bounds tried from the highest: from 85 on, in [65,85), in [40,65),
    and below 40; the scores 85, 84, 40 and 39 fall in the four tiers,
    which are distinct. *)
Theorem verdictFromScore_tiers :
  forall score : JsNum,
    (Num.le (of_Z 85) score ->
       verdictFromScore score
       = {| label := lit "Likely true"; badge := lit "Strong support" |})
    /\ (Num.le (of_Z 65) score -> Num.less score (of_Z 85) ->
       verdictFromScore score
       = {| label := lit "Mixed / uncertain"; badge := lit "Some support" |})
    /\ (Num.le (of_Z 40) score -> Num.less score (of_Z 65) ->
       verdictFromScore score
       = {| label := lit "Unclear"; badge := lit "Weak support" |})
    /\ (Num.less score (of_Z 40) ->
       verdictFromScore score
       = {| label := lit "Unclear / likely false"; badge := lit "Low support" |})
    /\ verdictFromScore (of_Z 85)
       = {| label := lit "Likely true"; badge := lit "Strong support" |}
    /\ verdictFromScore (of_Z 84)
       = {| label := lit "Mixed / uncertain"; badge := lit "Some support" |}
    /\ verdictFromScore (of_Z 40)
       = {| label := lit "Unclear"; badge := lit "Weak support" |}
    /\ verdictFromScore (of_Z 39)
       = {| label := lit "Unclear / likely false"; badge := lit "Low support" |}
    /\ NoDup (map verdictFromScore [of_Z 85; of_Z 84; of_Z 40; of_Z 39]).
Proof.
  intros score.
  assert (H65 : Num.less score (of_Z 85) -> ge score (of_Z 85) = false)
    by apply less_ge.
  assert (L65 : Num.less score (of_Z 65) -> Num.less score (of_Z 85)).
  { destruct score; simpl; try tauto. intros H. eapply Qlt_trans; [exact H|].
    reflexivity. }
  assert (L40 : Num.less score (of_Z 40) -> Num.less score (of_Z 65)).
  { destruct score; simpl; try tauto. intros H. eapply Qlt_trans; [exact H|].
    reflexivity. }
  split; [|split; [|split; [|split]]].
  - intros H. apply ge_le in H. unfold verdictFromScore. now rewrite H.
  - intros Hlo Hhi. apply ge_le in Hlo. unfold verdictFromScore.
    now rewrite (less_ge _ _ Hhi), Hlo.
  - intros Hlo Hhi. apply ge_le in Hlo. unfold verdictFromScore.
    now rewrite (less_ge _ _ (L65 Hhi)), (less_ge _ _ Hhi), Hlo.
  - intros Hhi. unfold verdictFromScore.
    now rewrite (less_ge _ _ (L65 (L40 Hhi))), (less_ge _ _ (L40 Hhi)),
      (less_ge _ _ Hhi).
  - repeat split; try reflexivity.
    vm_compute. repeat constructor; simpl; intuition discriminate.
Qed.

(** ** The displayed percentage *)

Lemma Qle_bool_inject_Z : forall a b : Z,
  Qle_bool (inject_Z a) (inject_Z b) = (a <=? b)%Z.
Proof. intros a b. unfold Qle_bool. simpl. now rewrite !Z.mul_1_r. Qed.

Lemma Math_min_of_Z : forall a b : Z, Math_min (of_Z a) (of_Z b) = of_Z (Z.min a b).
Proof.
  intros a b. unfold Math_min, lt, of_Z. rewrite Qle_bool_inject_Z.
  destruct (Z.leb_spec b a); simpl.
  - now rewrite Z.min_r.
  - rewrite Z.min_l; [reflexivity | lia].
Qed.

Lemma Math_max_of_Z : forall a b : Z, Math_max (of_Z a) (of_Z b) = of_Z (Z.max a b).
Proof.
  intros a b. unfold Math_max, lt, of_Z. rewrite Qle_bool_inject_Z.
  destruct (Z.leb_spec b a); simpl.
  - now rewrite Z.max_l.
  - rewrite Z.max_r; [reflexivity | lia].
Qed.

Lemma pct_of_Fin : forall q : Q,
  pct_of (Fin q) = of_Z (Z.max 0 (Z.min 100 (Qfloor (q + (1 # 2))))).
Proof.
  intros q. unfold pct_of.
  change (Math_round (Fin q)) with (of_Z (Qfloor (q + (1 # 2)))).
  now rewrite Math_min_of_Z, Math_max_of_Z.
Qed.

Lemma Qfloor_half_nearest : forall q : Q, nearest_integer q (Qfloor (q + (1 # 2))).
Proof.
  intros q. unfold nearest_integer.
  pose proof (Qfloor_le (q + (1 # 2))) as Hlo.
  pose proof (Qlt_floor (q + (1 # 2))) as Hhi.
  rewrite inject_Z_plus in Hhi. change (inject_Z 1) with 1%Q in Hhi.
  split; lra.
Qed.

Lemma pct_of_displayed : forall x : JsNum,
  x <> NaN ->
  exists n : Z, (0 <= n <= 100)%Z /\ displayed_pct x n /\ pct_of x = of_Z n.
Proof.
  intros [| |q|] Hx.
  - now contradiction Hx.
  - exists 0%Z. repeat split; lia.
  - exists (Z.max 0 (Z.min 100 (Qfloor (q + (1 # 2))))). split; [lia|]. split.
    + exists (Qfloor (q + (1 # 2))). split; [apply Qfloor_half_nearest | reflexivity].
    + apply pct_of_Fin.
  - exists 100%Z. repeat split; lia.
Qed.

Lemma NumberToString_small : forall (frac : Q -> jsstring) (n : Z),
  (0 <= n <= 100)%Z -> NumberToString frac (of_Z n) = dec (Z.to_N n).
Proof.
  intros frac n Hn. unfold NumberToString, of_Z.
  rewrite Qred_identity by (simpl; apply Z.gcd_1_r).
  simpl Qden. simpl Qnum. rewrite Pos.eqb_refl.
  replace (Z.abs n <? 2 ^ 53)%Z with true.
  2:{ symmetry. apply Z.ltb_lt.
      change (2 ^ 53)%Z with 9007199254740992%Z. lia. }
  replace (n <? 0)%Z with false by (symmetry; apply Z.ltb_ge; lia).
  simpl. now rewrite Zabs2N.abs_N_nonneg by lia.
Qed.

(** ** Running the handler *)

Lemma bind_Normal : forall {A B} (m : M A) (k : A -> M B) ui b ui2,
  bind m k ui = (Normal b, ui2) ->
  exists a ui1, m ui = (Normal a, ui1) /\ k a ui1 = (Normal b, ui2).
Proof.
  intros A B m k ui b ui2 H. unfold bind in H.
  destruct (m ui) as [[a|e] ui1]; [|discriminate]. eauto.
Qed.

Lemma update_other : forall id f ui j, j <> id -> update id f ui j = ui j.
Proof.
  intros id f ui j H. unfold update.
  destruct (ElId_eqb j id) eqn:E; [|reflexivity].
  exfalso. apply H. destruct j, id; (reflexivity || discriminate).
Qed.

Lemma update_same : forall id f ui, update id f ui id = option_map f (ui id).
Proof. intros id f ui. unfold update. now destruct id. Qed.

Lemma setText_value_writes : forall h id v, only_writes id (setText_value h id v).
Proof.
  intros h id v ui j Hj. unfold setText_value, when_present, bind, lift, write.
  destruct (present id ui); [|reflexivity].
  destruct (ToString h _); simpl; [|reflexivity].
  now apply update_other.
Qed.

Lemma show_why_writes : forall h claim ev data,
  only_writes whyList (show_why h claim ev data).
Proof.
  intros h claim ev data ui j Hj. unfold show_why, when_present, bind, lift, write.
  destruct (present whyList ui); [|reflexivity].
  destruct (Nat.eqb _ 0); simpl; [now apply update_other|].
  destruct (cmap _ _); simpl; [|reflexivity]. now apply update_other.
Qed.

Lemma show_citations_writes : forall h data,
  only_writes citationsBox (show_citations h data).
Proof.
  intros h data ui j Hj. unfold show_citations, when_present, bind, lift, write.
  destruct (present citationsBox ui); [|reflexivity].
  destruct (renderCitations _ _); simpl; [|reflexivity]. now apply update_other.
Qed.

Lemma lift_Normal : forall {A} (c : Completion A) ui a ui1,
  lift c ui = (Normal a, ui1) -> c = Normal a /\ ui1 = ui.
Proof. intros A c ui a ui1 H. unfold lift in H. now inversion H. Qed.

Lemma write_Normal : forall f ui (x : unit) ui1,
  write f ui = (Normal x, ui1) -> ui1 = f ui.
Proof. intros f ui x ui1 H. unfold write in H. now inversion H. Qed.

Lemma only_writes_eq : forall {A} id (m : M A) ui c ui1 j,
  only_writes id m -> m ui = (c, ui1) -> j <> id -> ui1 j = ui j.
Proof.
  intros A id m ui c ui1 j Hw Hm Hj. specialize (Hw ui j Hj).
  now rewrite Hm in Hw.
Qed.

Lemma setText_value_Normal : forall h id v ui (x : unit) ui1,
  setText_value h id v ui = (Normal x, ui1) ->
  exists s,
    (present id ui = true -> ToString h (nullish v (Some (JString []))) = Normal s)
    /\ ui1 id = option_map (set_content (Text s)) (ui id).
Proof.
  intros h id v ui x ui1 H. unfold setText_value, when_present in H.
  unfold present in *. destruct (ui id) as [e|] eqn:E.
  - apply bind_Normal in H. destruct H as (s & u & Hs & Hw).
    apply lift_Normal in Hs. destruct Hs as [Hs ->].
    apply write_Normal in Hw. subst ui1. exists s. split; [now intros _|].
    unfold setText. now rewrite update_same, E.
  - inversion H. subst ui1. exists []. split; [discriminate|]. now rewrite E.
Qed.

Lemma show_why_Normal : forall h claim ev data ui (x : unit) ui1,
  show_why h claim ev data ui = (Normal x, ui1) ->
  exists html,
    (present whyList ui = true ->
     if Nat.eqb (List.length (array_or_empty (get_opt (Some data) (lit "why")))) 0
     then html = join [] (map li (fallback_hints claim ev))
     else exists items,
            cmap (why_item h) (array_or_empty (get_opt (Some data) (lit "why")))
            = Normal items
            /\ html = join [] items)
    /\ ui1 whyList = option_map (set_content (Markup html)) (ui whyList).
Proof.
  intros h claim ev data ui x ui1 H. unfold show_why, when_present in H.
  unfold present in *. destruct (ui whyList) as [e|] eqn:E.
  - destruct (Nat.eqb _ 0).
    + apply write_Normal in H. subst ui1. eexists. split; [now intros _|].
      unfold setHTML. now rewrite update_same, E.
    + apply bind_Normal in H. destruct H as (items & u & Hi & Hw).
      apply lift_Normal in Hi. destruct Hi as [Hi ->].
      apply write_Normal in Hw. subst ui1. exists (join [] items). split.
      * intros _. now exists items.
      * unfold setHTML. now rewrite update_same, E.
  - inversion H. subst ui1. exists []. split; [discriminate|]. now rewrite E.
Qed.

Ltac step_bind H a u Hm :=
  apply bind_Normal in H; destruct H as (a & u & Hm & H).

(** What a run of [show_result] that reaches its end has written to the
    title, the badge, the score and the explanation list. *)
Lemma show_result_fields : forall h claim ev data ui (x : unit) ui',
  show_result h claim ev data ui = (Normal x, ui') ->
  exists score,
    ToNumber h (score_source data) = Normal score
    /\ ui' scoreBar = option_map (set_style_width (pct_text h (pct_of score))) (ui scoreBar)
    /\ ui' scorePct = option_map (set_content (Text (pct_text h (pct_of score)))) (ui scorePct)
    /\ (exists s,
          (present resultTitle ui = true ->
           ToString h (nullish (fst (verdict_of data score)) (Some (JString []))) = Normal s)
          /\ ui' resultTitle = option_map (set_content (Text s)) (ui resultTitle))
    /\ (exists s,
          (present resultBadge ui = true ->
           ToString h (nullish (or_else (snd (verdict_of data score)) (Some (JString [])))
                               (Some (JString []))) = Normal s)
          /\ ui' resultBadge = option_map (set_content (Text s)) (ui resultBadge))
    /\ (exists html,
          (present whyList ui = true ->
           if Nat.eqb (List.length (array_or_empty (get_opt (Some data) (lit "why")))) 0
           then html = join [] (map li (fallback_hints claim ev))
           else exists items,
                  cmap (why_item h) (array_or_empty (get_opt (Some data) (lit "why")))
                  = Normal items
                  /\ html = join [] items)
          /\ ui' whyList = option_map (set_content (Markup html)) (ui whyList)).
Proof.
  intros h claim ev data ui x ui' H. unfold show_result in H.
  step_bind H score u0 Hscore. apply lift_Normal in Hscore.
  destruct Hscore as [Hscore ->].
  exists score. split; [assumption|].
  step_bind H x1 ua Hverdict.
  step_bind H x2 ub Hub. apply write_Normal in Hub.
  step_bind H x3 uc Hwhy.
  step_bind H x4 ud Hcit.
  apply write_Normal in H.
  unfold show_verdict in Hverdict.
  step_bind Hverdict x5 u1 Hu1. apply write_Normal in Hu1.
  step_bind Hverdict x6 u2 Htitle.
  rename Hverdict into Hbadge.
  assert (Fwhy : forall j, j <> whyList -> uc j = ub j).
  { intros j Hj. eapply only_writes_eq; [apply show_why_writes | exact Hwhy | exact Hj]. }
  assert (Fcit : forall j, j <> citationsBox -> ud j = uc j).
  { intros j Hj. eapply only_writes_eq; [apply show_citations_writes | exact Hcit | exact Hj]. }
  assert (Fbadge : forall j, j <> resultBadge -> ua j = u2 j).
  { intros j Hj. eapply only_writes_eq; [apply setText_value_writes | exact Hbadge | exact Hj]. }
  assert (Ftitle : forall j, j <> resultTitle -> u2 j = u1 j).
  { intros j Hj. eapply only_writes_eq; [apply setText_value_writes | exact Htitle | exact Hj]. }
  assert (P1 : forall j, present j u1 = present j ui).
  { intros j. subst u1. unfold present, setStatus, setText, update.
    destruct j; simpl; destruct (ui _); reflexivity. }
  repeat split.
  - subst ui'. unfold show_debug, setText. rewrite update_other by discriminate.
    rewrite Fcit, Fwhy by discriminate. subst ub. unfold show_score, setText.
    rewrite !update_other by discriminate. rewrite update_same.
    rewrite Fbadge, Ftitle by discriminate. subst u1.
    unfold setStatus, setText. now rewrite !update_other by discriminate.
  - subst ui'. unfold show_debug, setText. rewrite update_other by discriminate.
    rewrite Fcit, Fwhy by discriminate. subst ub. unfold show_score, setText.
    rewrite !update_other by discriminate. rewrite update_same.
    rewrite update_other by discriminate.
    rewrite Fbadge, Ftitle by discriminate. subst u1.
    unfold setStatus, setText. now rewrite !update_other by discriminate.
  - apply setText_value_Normal in Htitle. destruct Htitle as (s & Hs & Ht).
    exists s. split.
    + intros Hp. apply Hs. now rewrite P1.
    + subst ui'. unfold show_debug, setText. rewrite update_other by discriminate.
      rewrite Fcit, Fwhy by discriminate. subst ub. unfold show_score, setText.
      rewrite !update_other by discriminate.
      rewrite Fbadge by discriminate. rewrite Ht. subst u1.
      unfold setStatus, setText. now rewrite !update_other by discriminate.
  - pose proof Hbadge as Hb.
    apply setText_value_Normal in Hb. destruct Hb as (s & Hs & Ht).
    exists s. split.
    + intros Hp. apply Hs. unfold present.
      rewrite (Ftitle resultBadge) by discriminate. fold (present resultBadge u1).
      now rewrite P1.
    + subst ui'. unfold show_debug, setText. rewrite update_other by discriminate.
      rewrite Fcit, Fwhy by discriminate. subst ub. unfold show_score, setText.
      rewrite !update_other by discriminate.
      rewrite Ht. rewrite Ftitle by discriminate. subst u1.
      unfold setStatus, setText. now rewrite !update_other by discriminate.
  - apply show_why_Normal in Hwhy. destruct Hwhy as (html & Hh & Hw).
    assert (Eub : ub whyList = ui whyList).
    { subst ub. unfold show_score, setText. rewrite !update_other by discriminate.
      rewrite Fbadge, Ftitle by discriminate. subst u1.
      unfold setStatus, setText. now rewrite !update_other by discriminate. }
    exists html. split.
    + intros Hp. apply Hh. unfold present in *. now rewrite Eub.
    + subst ui'. unfold show_debug, setText. rewrite update_other by discriminate.
      rewrite Fcit by discriminate. now rewrite Hw, Eub.
Qed.

Lemma checkBtn_click_usable : forall h ui res data raw,
  JsStr.truthy (claim_of ui) = true ->
  checkClaim h (claim_of ui) (evidence_of ui) = Normal (res, data, raw) ->
  res_ok res = true ->
  Json.truthy (get_opt (Some data) (lit "error")) = false ->
  fst (checkBtn_click h ui) = ExitOk ->
  exists x : unit,
    show_result h (claim_of ui) (evidence_of ui) data (show_checking ui)
    = (Normal x, snd (checkBtn_click h ui)).
Proof.
  intros h ui res data raw Hclaim Hcheck Hok Herr Hexit.
  unfold checkBtn_click in *. rewrite Hclaim in *. cbn [negb] in *.
  unfold try_block, bind, lift, ret in *. rewrite Hcheck in *.
  rewrite Hok, Herr in *. cbn [negb] in *.
  destruct (show_result h (claim_of ui) (evidence_of ui) data (show_checking ui))
    as [[x|e] u'] eqn:E; simpl in *; [|discriminate].
  now exists x.
Qed.

Lemma checkBtn_click_http_error : forall h ui res data raw,
  JsStr.truthy (claim_of ui) = true ->
  checkClaim h (claim_of ui) (evidence_of ui) = Normal (res, data, raw) ->
  res_ok res = false ->
  checkBtn_click h ui
  = (ExitHttpError (status res), show_http_error res raw (show_checking ui)).
Proof.
  intros h ui res data raw Hclaim Hcheck Hok.
  unfold checkBtn_click. rewrite Hclaim. cbn [negb].
  unfold try_block, bind, lift, ret, write. rewrite Hcheck.
  now rewrite Hok.
Qed.

Lemma checkBtn_click_payload_error : forall h ui res data raw,
  JsStr.truthy (claim_of ui) = true ->
  checkClaim h (claim_of ui) (evidence_of ui) = Normal (res, data, raw) ->
  res_ok res = true ->
  Json.truthy (get_opt (Some data) (lit "error")) = true ->
  checkBtn_click h ui
  = match show_payload_error h data raw (show_checking ui) with
    | (Normal _, ui') => (ExitPayloadError, ui')
    | (Throw e, ui') => (ExitCaught e, catch_block e ui')
    end.
Proof.
  intros h ui res data raw Hclaim Hcheck Hok Herr.
  unfold checkBtn_click. rewrite Hclaim. cbn [negb].
  unfold try_block, bind at 1, lift, ret. rewrite Hcheck.
  rewrite Hok, Herr. cbn [negb]. unfold bind.
  now destruct (show_payload_error h data raw (show_checking ui)) as [[x|e] u'].
Qed.

Lemma checkBtn_click_rejected : forall h ui e,
  JsStr.truthy (claim_of ui) = true ->
  checkClaim h (claim_of ui) (evidence_of ui) = Throw e ->
  checkBtn_click h ui = (ExitCaught e, catch_block e (show_checking ui)).
Proof.
  intros h ui e Hclaim Hcheck.
  unfold checkBtn_click. rewrite Hclaim. cbn [negb].
  unfold try_block, bind, lift. now rewrite Hcheck.
Qed.

(** ** Submitting *)

Lemma checkClaim_answered : forall h ui res raw,
  answered h ui res raw ->
  checkClaim h (claim_of ui) (evidence_of ui)
  = Normal (res,
            match JSON_parse h raw with Some d => d | None => not_json raw end,
            raw).
Proof.
  intros h ui res raw (_ & ms & Hnet & Hms & Hbody).
  unfold checkClaim, fetchWithTimeout. rewrite Hnet.
  apply N.ltb_lt in Hms. rewrite Hms. simpl.
  unfold res_text. now rewrite Hbody.
Qed.

(** ** Responses of the expected shape are rendered *)

Lemma succeeds_write : forall f, succeeds (write f).
Proof. intros f ui. now exists (f ui). Qed.

Lemma succeeds_bind : forall (m : M unit) (k : unit -> M unit),
  succeeds m -> (forall x, succeeds (k x)) -> succeeds (bind m k).
Proof.
  intros m k Hm Hk ui. destruct (Hm ui) as [u1 E1]. destruct (Hk tt u1) as [u2 E2].
  exists u2. unfold bind. now rewrite E1.
Qed.

Lemma succeeds_when_present : forall id m, succeeds m -> succeeds (when_present id m).
Proof.
  intros id m Hm ui. unfold when_present. destruct (present id ui); [apply Hm|].
  now exists ui.
Qed.

Lemma succeeds_lift : forall {A} (c : Completion A) (k : A -> M unit) a,
  c = Normal a -> succeeds (k a) -> succeeds (bind (lift c) k).
Proof.
  intros A c k a -> Hk ui. destruct (Hk ui) as [u E]. exists u.
  unfold bind, lift. exact E.
Qed.

Lemma setText_value_string : forall h id s,
  succeeds (setText_value h id (Some (JString s))).
Proof.
  intros h id s. unfold setText_value. apply succeeds_when_present.
  eapply succeeds_lift; [reflexivity | apply succeeds_write].
Qed.

Lemma optional_string_or : forall v s,
  optional is_string v ->
  exists t, or_else v (Some (JString s)) = Some (JString t).
Proof.
  intros [x|] s H; simpl in H.
  - destruct H as [t ->]. destruct t as [|c t]; [exists s | exists (c :: t)]; reflexivity.
  - now exists s.
Qed.

Lemma conforming_score : forall h data,
  conforming data -> exists x, ToNumber h (score_source data) = Normal x.
Proof.
  intros h data (Hs & Hc & _). unfold score_source.
  destruct (get_opt (Some data) (lit "score")) as [x|]; simpl in Hs.
  - destruct Hs as [n ->]. now exists n.
  - destruct (get_opt (Some data) (lit "confidence")) as [x|]; simpl in Hc.
    + destruct Hc as [n ->]. now exists n.
    + now exists (of_Z 0).
Qed.

Lemma conforming_verdict : forall data score,
  conforming data ->
  exists l b, fst (verdict_of data score) = Some (JString l)
              /\ or_else (snd (verdict_of data score)) (Some (JString []))
                 = Some (JString b).
Proof.
  intros data score (_ & _ & Hv & Hb & _). unfold verdict_of.
  destruct (Json.truthy (get_opt (Some data) (lit "verdict"))) eqn:T; cbn [fst snd].
  - destruct (get_opt (Some data) (lit "verdict")) as [x|]; [|discriminate].
    simpl in Hv. destruct Hv as [l ->]. exists l.
    destruct (optional_string_or _ [] Hb) as [b ->].
    destruct (optional_string_or (Some (JString b)) [] (ex_intro _ b eq_refl)) as [b' ->].
    now exists b'.
  - eexists. destruct (optional_string_or (Some (JString (badge (verdictFromScore score))))
                         [] (ex_intro _ _ eq_refl)) as [b' ->].
    now exists b'.
Qed.

Lemma why_items_strings : forall h items,
  Forall is_string items -> exists out, cmap (why_item h) items = Normal out.
Proof.
  intros h items H. induction H as [|x items [s ->] _ [out IH]]; simpl.
  - now exists [].
  - rewrite IH. simpl. eauto.
Qed.

Lemma render_citation_conforming : forall h i c,
  is_citation c -> exists out, render_citation h i c = Normal out.
Proof.
  intros h i c ([fields ->] & Ht & Hu & Hs). unfold render_citation, get_strict.
  cbn [cbind].
  destruct (optional_string_or _ (lit "Source " ++ dec (N.of_nat (i + 1))) Ht) as [t ->].
  cbn [replace_lt cbind].
  destruct (optional_string_or _ [] Hu) as [u ->]. cbn [replace_lt cbind].
  destruct (optional_string_or _ [] Hs) as [sn ->]. cbn [replace_lt cbind].
  eauto.
Qed.

Lemma render_items_conforming : forall h cs i,
  Forall is_citation cs -> exists out, render_items h i cs = Normal out.
Proof.
  intros h cs. induction cs as [|c cs IH]; intros i H; simpl.
  - now exists [].
  - inversion H as [|? ? Hc Hcs]; subst.
    destruct (render_citation_conforming h i c Hc) as [x ->].
    destruct (IH (S i) Hcs) as [xs ->]. simpl. eauto.
Qed.

Lemma show_result_conforming : forall h claim ev data,
  conforming data -> succeeds (show_result h claim ev data).
Proof.
  intros h claim ev data Hc. unfold show_result.
  destruct (conforming_score h data Hc) as [score Hscore].
  eapply succeeds_lift; [exact Hscore|].
  destruct (conforming_verdict data score Hc) as (l & b & Hl & Hb).
  apply succeeds_bind.
  { unfold show_verdict. rewrite Hl, Hb.
    apply succeeds_bind; [apply succeeds_write|]. intros _.
    apply succeeds_bind; [apply setText_value_string|]. intros _.
    apply setText_value_string. }
  intros _. apply succeeds_bind; [apply succeeds_write|]. intros _.
  destruct Hc as (_ & _ & _ & _ & Hw & Hcit).
  apply succeeds_bind.
  { unfold show_why. apply succeeds_when_present.
    destruct (get_opt (Some data) (lit "why")) as [w|]; simpl in Hw.
    - destruct Hw as (items & -> & Hitems). simpl array_or_empty.
      destruct (Nat.eqb (List.length items) 0); [apply succeeds_write|].
      destruct (why_items_strings h items Hitems) as [out Hout].
      eapply succeeds_lift; [exact Hout | apply succeeds_write].
    - simpl. apply succeeds_write. }
  intros _. apply succeeds_bind; [|intros _; apply succeeds_write].
  unfold show_citations. apply succeeds_when_present.
  destruct (get_opt (Some data) (lit "citations")) as [c|]; simpl in Hcit.
  - destruct Hcit as (items & -> & Hitems). simpl array_or_empty.
    unfold renderCitations. destruct items as [|c cs].
    + eapply succeeds_lift; [reflexivity | apply succeeds_write].
    + destruct (render_items_conforming h (c :: cs) 0 Hitems) as [out Hout].
      rewrite Hout. simpl cbind.
      eapply succeeds_lift; [reflexivity | apply succeeds_write].
  - simpl. eapply succeeds_lift; [reflexivity | apply succeeds_write].
Qed.

(** A response of the expected shape that arrives in time, with a
    successful status and no error marker, is rendered to the end. *)
Lemma conforming_rendered : forall h ui res raw data,
  answered h ui res raw ->
  res_ok res = true ->
  JSON_parse h raw = Some data ->
  Json.truthy (get_opt (Some data) (lit "error")) = false ->
  conforming data ->
  rendered h ui res data raw.
Proof.
  intros h ui res raw data Hans Hok Hparse Herr Hconf.
  pose proof (checkClaim_answered h ui res raw Hans) as Hcheck.
  rewrite Hparse in Hcheck. destruct Hans as [Hclaim _].
  repeat split; try assumption.
  unfold checkBtn_click. rewrite Hclaim. cbn [negb].
  unfold try_block, bind at 1, lift, ret. rewrite Hcheck.
  rewrite Hok, Herr. cbn [negb]. unfold bind.
  destruct (show_result_conforming h (claim_of ui) (evidence_of ui) data Hconf
              (show_checking ui)) as [u' ->].
  reflexivity.
Qed.

Lemma show_checking_present : forall ui j,
  present j (show_checking ui) = present j ui.
Proof.
  intros ui j. unfold present, show_checking, setStatus, setHTML, setText, update.
  destruct j; simpl; destruct (ui _); reflexivity.
Qed.

Lemma show_checking_score : forall ui,
  show_checking ui scorePct = option_map (set_content (Text emdash)) (ui scorePct)
  /\ show_checking ui scoreBar = option_map (set_style_width (lit "0%")) (ui scoreBar).
Proof.
  intros ui. unfold show_checking, setStatus, setHTML, setText, update. simpl.
  split; reflexivity.
Qed.

Lemma show_checking_result : forall ui,
  shown resultTitle (show_checking ui) = written (Text (lit "Checking" ++ ellipsis)) (ui resultTitle)
  /\ shown resultBadge (show_checking ui) = written (Text []) (ui resultBadge)
  /\ shown whyList (show_checking ui)
     = written (Markup (lit "<li " ++ attr "class" (lit "muted") ++ lit ">Working"
                        ++ ellipsis ++ lit "</li>")) (ui whyList).
Proof.
  intros ui. unfold shown, written, show_checking, setStatus, setHTML, setText, update.
  simpl. repeat split; destruct (ui _); reflexivity.
Qed.

(** C2.  For a usable response (status ok, no error marker) that the
    handler renders, the percentage text and the bar width are those of
    [Number(data.score ?? data.confidence ?? 0)] rounded to the nearest
    integer and clamped to [0,100]; the [score] field is taken when it is
    there, the [confidence] field when [score] is absent, and 0 when both
    are; 142.7 is displayed as 100% and -5 as 0%. *)
Theorem score_shown_clamped_and_rounded :
  (forall h ui res data raw score,
     rendered h ui res data raw ->
     ToNumber h (score_source data) = Normal score ->
     shown scorePct (snd (checkBtn_click h ui))
     = written (Text (pct_text h (pct_of score))) (ui scorePct)
     /\ width_of scoreBar (snd (checkBtn_click h ui))
        = written (pct_text h (pct_of score)) (ui scoreBar)
     /\ (score <> NaN ->
         exists n : Z,
           (0 <= n <= 100)%Z /\ displayed_pct score n
           /\ pct_text h (pct_of score) = dec (Z.to_N n) ++ lit "%"))
  /\ (forall h data x,
        get_opt (Some data) (lit "score") = Some (JNumber x) ->
        ToNumber h (score_source data) = Normal x)
  /\ (forall h data x,
        is_nullish (get_opt (Some data) (lit "score")) = true ->
        get_opt (Some data) (lit "confidence") = Some (JNumber x) ->
        ToNumber h (score_source data) = Normal x)
  /\ (forall h data,
        is_nullish (get_opt (Some data) (lit "score")) = true ->
        is_nullish (get_opt (Some data) (lit "confidence")) = true ->
        ToNumber h (score_source data) = Normal (of_Z 0))
  /\ (forall h, pct_text h (pct_of (decimal 1427 10)) = lit "100%")
  /\ (forall h, pct_text h (pct_of (of_Z (-5))) = lit "0%").
Proof.
  split; [|repeat split].
  - intros h ui res data raw score (Hclaim & Hcheck & Hok & Herr & Hexit) Hscore.
    destruct (checkBtn_click_usable h ui res data raw Hclaim Hcheck Hok Herr Hexit)
    as [x Hrun].
    apply show_result_fields in Hrun.
    destruct Hrun as (score' & Hscore' & Hbar & Hpct & _).
    rewrite Hscore in Hscore'. injection Hscore' as <-.
    destruct (show_checking_score ui) as [Cpct Cbar].
    repeat split.
    + unfold shown, written. rewrite Hpct, Cpct. now destruct (ui scorePct).
    + unfold width_of, written. rewrite Hbar, Cbar. now destruct (ui scoreBar).
    + intros Hnan. destruct (pct_of_displayed score Hnan) as (n & Hn & Hd & Hp).
      exists n. repeat split; try tauto.
      unfold pct_text. rewrite Hp. now rewrite NumberToString_small.
  - intros h data x H. unfold score_source. now rewrite H.
  - intros h data x Hs Hc. unfold score_source. rewrite Hc.
    destruct (get_opt (Some data) (lit "score")) as [[]|]; (discriminate || reflexivity).
  - intros h data Hs Hc. unfold score_source.
    destruct (get_opt (Some data) (lit "score")) as [[]|]; try discriminate;
      destruct (get_opt (Some data) (lit "confidence")) as [[]|];
      (discriminate || reflexivity).
Qed.

(** C2, at a concrete check: the Worker answers 200 with a score of
    142.7 and the page shows 100%. *)
Lemma score_shown_witness :
  shown scorePct (snd (checkBtn_click (answering 200 body_score_high
                                          (data_score (decimal 1427 10))) page_hello))
  = Some (Text (lit "100%")).
Proof.
  destruct (proj1 score_shown_clamped_and_rounded
              (answering 200 body_score_high (data_score (decimal 1427 10)))
              page_hello (response 200 body_score_high)
              (data_score (decimal 1427 10)) body_score_high (decimal 1427 10))
    as [H _].
  - repeat split; reflexivity.
  - reflexivity.
  - rewrite H. reflexivity.
Defined.

(** ** The verdict shown *)

Lemma shown_written : forall (ui u1 ui' : Els) id (c c' : Content),
  present id u1 = present id ui ->
  (present id u1 = true -> c = c') ->
  ui' id = option_map (set_content c) (u1 id) ->
  shown id ui' = written c' (ui id).
Proof.
  intros ui u1 ui' id c c' Hp Hc H. unfold shown, written, present in *.
  rewrite H. destruct (u1 id), (ui id); try discriminate; simpl; [|reflexivity].
  now rewrite Hc.
Qed.

(** C4 as the specification words it does not hold: a response with a
    badge and no verdict is shown with the badge of the score's tier, not
    with its own. *)
Lemma badge_without_verdict_is_derived :
  ~ shows_service_verdict_and_badge_when_present.
Proof.
  intros H.
  destruct (H (answering 200 body_badge_only data_badge_only) page_sky
              (response 200 body_badge_only) data_badge_only body_badge_only)
    as [_ Hb].
  - repeat split; reflexivity.
  - specialize (Hb (lit "Verified") eq_refl). vm_compute in Hb.
    assert (Hne : [86; 101; 114; 105; 102; 105; 101; 100]%N <> []) by discriminate.
    specialize (Hb Hne). discriminate Hb.
Qed.

(** C4, amended.  For a usable response that the handler renders: when
    the response has a truthy [verdict], the label shown is that verdict
    and the badge shown is the response's [badge], or nothing when it has
    none; when it has no truthy [verdict], label and badge are both those
    of the score's tier, whatever [badge] the response carries. *)
Theorem verdict_shown_by_verdict_field :
  forall h ui res data raw,
    rendered h ui res data raw ->
    (forall s, get_opt (Some data) (lit "verdict") = Some (JString s) -> s <> [] ->
       shown resultTitle (snd (checkBtn_click h ui)) = written (Text s) (ui resultTitle)
       /\ (forall b, get_opt (Some data) (lit "badge") = Some (JString b) ->
             shown resultBadge (snd (checkBtn_click h ui))
             = written (Text b) (ui resultBadge))
       /\ (Json.truthy (get_opt (Some data) (lit "badge")) = false ->
             shown resultBadge (snd (checkBtn_click h ui))
             = written (Text []) (ui resultBadge)))
    /\ (forall score,
          Json.truthy (get_opt (Some data) (lit "verdict")) = false ->
          ToNumber h (score_source data) = Normal score ->
          shown resultTitle (snd (checkBtn_click h ui))
          = written (Text (label (verdictFromScore score))) (ui resultTitle)
          /\ shown resultBadge (snd (checkBtn_click h ui))
             = written (Text (badge (verdictFromScore score))) (ui resultBadge)).
Proof.
  intros h ui res data raw (Hclaim & Hcheck & Hok & Herr & Hexit).
  destruct (checkBtn_click_usable h ui res data raw Hclaim Hcheck Hok Herr Hexit)
    as [x Hrun].
  apply show_result_fields in Hrun.
  destruct Hrun as (score' & Hscore' & _ & _ & Htitle & Hbadge & _).
  destruct Htitle as (t & Ht & Et). destruct Hbadge as (b' & Hb & Eb).
  split.
  - intros s Hv Hs.
    assert (Tv : Json.truthy (get_opt (Some data) (lit "verdict")) = true).
    { rewrite Hv. simpl. now destruct s. }
    unfold verdict_of in Ht, Hb. rewrite Tv in Ht, Hb. cbn [fst snd] in Ht, Hb.
    rewrite Hv in Ht. simpl in Ht.
    repeat split.
    + eapply shown_written; [apply show_checking_present | | exact Et].
      intros Hp. specialize (Ht Hp). now injection Ht as <-.
    + intros b Hbf. eapply shown_written; [apply show_checking_present | | exact Eb].
      intros Hp. specialize (Hb Hp). rewrite Hbf in Hb.
      destruct b as [|c b]; simpl in Hb; now injection Hb as <-.
    + intros Hbf. eapply shown_written; [apply show_checking_present | | exact Eb].
      intros Hp. specialize (Hb Hp). unfold or_else in Hb at 2. rewrite Hbf in Hb.
      simpl in Hb. now injection Hb as <-.
  - intros score Hv Hscore. rewrite Hscore in Hscore'. injection Hscore' as <-.
    unfold verdict_of in Ht, Hb. rewrite Hv in Ht, Hb. cbn [fst snd] in Ht, Hb.
    split.
    + eapply shown_written; [apply show_checking_present | | exact Et].
      intros Hp. specialize (Ht Hp). simpl in Ht. now injection Ht as <-.
    + eapply shown_written; [apply show_checking_present | | exact Eb].
      intros Hp. specialize (Hb Hp).
      assert (Hne : badge (verdictFromScore score) <> []).
      { unfold verdictFromScore.
        destruct (ge score (of_Z 85)), (ge score (of_Z 65)), (ge score (of_Z 40));
          discriminate. }
      destruct (badge (verdictFromScore score)) as [|c r]; [now contradiction Hne|].
      simpl in Hb. now injection Hb as <-.
Qed.

(** C4 (amended), at a concrete check: a response with verdict, badge
    and a low score is shown with its own verdict. *)
Lemma verdict_shown_witness :
  shown resultTitle (snd (checkBtn_click (answering 200 body_verdict data_verdict) page_sky))
  = Some (Text (lit "True")).
Proof.
  destruct (verdict_shown_by_verdict_field
              (answering 200 body_verdict data_verdict) page_sky
              (response 200 body_verdict) data_verdict body_verdict) as [H _].
  - repeat split; reflexivity.
  - destruct (H (lit "True") eq_refl) as [Ht _]; [discriminate|].
    rewrite Ht. reflexivity.
Defined.

(** ** The explanations shown *)

Lemma fallback_hints_in_order : forall claim ev,
  fallback_hints claim ev
  = hints_in_order (Nat.eqb (List.length ev) 0) (Nat.ltb (List.length claim) 12).
Proof.
  intros claim ev. unfold fallback_hints, hints_in_order.
  destruct (Nat.eqb (List.length ev) 0), (Nat.ltb (List.length claim) 12); reflexivity.
Qed.

Lemma hints_distinct :
  hint_no_evidence <> hint_short_claim
  /\ hint_no_evidence <> hint_minimal_mode
  /\ hint_short_claim <> hint_minimal_mode.
Proof. repeat split; intros H; vm_compute in H; discriminate H. Qed.

Lemma hints_in_order_members : forall a b : bool,
  (In hint_no_evidence (hints_in_order a b) <-> a = true)
  /\ (In hint_short_claim (hints_in_order a b) <-> b = true)
  /\ (In hint_minimal_mode (hints_in_order a b) <-> a = false /\ b = false).
Proof.
  destruct hints_distinct as (D1 & D2 & D3).
  intros [|] [|]; simpl; repeat split; intros; intuition congruence.
Qed.

Lemma escape_lt_escaped : forall s, escape_lt s = escaped s.
Proof.
  induction s as [|c s IH]; [reflexivity|].
  change (escape_lt (c :: s))
    with ((if N.eqb c 60 then lit "&lt;" else [c]) ++ escape_lt s).
  rewrite IH. cbn [escaped]. now destruct (N.eqb c 60).
Qed.

Lemma join_nil_concat : forall items : list jsstring,
  join [] items = List.concat items.
Proof.
  induction items as [|p items IH]; [reflexivity|]. destruct items as [|q items].
  - simpl. now rewrite app_nil_r.
  - change (join [] (p :: q :: items)) with (p ++ [] ++ join [] (q :: items)).
    now rewrite IH.
Qed.

(** The items [show_why] writes for a [why] list: one list item for each
    member, holding its [String], escaped. *)
Lemma why_items_texts : forall h why items,
  cmap (why_item h) why = Normal items ->
  exists texts,
    Forall2 (fun x s => ToString h (Some x) = Normal s) why texts
    /\ join [] items = why_markup texts.
Proof.
  intros h why. induction why as [|x why IH]; intros items H; simpl in H.
  - injection H as <-. exists []. split; [constructor | reflexivity].
  - unfold why_item at 1 in H.
    destruct (ToString h (Some x)) as [s|e] eqn:Es; [|discriminate].
    cbn [cbind] in H. destruct (cmap (why_item h) why) as [rest|e]; [|discriminate].
    cbn [cbind] in H. injection H as <-.
    destruct (IH rest eq_refl) as (texts & Hf & Hj).
    exists (s :: texts). split; [now constructor|].
    rewrite join_nil_concat in *. unfold why_markup in *. cbn [map List.concat].
    rewrite <- Hj. unfold li. now rewrite escape_lt_escaped.
Qed.

Lemma why_texts_of_strings : forall h texts out,
  Forall2 (fun x s => ToString h (Some x) = Normal s) (map JString texts) out ->
  out = texts.
Proof.
  intros h texts. induction texts as [|t texts IH]; intros out H; inversion H; subst.
  - reflexivity.
  - match goal with
    | Hs : ToString h (Some (JString t)) = Normal ?y |- _ =>
        cbn [ToString] in Hs; injection Hs as <-
    end.
    f_equal. now apply IH.
Qed.

(** C5.  For a usable response that the handler renders and whose [why]
    is absent or empty, the explanation list shows, in this order, the
    no-evidence hint exactly when no evidence URL was extracted, the
    short-claim hint exactly when the trimmed claim has fewer than 12 code
    units, and the minimal-mode hint exactly when neither applies; a claim
    of length 5 without evidence gets the first two.  When [why] is a
    non-empty list, the list shows its items and no hint: one list item
    for each member of [why], in the order of [why], holding the member's
    text with [&lt;] for each [<], and nothing else; for a list of
    strings these texts are the strings themselves. *)
Theorem explanations_shown :
  (forall h ui res data raw,
     rendered h ui res data raw ->
     array_or_empty (get_opt (Some data) (lit "why")) = [] ->
     shown whyList (snd (checkBtn_click h ui))
     = written
         (Markup (join [] (map li
            (hints_in_order (Nat.eqb (List.length (evidence_of ui)) 0)
                            (Nat.ltb (List.length (claim_of ui)) 12)))))
         (ui whyList))
  /\ (forall h ui res data raw,
        rendered h ui res data raw ->
        array_or_empty (get_opt (Some data) (lit "why")) <> [] ->
        present whyList ui = true ->
        exists items,
          cmap (why_item h) (array_or_empty (get_opt (Some data) (lit "why")))
          = Normal items
          /\ shown whyList (snd (checkBtn_click h ui)) = Some (Markup (join [] items)))
  /\ (forall claim ev,
        fallback_hints claim ev
        = hints_in_order (Nat.eqb (List.length ev) 0) (Nat.ltb (List.length claim) 12))
  /\ (forall claim ev,
        (In hint_no_evidence (fallback_hints claim ev) <-> ev = [])
        /\ (In hint_short_claim (fallback_hints claim ev) <-> (List.length claim < 12)%nat)
        /\ (In hint_minimal_mode (fallback_hints claim ev)
            <-> ev <> [] /\ (12 <= List.length claim)%nat))
  /\ (forall claim,
        List.length claim = 5%nat ->
        fallback_hints claim [] = [hint_no_evidence; hint_short_claim])
  /\ (forall h ui res data raw,
        rendered h ui res data raw ->
        array_or_empty (get_opt (Some data) (lit "why")) <> [] ->
        present whyList ui = true ->
        exists texts,
          Forall2 (fun x s => ToString h (Some x) = Normal s)
                  (array_or_empty (get_opt (Some data) (lit "why"))) texts
          /\ shown whyList (snd (checkBtn_click h ui))
             = Some (Markup (why_markup texts)))
  /\ (forall h ui res data raw texts,
        rendered h ui res data raw ->
        get_opt (Some data) (lit "why") = Some (JArray (map JString texts)) ->
        texts <> [] ->
        shown whyList (snd (checkBtn_click h ui))
        = written (Markup (why_markup texts)) (ui whyList)).
Proof.
  assert (Hitems : forall h ui res data raw,
            rendered h ui res data raw ->
            array_or_empty (get_opt (Some data) (lit "why")) <> [] ->
            exists html,
              (present whyList ui = true ->
               exists texts,
                 Forall2 (fun x s => ToString h (Some x) = Normal s)
                         (array_or_empty (get_opt (Some data) (lit "why"))) texts
                 /\ html = why_markup texts)
              /\ snd (checkBtn_click h ui) whyList
                 = option_map (set_content (Markup html)) (show_checking ui whyList)).
  { intros h ui res data raw (Hclaim & Hcheck & Hok & Herr & Hexit) Hwhy.
    destruct (checkBtn_click_usable h ui res data raw Hclaim Hcheck Hok Herr Hexit)
      as [x Hrun].
    apply show_result_fields in Hrun.
    destruct Hrun as (score & _ & _ & _ & _ & _ & html & Hh & Eh).
    exists html. split; [|exact Eh]. intros Hp.
    rewrite show_checking_present in Hh. specialize (Hh Hp).
    destruct (array_or_empty (get_opt (Some data) (lit "why"))) as [|w ws] eqn:E;
      [now contradiction Hwhy|].
    cbn [List.length Nat.eqb] in Hh. destruct Hh as (items & Hi & ->).
    now apply why_items_texts in Hi. }
  split; [|split; [|split; [|split; [|split; [|split]]]]].
  - intros h ui res data raw (Hclaim & Hcheck & Hok & Herr & Hexit) Hwhy.
    destruct (checkBtn_click_usable h ui res data raw Hclaim Hcheck Hok Herr Hexit)
      as [x Hrun].
    apply show_result_fields in Hrun.
    destruct Hrun as (score & _ & _ & _ & _ & _ & html & Hh & Eh).
    eapply shown_written; [apply show_checking_present | | exact Eh].
    intros Hp. specialize (Hh Hp). rewrite Hwhy in Hh. simpl in Hh.
    now rewrite Hh, fallback_hints_in_order.
  - intros h ui res data raw (Hclaim & Hcheck & Hok & Herr & Hexit) Hwhy Hp.
    destruct (checkBtn_click_usable h ui res data raw Hclaim Hcheck Hok Herr Hexit)
      as [x Hrun].
    apply show_result_fields in Hrun.
    destruct Hrun as (score & _ & _ & _ & _ & _ & html & Hh & Eh).
    rewrite show_checking_present in Hh. specialize (Hh Hp).
    destruct (array_or_empty (get_opt (Some data) (lit "why"))) as [|w ws] eqn:E;
      [now contradiction Hwhy|].
    simpl in Hh. destruct Hh as (items & Hi & ->).
    exists items. split; [assumption|].
    pose proof (show_checking_present ui whyList) as P. rewrite Hp in P.
    unfold shown. rewrite Eh. unfold present in P.
    destruct (show_checking ui whyList); [reflexivity | discriminate].
  - apply fallback_hints_in_order.
  - intros claim ev. rewrite fallback_hints_in_order.
    destruct (hints_in_order_members (Nat.eqb (List.length ev) 0)
                (Nat.ltb (List.length claim) 12)) as (M1 & M2 & M3).
    rewrite M1, M2, M3, Nat.ltb_lt, Nat.ltb_ge.
    assert (Hev : Nat.eqb (List.length ev) 0 = true <-> ev = []).
    { destruct ev; simpl; split; (reflexivity || discriminate). }
    split; [exact Hev|]. split; [reflexivity|].
    destruct (Nat.eqb (List.length ev) 0).
    + split; [intros [Hf _]; discriminate Hf|].
      intros [Hne _]. exfalso. apply Hne. now apply Hev.
    + split; intros [_ Hl]; (split; [|exact Hl]); [|reflexivity].
      intros Hc. apply Hev in Hc. discriminate Hc.
  - intros claim Hlen. rewrite fallback_hints_in_order. now rewrite Hlen.
  - intros h ui res data raw Hr Hwhy Hp.
    destruct (Hitems h ui res data raw Hr Hwhy) as (html & Hh & Eh).
    destruct (Hh Hp) as (texts & Hf & ->). exists texts. split; [exact Hf|].
    pose proof (show_checking_present ui whyList) as P. rewrite Hp in P.
    unfold shown. rewrite Eh. unfold present in P.
    destruct (show_checking ui whyList); [reflexivity | discriminate].
  - intros h ui res data raw texts Hr Hwhy Hne.
    assert (Ha : array_or_empty (get_opt (Some data) (lit "why")) = map JString texts)
      by now rewrite Hwhy.
    destruct (Hitems h ui res data raw Hr) as (html & Hh & Eh).
    { rewrite Ha. now destruct texts. }
    eapply shown_written; [apply show_checking_present | | exact Eh].
    intros Hp. rewrite show_checking_present in Hp.
    destruct (Hh Hp) as (out & Hf & ->). rewrite Ha in Hf.
    now rewrite (why_texts_of_strings h texts out Hf).
Qed.

(** C5, at two concrete checks: a five-letter claim without evidence and
    a response without [why]; and a response whose [why] holds the one
    text [a<b]. *)
Lemma explanations_shown_witness :
  shown whyList (snd (checkBtn_click (answering 200 body_empty data_empty) page_hello))
  = Some (Markup (li hint_no_evidence ++ li hint_short_claim))
  /\ shown whyList (snd (checkBtn_click (answering 200 body_why data_why) page_hello))
     = Some (Markup (lit "<li>a&lt;b</li>")).
Proof.
  destruct explanations_shown as (Hhints & _ & _ & _ & _ & _ & Hwhy). split.
  - rewrite (Hhints (answering 200 body_empty data_empty) page_hello
               (response 200 body_empty) data_empty body_empty).
    + reflexivity.
    + repeat split; reflexivity.
    + reflexivity.
  - rewrite (Hwhy (answering 200 body_why data_why) page_hello
               (response 200 body_why) data_why body_why [lit "a<b"]).
    + reflexivity.
    + repeat split; reflexivity.
    + reflexivity.
    + discriminate.
Defined.

(** A response with a [why] list is shown with its items, escaped. *)
Example why_items_shown :
  shown whyList (snd (checkBtn_click (answering 200 body_why data_why) page_hello))
  = Some (Markup (lit "<li>a&lt;b</li>")).
Proof. reflexivity. Qed.

(** ** The status indicator *)

Lemma existsb_remove : forall (x : jsstring) names cl,
  In x names -> existsb (eqb x) (classList_remove names cl) = false.
Proof.
  intros x names cl Hin. unfold classList_remove.
  destruct (existsb (eqb x) (filter _ cl)) eqn:E; [|reflexivity].
  apply existsb_eqb_In in E. apply filter_In in E. destruct E as [_ E].
  apply negb_true_iff in E.
  assert (existsb (eqb x) names = true) by now apply existsb_eqb_In.
  congruence.
Qed.

Lemma shown_state_restyle : forall st cl e,
  classList e = restyle st cl -> shown_state e = st.
Proof.
  intros st cl e H. unfold shown_state. rewrite H. unfold restyle.
  set (c0 := classList_remove [lit "ok"; lit "error"; lit "checking"] cl).
  assert (E1 : existsb (eqb (lit "ok")) c0 = false)
    by (apply existsb_remove; simpl; tauto).
  assert (E2 : existsb (eqb (lit "error")) c0 = false)
    by (apply existsb_remove; simpl; tauto).
  assert (E3 : existsb (eqb (lit "checking")) c0 = false)
    by (apply existsb_remove; simpl; tauto).
  destruct st;
    repeat match goal with
           | |- context [is_state ?a ?b] =>
               let v := eval vm_compute in (is_state a b) in
               change (is_state a b) with v
           end;
    cbv iota; unfold classList_add; rewrite ?E1, ?E2, ?E3;
    rewrite ?existsb_app, ?E1, ?E2, ?E3; reflexivity.
Qed.

Lemma setStatus_state : forall st detail ui,
  state_of apiStatus (setStatus apiStatus apiPill st detail ui) = written st (ui apiStatus)
  /\ state_of apiPill (setStatus apiStatus apiPill st detail ui) = written st (ui apiPill)
  /\ shown apiStatus (setStatus apiStatus apiPill st detail ui)
     = written (Text (if JsStr.truthy detail then detail else state_name st)) (ui apiStatus).
Proof.
  intros st detail ui. unfold state_of, shown, written, setStatus, setText, update.
  simpl. repeat split; destruct (ui _); simpl; try reflexivity;
    f_equal; eapply shown_state_restyle; reflexivity.
Qed.

Ltac case_element ui :=
  match goal with
  | |- context [ui ?j] => destruct (ui j); reflexivity
  end.

Lemma written_present : forall {A} (v : A) (u ui : Els) j,
  present j u = present j ui -> written v (u j) = written v (ui j).
Proof.
  intros A v u ui j H. unfold written, present in *.
  destruct (u j), (ui j); (reflexivity || discriminate).
Qed.

Lemma written_checking : forall {A} (v : A) ui j,
  written v (show_checking ui j) = written v (ui j).
Proof. intros. apply written_present, show_checking_present. Qed.

(** ** HTTP errors *)

(** C6.  When the response to a submit has a status outside 200..299,
    whatever its body, the handler leaves by the HTTP-error exit with that
    status; the page is the one the HTTP-error branch writes, in which
    nothing but the debug box depends on the body: the status indicator is
    in the error state and names the code, the title is "Error", the badge
    is "HTTP" and the code, the citations are "None", and the score stays
    as the checking state left it. *)
Theorem http_error_shown :
  forall h ui res raw,
    answered h ui res raw ->
    res_ok res = false ->
    fst (checkBtn_click h ui) = ExitHttpError (status res)
    /\ snd (checkBtn_click h ui) = show_http_error res raw (show_checking ui)
    /\ (forall raw' j, j <> debugBox ->
          show_http_error res raw' (show_checking ui) j = snd (checkBtn_click h ui) j)
    /\ state_of apiStatus (snd (checkBtn_click h ui)) = written SError (ui apiStatus)
    /\ state_of apiPill (snd (checkBtn_click h ui)) = written SError (ui apiPill)
    /\ shown apiStatus (snd (checkBtn_click h ui))
       = written (Text (lit "API error (" ++ dec (status res) ++ lit ")")) (ui apiStatus)
    /\ shown resultTitle (snd (checkBtn_click h ui))
       = written (Text (lit "Error")) (ui resultTitle)
    /\ shown resultBadge (snd (checkBtn_click h ui))
       = written (Text (lit "HTTP " ++ dec (status res))) (ui resultBadge)
    /\ shown citationsBox (snd (checkBtn_click h ui))
       = written (Markup (muted_div (lit "None"))) (ui citationsBox)
    /\ shown scorePct (snd (checkBtn_click h ui)) = written (Text emdash) (ui scorePct)
    /\ width_of scoreBar (snd (checkBtn_click h ui)) = written (lit "0%") (ui scoreBar)
    /\ shown debugBox (snd (checkBtn_click h ui))
       = written (Text (lit "[HTTP " ++ dec (status res) ++ lit "] " ++ statusText res
                        ++ nl ++ nl ++ lit "RAW:" ++ nl ++ slice0 2000 raw))
                 (ui debugBox).
Proof.
  intros h ui res raw Hans Hok.
  pose proof (checkClaim_answered h ui res raw Hans) as Hcheck.
  destruct Hans as [Hclaim _].
  rewrite (checkBtn_click_http_error h ui res _ raw Hclaim Hcheck Hok).
  cbn [fst snd].
  split; [reflexivity|]. split; [reflexivity|]. split.
  { intros raw' j Hj. destruct j; try reflexivity. now contradiction Hj. }
  assert (Hst := setStatus_state SError
                   (lit "API error (" ++ dec (status res) ++ lit ")") (show_checking ui)).
  destruct Hst as (S1 & S2 & S3). rewrite !written_checking in *.
  change (JsStr.truthy (lit "API error (" ++ dec (status res) ++ lit ")"))
    with true in S3. cbv iota in S3.
  split; [exact S1|]. split; [exact S2|]. split; [exact S3|].
  clear. unfold shown, width_of, written, show_http_error, show_checking, setStatus,
    setHTML, setText, update. simpl.
  repeat split; case_element ui.
Qed.

(** C6, at a concrete check: the Worker answers 500 with an HTML page. *)
Lemma http_error_witness :
  fst (checkBtn_click (world (responds 500 html_oops) rejects) page_hello)
  = ExitHttpError 500
  /\ shown resultBadge (snd (checkBtn_click (world (responds 500 html_oops) rejects)
                                            page_hello))
     = Some (Text (lit "HTTP 500")).
Proof.
  destruct (http_error_shown (world (responds 500 html_oops) rejects) page_hello
              (response 500 html_oops) html_oops)
    as (H1 & _ & _ & _ & _ & _ & _ & H2 & _).
  - split; [reflexivity|]. exists 120%N. repeat split; reflexivity.
  - reflexivity.
  - split; [exact H1 | rewrite H2; reflexivity].
Defined.

(** ** Payload errors *)

Lemma show_payload_error_Normal : forall h data raw s ui,
  ToString h (or_else (get_opt (Some data) (lit "raw")) (Some (JString raw))) = Normal s ->
  exists ui',
    show_payload_error h data raw ui = (Normal tt, ui')
    /\ forall j, ui' j = payload_error_page s ui j.
Proof.
  intros h data raw s ui Hs.
  unfold show_payload_error, bind, write, when_present, lift. rewrite Hs.
  match goal with
  | |- context [present debugBox ?u] => destruct (present debugBox u) eqn:P
  end.
  - eexists. split; [reflexivity|]. intros j. reflexivity.
  - eexists. split; [reflexivity|]. intros j.
    destruct j; try reflexivity.
    unfold present, payload_error_page, setStatus, setHTML, setText, update in *.
    simpl in *. destruct (ui debugBox); [discriminate | reflexivity].
Qed.

Lemma payload_error_page_fields : forall s ui,
  state_of apiStatus (payload_error_page s ui) = written SError (ui apiStatus)
  /\ state_of apiPill (payload_error_page s ui) = written SError (ui apiPill)
  /\ shown apiStatus (payload_error_page s ui) = written (Text (lit "Bad response")) (ui apiStatus)
  /\ shown resultTitle (payload_error_page s ui) = written (Text (lit "Error")) (ui resultTitle)
  /\ shown resultBadge (payload_error_page s ui)
     = written (Text (lit "Bad response")) (ui resultBadge)
  /\ shown debugBox (payload_error_page s ui)
     = written (Text (lit "[BAD JSON]" ++ nl ++ slice0 2000 s)) (ui debugBox).
Proof.
  intros s ui.
  destruct (setStatus_state SError (lit "Bad response") ui) as (S1 & S2 & S3).
  split; [exact S1|]. split; [exact S2|]. split; [exact S3|].
  clear. unfold shown, written, payload_error_page, setStatus, setHTML, setText, update.
  simpl. repeat split; case_element ui.
Qed.

Lemma raw_or_body : forall h data raw,
  (Json.truthy (get_opt (Some data) (lit "raw")) = false ->
   ToString h (or_else (get_opt (Some data) (lit "raw")) (Some (JString raw))) = Normal raw)
  /\ (forall r, get_opt (Some data) (lit "raw") = Some (JString r) ->
        ToString h (or_else (get_opt (Some data) (lit "raw")) (Some (JString raw)))
        = Normal (if JsStr.truthy r then r else raw)).
Proof.
  intros h data raw. split.
  - intros H. unfold or_else. now rewrite H.
  - intros r H. unfold or_else. rewrite H. simpl. now destruct r.
Qed.

Lemma not_json_raw : forall h raw,
  ToString h (or_else (get_opt (Some (not_json raw)) (lit "raw")) (Some (JString raw)))
  = Normal raw.
Proof.
  intros h raw. destruct (raw_or_body h (not_json raw) raw) as [_ H].
  rewrite (H raw) by reflexivity. now destruct raw.
Qed.

(** C7 as the specification words it does not hold: a body that parses
    and carries an error marker together with a [raw] field of its own is
    shown with that field, not with the body. *)
Lemma error_marked_body_shows_its_raw_field :
  ~ payload_error_keeps_raw_body.
Proof.
  intros H.
  destruct (H (answering 200 body_error_raw data_error_raw) page_hello
              (response 200 body_error_raw) body_error_raw)
    as (_ & _ & Hd).
  - split; [reflexivity|]. exists 120%N. repeat split; reflexivity.
  - reflexivity.
  - right. exists data_error_raw. split; reflexivity.
  - vm_compute in Hd. discriminate Hd.
Qed.

Lemma payload_error_run : forall h ui res data raw s,
  JsStr.truthy (claim_of ui) = true ->
  checkClaim h (claim_of ui) (evidence_of ui) = Normal (res, data, raw) ->
  res_ok res = true ->
  Json.truthy (get_opt (Some data) (lit "error")) = true ->
  ToString h (or_else (get_opt (Some data) (lit "raw")) (Some (JString raw))) = Normal s ->
  fst (checkBtn_click h ui) = ExitPayloadError
  /\ forall j, snd (checkBtn_click h ui) j = payload_error_page s (show_checking ui) j.
Proof.
  intros h ui res data raw s Hclaim Hcheck Hok Herr Hs.
  rewrite (checkBtn_click_payload_error h ui res data raw Hclaim Hcheck Hok Herr).
  destruct (show_payload_error_Normal h data raw s (show_checking ui) Hs)
    as (u' & Hrun & Hpage).
  rewrite Hrun. split; [reflexivity | exact Hpage].
Qed.

Lemma payload_error_fields : forall (u : Els) s ui,
  (forall j, u j = payload_error_page s (show_checking ui) j) ->
  state_of apiStatus u = written SError (ui apiStatus)
  /\ state_of apiPill u = written SError (ui apiPill)
  /\ shown resultTitle u = written (Text (lit "Error")) (ui resultTitle)
  /\ shown resultBadge u = written (Text (lit "Bad response")) (ui resultBadge)
  /\ shown debugBox u
     = written (Text (lit "[BAD JSON]" ++ nl ++ slice0 2000 s)) (ui debugBox).
Proof.
  intros u s ui Hu.
  destruct (payload_error_page_fields s (show_checking ui))
    as (F1 & F2 & _ & F4 & F5 & F6).
  rewrite !written_checking in *.
  unfold state_of, shown in *. rewrite !Hu. tauto.
Qed.

(** C7, amended.  A successful response whose body does not parse gives
    the submit an object with an [error] marker and the body as [raw];
    the handler leaves by the payload-error exit, the page is in the
    error state, and the debug box shows the first 2000 code units of the
    body.  A body that parses and carries a truthy [error] takes the same
    exit, and the debug box shows the first 2000 code units of its [raw]
    field when it has a truthy one, and of the body otherwise. *)
Theorem payload_error_shown :
  (forall h ui res raw,
     answered h ui res raw ->
     res_ok res = true ->
     JSON_parse h raw = None ->
     checkClaim h (claim_of ui) (evidence_of ui) = Normal (res, not_json raw, raw)
     /\ get_opt (Some (not_json raw)) (lit "error")
        = Some (JString (lit "Bad response (not JSON)"))
     /\ get_opt (Some (not_json raw)) (lit "raw") = Some (JString raw)
     /\ fst (checkBtn_click h ui) = ExitPayloadError
     /\ state_of apiStatus (snd (checkBtn_click h ui)) = written SError (ui apiStatus)
     /\ state_of apiPill (snd (checkBtn_click h ui)) = written SError (ui apiPill)
     /\ shown resultTitle (snd (checkBtn_click h ui))
        = written (Text (lit "Error")) (ui resultTitle)
     /\ shown resultBadge (snd (checkBtn_click h ui))
        = written (Text (lit "Bad response")) (ui resultBadge)
     /\ shown debugBox (snd (checkBtn_click h ui))
        = written (Text (lit "[BAD JSON]" ++ nl ++ slice0 2000 raw)) (ui debugBox)
     /\ (List.length (slice0 2000 raw) <= 2000)%nat)
  /\ (forall h ui res raw data s,
        answered h ui res raw ->
        res_ok res = true ->
        JSON_parse h raw = Some data ->
        Json.truthy (get_opt (Some data) (lit "error")) = true ->
        ToString h (or_else (get_opt (Some data) (lit "raw")) (Some (JString raw)))
        = Normal s ->
        fst (checkBtn_click h ui) = ExitPayloadError
        /\ state_of apiStatus (snd (checkBtn_click h ui)) = written SError (ui apiStatus)
        /\ state_of apiPill (snd (checkBtn_click h ui)) = written SError (ui apiPill)
        /\ shown resultTitle (snd (checkBtn_click h ui))
           = written (Text (lit "Error")) (ui resultTitle)
        /\ shown resultBadge (snd (checkBtn_click h ui))
           = written (Text (lit "Bad response")) (ui resultBadge)
        /\ shown debugBox (snd (checkBtn_click h ui))
           = written (Text (lit "[BAD JSON]" ++ nl ++ slice0 2000 s)) (ui debugBox)
        /\ (List.length (slice0 2000 s) <= 2000)%nat)
  /\ (forall h data raw,
        Json.truthy (get_opt (Some data) (lit "raw")) = false ->
        ToString h (or_else (get_opt (Some data) (lit "raw")) (Some (JString raw)))
        = Normal raw)
  /\ (forall h data raw r,
        get_opt (Some data) (lit "raw") = Some (JString r) -> r <> [] ->
        ToString h (or_else (get_opt (Some data) (lit "raw")) (Some (JString raw)))
        = Normal r).
Proof.
  split; [|split; [|split]].
  - intros h ui res raw Hans Hok Hparse.
    pose proof (checkClaim_answered h ui res raw Hans) as Hcheck.
    rewrite Hparse in Hcheck. destruct Hans as [Hclaim _].
    destruct (payload_error_run h ui res (not_json raw) raw raw Hclaim Hcheck Hok
                eq_refl (not_json_raw h raw)) as [Hexit Hpage].
    destruct (payload_error_fields _ raw ui Hpage) as (F1 & F2 & F3 & F4 & F5).
    repeat split; try assumption. apply firstn_le_length.
  - intros h ui res raw data s Hans Hok Hparse Herr Hs.
    pose proof (checkClaim_answered h ui res raw Hans) as Hcheck.
    rewrite Hparse in Hcheck. destruct Hans as [Hclaim _].
    destruct (payload_error_run h ui res data raw s Hclaim Hcheck Hok Herr Hs)
      as [Hexit Hpage].
    destruct (payload_error_fields _ s ui Hpage) as (F1 & F2 & F3 & F4 & F5).
    repeat split; try assumption. apply firstn_le_length.
  - intros h data raw. apply raw_or_body.
  - intros h data raw r Hr Hne. destruct (raw_or_body h data raw) as [_ H].
    rewrite (H r Hr). destruct r; [now contradiction Hne | reflexivity].
Qed.

(** C7 (amended), at a concrete check: the Worker answers 200 with an
    HTML page. *)
Lemma payload_error_witness :
  fst (checkBtn_click (world (responds 200 html_oops) rejects) page_hello)
  = ExitPayloadError
  /\ shown debugBox (snd (checkBtn_click (world (responds 200 html_oops) rejects)
                                         page_hello))
     = Some (Text (lit "[BAD JSON]" ++ nl ++ html_oops)).
Proof.
  destruct (proj1 payload_error_shown (world (responds 200 html_oops) rejects)
              page_hello (response 200 html_oops) html_oops)
    as (_ & _ & _ & H1 & _ & _ & _ & _ & H2 & _).
  - split; [reflexivity|]. exists 120%N. repeat split; reflexivity.
  - reflexivity.
  - reflexivity.
  - split; [exact H1 | rewrite H2; reflexivity].
Defined.

(** ** Failures before a response *)

Lemma catch_block_fields : forall e ui,
  state_of apiStatus (catch_block e ui) = written SError (ui apiStatus)
  /\ state_of apiPill (catch_block e ui) = written SError (ui apiPill)
  /\ shown apiStatus (catch_block e ui) = written (Text (catch_message e)) (ui apiStatus)
  /\ shown resultTitle (catch_block e ui) = written (Text (lit "Error")) (ui resultTitle)
  /\ shown resultBadge (catch_block e ui) = written (Text (catch_message e)) (ui resultBadge).
Proof.
  intros e ui.
  destruct (setStatus_state SError (catch_message e) ui) as (S1 & S2 & S3).
  assert (T : JsStr.truthy (catch_message e) = true).
  { unfold catch_message. now destruct (eqb (err_name e) (lit "AbortError")). }
  rewrite T in S3.
  split; [exact S1|]. split; [exact S2|]. split; [exact S3|].
  clear. unfold shown, written, catch_block, setStatus, setHTML, setText, update.
  simpl. repeat split; case_element ui.
Qed.

Lemma fetchWithTimeout_late : forall h req t,
  settles_before (network h req) t = false ->
  fetchWithTimeout h req t
  = Throw {| err_name := lit "AbortError"; err_message := abort_message h |}.
Proof.
  intros h req t H. unfold fetchWithTimeout, settles_before in *.
  destruct (network h req); try rewrite H; reflexivity.
Qed.

Lemma fetchWithTimeout_failed : forall h req t ms message,
  network h req = Fails ms message -> (ms < t)%N ->
  fetchWithTimeout h req t
  = Throw {| err_name := lit "TypeError"; err_message := message |}.
Proof.
  intros h req t ms message H Hms. unfold fetchWithTimeout. rewrite H.
  apply N.ltb_lt in Hms. now rewrite Hms.
Qed.

(** C8.  A [fetchWithTimeout] that fails tells by the name of its error
    whether the deadline passed: the name is AbortError exactly when the
    request had not settled before the deadline.  A check whose request
    does not settle within 20000 ms ends in the error state with the
    message "Request timed out"; one whose request fails before that ends
    in the error state with the message "Failed to fetch"; the two
    messages differ. *)
Theorem timeout_told_apart_from_network_failure :
  (forall h req t e,
     fetchWithTimeout h req t = Throw e ->
     (settles_before (network h req) t = false <-> err_name e = lit "AbortError"))
  /\ (forall h ui,
        JsStr.truthy (claim_of ui) = true ->
        settles_before (network h (check_request h (claim_of ui) (evidence_of ui)))
                       FETCH_TIMEOUT_MS = false ->
        (exists e, fst (checkBtn_click h ui) = ExitCaught e
                   /\ err_name e = lit "AbortError")
        /\ state_of apiStatus (snd (checkBtn_click h ui)) = written SError (ui apiStatus)
        /\ shown apiStatus (snd (checkBtn_click h ui))
           = written (Text (lit "Request timed out")) (ui apiStatus)
        /\ shown resultBadge (snd (checkBtn_click h ui))
           = written (Text (lit "Request timed out")) (ui resultBadge))
  /\ (forall h ui ms message,
        JsStr.truthy (claim_of ui) = true ->
        network h (check_request h (claim_of ui) (evidence_of ui)) = Fails ms message ->
        (ms < FETCH_TIMEOUT_MS)%N ->
        (exists e, fst (checkBtn_click h ui) = ExitCaught e
                   /\ err_name e = lit "TypeError")
        /\ state_of apiStatus (snd (checkBtn_click h ui)) = written SError (ui apiStatus)
        /\ shown apiStatus (snd (checkBtn_click h ui))
           = written (Text (lit "Failed to fetch")) (ui apiStatus)
        /\ shown resultBadge (snd (checkBtn_click h ui))
           = written (Text (lit "Failed to fetch")) (ui resultBadge))
  /\ lit "Request timed out" <> lit "Failed to fetch".
Proof.
  split; [|split; [|split]].
  - intros h req t e H. unfold fetchWithTimeout, settles_before in *.
    destruct (network h req) as [ms res|ms message|].
    + destruct (ms <? t)%N; [discriminate|]. injection H as <-. tauto.
    + destruct (ms <? t)%N; injection H as <-; simpl; split; intros H;
        (reflexivity || discriminate).
    + injection H as <-. tauto.
  - intros h ui Hclaim Hlate.
    assert (Hcheck : checkClaim h (claim_of ui) (evidence_of ui)
                     = Throw {| err_name := lit "AbortError";
                                err_message := abort_message h |}).
    { unfold checkClaim. now rewrite fetchWithTimeout_late. }
    rewrite (checkBtn_click_rejected h ui _ Hclaim Hcheck). cbn [fst snd].
    destruct (catch_block_fields {| err_name := lit "AbortError";
                                    err_message := abort_message h |}
                (show_checking ui)) as (F1 & _ & F3 & _ & F5).
    rewrite !written_checking in *.
    split; [eexists; split; reflexivity|]. repeat split; assumption.
  - intros h ui ms message Hclaim Hnet Hms.
    assert (Hcheck : checkClaim h (claim_of ui) (evidence_of ui)
                     = Throw {| err_name := lit "TypeError"; err_message := message |}).
    { unfold checkClaim. now rewrite (fetchWithTimeout_failed h _ _ ms message). }
    rewrite (checkBtn_click_rejected h ui _ Hclaim Hcheck). cbn [fst snd].
    destruct (catch_block_fields {| err_name := lit "TypeError"; err_message := message |}
                (show_checking ui)) as (F1 & _ & F3 & _ & F5).
    rewrite !written_checking in *.
    split; [eexists; split; reflexivity|]. repeat split; assumption.
  - intros H. vm_compute in H. discriminate H.
Qed.

(** C8, at two concrete checks: a Worker that never answers, and a
    connection that fails after 10 ms. *)
Lemma timeout_witness :
  shown apiStatus (snd (checkBtn_click (world Hangs rejects) page_hello))
  = Some (Text (lit "Request timed out"))
  /\ shown apiStatus
       (snd (checkBtn_click (world (Fails 10 (lit "Failed to fetch")) rejects) page_hello))
     = Some (Text (lit "Failed to fetch")).
Proof.
  destruct timeout_told_apart_from_network_failure as (_ & Hlate & Hfail & _).
  destruct (Hlate (world Hangs rejects) page_hello eq_refl eq_refl)
    as (_ & _ & H1 & _).
  destruct (Hfail (world (Fails 10 (lit "Failed to fetch")) rejects) page_hello
              10%N (lit "Failed to fetch") eq_refl eq_refl eq_refl)
    as (_ & _ & H2 & _).
  split; [rewrite H1 | rewrite H2]; reflexivity.
Defined.

(** ** What the error branches leave alone *)

Lemma show_payload_error_frame : forall h data raw ui c ui',
  show_payload_error h data raw ui = (c, ui') ->
  (forall j, ~ In j error_view -> ui' j = ui j)
  /\ (forall j, present j ui' = present j ui)
  /\ ui' apiStatus = setStatus apiStatus apiPill SError (lit "Bad response") ui apiStatus.
Proof.
  intros h data raw ui c ui' H.
  unfold show_payload_error, bind, write, when_present, lift in H.
  assert (Hcases :
    ui' = setHTML citationsBox (muted_div (lit "None"))
            (setHTML whyList
               (lit "<li>Backend responded, but payload wasn" ++ rsquo
                ++ lit "t usable JSON.</li>"
                ++ nl ++ spaces 13 ++ lit "<li>See Debug for raw response.</li>")
               (setText resultBadge (lit "Bad response")
                  (setText resultTitle (lit "Error")
                     (setStatus apiStatus apiPill SError (lit "Bad response") ui))))
    \/ exists s, ui' = payload_error_page s ui).
  { match type of H with
    | context [present debugBox ?u] => destruct (present debugBox u)
    end.
    - destruct (ToString h _) as [s|e]; inversion H; subst.
      + right. now exists s.
      + now left.
    - inversion H; subst. now left. }
  clear H. destruct Hcases as [->|[s ->]]; repeat split; intros;
    try (destruct j; try reflexivity; exfalso;
         match goal with Hj : ~ In _ _ |- _ => apply Hj; simpl; tauto end);
    unfold present, payload_error_page, setStatus, setHTML, setText, update;
    destruct j; simpl; destruct (ui _); reflexivity.
Qed.

Lemma catch_block_frame : forall e ui j,
  ~ In j error_view -> catch_block e ui j = ui j.
Proof.
  intros e ui j Hj. destruct j; try reflexivity; exfalso; apply Hj; simpl; tauto.
Qed.

(** C10.  When the submit gives no response to render (it was rejected,
    or the status was not successful, or the body carried an error
    marker), the check ends in the error state and every element outside
    the status indicator, the pill, the title, the badge, the explanation
    list, the citations and the debug box is as the checking state left
    it: the bar at 0% and the percentage showing a dash.  Each of the
    three error branches writes to those seven elements only. *)
Theorem error_exits_leave_score_untouched :
  (forall h ui,
     JsStr.truthy (claim_of ui) = true ->
     not_usable (checkClaim h (claim_of ui) (evidence_of ui)) ->
     (forall j, ~ In j error_view -> snd (checkBtn_click h ui) j = show_checking ui j)
     /\ width_of scoreBar (snd (checkBtn_click h ui)) = written (lit "0%") (ui scoreBar)
     /\ shown scorePct (snd (checkBtn_click h ui)) = written (Text emdash) (ui scorePct)
     /\ state_of apiStatus (snd (checkBtn_click h ui)) = written SError (ui apiStatus)
     /\ fst (checkBtn_click h ui) <> ExitOk)
  /\ (forall res raw ui j,
        ~ In j error_view -> show_http_error res raw ui j = ui j)
  /\ (forall h data raw ui j,
        ~ In j error_view -> snd (show_payload_error h data raw ui) j = ui j)
  /\ (forall e ui j,
        ~ In j error_view -> catch_block e ui j = ui j).
Proof.
  split; [|split; [|split]].
  2:{ intros res raw ui j Hj.
      destruct j; try reflexivity; exfalso; apply Hj; simpl; tauto. }
  2:{ intros h data raw ui j Hj.
      destruct (show_payload_error h data raw ui) as [c u'] eqn:E.
      now destruct (show_payload_error_frame h data raw ui c u' E) as [Hframe _];
        apply Hframe. }
  2:{ intros e ui j Hj. now apply catch_block_frame. }
  intros h ui Hclaim Hnot.
  assert (Hmain :
    (forall j, ~ In j error_view -> snd (checkBtn_click h ui) j = show_checking ui j)
    /\ state_of apiStatus (snd (checkBtn_click h ui)) = written SError (ui apiStatus)
    /\ fst (checkBtn_click h ui) <> ExitOk).
  { destruct (checkClaim h (claim_of ui) (evidence_of ui)) as [[[res data] raw]|e] eqn:Hcheck.
    - destruct (res_ok res) eqn:Hok.
      + unfold not_usable in Hnot. destruct Hnot as [Hf|Herr]; [congruence|].
        rewrite (checkBtn_click_payload_error h ui res data raw Hclaim Hcheck Hok Herr).
        destruct (show_payload_error h data raw (show_checking ui)) as [[x|e] u'] eqn:Hrun;
          destruct (show_payload_error_frame h data raw _ _ _ Hrun)
            as (Hframe & Hpres & Hstatus);
          cbn [fst snd].
        * split; [exact Hframe|]. split; [|discriminate].
          unfold state_of. rewrite Hstatus.
          destruct (setStatus_state SError (lit "Bad response") (show_checking ui))
            as [S1 _].
          rewrite written_checking in S1. exact S1.
        * split.
          -- intros j Hj. rewrite catch_block_frame by assumption. now apply Hframe.
          -- split; [|discriminate].
             destruct (catch_block_fields e u') as [F1 _]. rewrite F1.
             rewrite (written_present _ _ (show_checking ui) _ (Hpres _)).
             apply written_checking.
      + rewrite (checkBtn_click_http_error h ui res data raw Hclaim Hcheck Hok).
        cbn [fst snd]. split.
        * intros j Hj. destruct j; try reflexivity; exfalso; apply Hj; simpl; tauto.
        * split; [|discriminate].
          destruct (setStatus_state SError
                      (lit "API error (" ++ dec (status res) ++ lit ")")
                      (show_checking ui)) as [S1 _].
          rewrite written_checking in S1. exact S1.
    - rewrite (checkBtn_click_rejected h ui e Hclaim Hcheck). cbn [fst snd].
      split; [intros j Hj; now apply catch_block_frame|].
      split; [|discriminate].
      destruct (catch_block_fields e (show_checking ui)) as [F1 _].
      now rewrite written_checking in F1. }
  destruct Hmain as (Hframe & Hstate & Hexit).
  destruct (show_checking_score ui) as [Cpct Cbar].
  split; [exact Hframe|].
  split; [|split; [|split; assumption]].
  - unfold width_of, written. rewrite Hframe, Cbar.
    + now destruct (ui scoreBar).
    + simpl. intuition discriminate.
  - unfold shown, written. rewrite Hframe, Cpct.
    + now destruct (ui scorePct).
    + simpl. intuition discriminate.
Qed.

(** C10, at a concrete check: the Worker answers 500, and the bar and
    the percentage show what the checking state wrote. *)
Lemma error_exit_witness :
  width_of scoreBar (snd (checkBtn_click (world (responds 500 html_oops) rejects)
                                         page_hello))
  = Some (lit "0%")
  /\ shown scorePct (snd (checkBtn_click (world (responds 500 html_oops) rejects)
                                         page_hello))
     = Some (Text emdash).
Proof.
  destruct (proj1 error_exits_leave_score_untouched
              (world (responds 500 html_oops) rejects) page_hello eq_refl)
    as (_ & H1 & H2 & _).
  - vm_compute. left. reflexivity.
  - split; [rewrite H1 | rewrite H2]; reflexivity.
Defined.

(** ** The writers of the status indicator *)

Lemma update_present : forall id f ui j, present j (update id f ui) = present j ui.
Proof.
  intros id f ui j. unfold present, update.
  destruct (ElId_eqb j id); [|reflexivity]. now destruct (ui j).
Qed.

Lemma setStatus_present : forall st detail ui j,
  present j (setStatus apiStatus apiPill st detail ui) = present j ui.
Proof.
  intros st detail ui j. unfold setStatus, setText. now rewrite !update_present.
Qed.

Lemma keeps_write : forall f,
  (forall ui j, present j (f ui) = present j ui) -> keeps_elements (write f).
Proof. intros f H ui j. apply H. Qed.

Lemma keeps_lift : forall {A} (c : Completion A), keeps_elements (lift c).
Proof. intros A c ui j. reflexivity. Qed.

Lemma keeps_bind : forall {A B} (m : M A) (k : A -> M B),
  keeps_elements m -> (forall a, keeps_elements (k a)) -> keeps_elements (bind m k).
Proof.
  intros A B m k Hm Hk ui j. unfold bind. specialize (Hm ui j).
  destruct (m ui) as [[a|e] u1]; simpl in *; [|exact Hm].
  now rewrite (Hk a u1 j).
Qed.

Lemma keeps_when_present : forall id m,
  keeps_elements m -> keeps_elements (when_present id m).
Proof.
  intros id m Hm ui j. unfold when_present.
  destruct (present id ui); [apply Hm | reflexivity].
Qed.

Lemma keeps_ret : forall {A} (a : A), keeps_elements (ret a).
Proof. intros A a ui j. reflexivity. Qed.

Ltac keeps :=
  repeat first
    [ apply keeps_bind; [|intros ?]
    | apply keeps_when_present
    | apply keeps_lift
    | apply keeps_ret
    | apply keeps_write; intros ? ?;
      unfold show_score, show_debug, show_http_error, setHTML, setText; cbv zeta;
      repeat (rewrite update_present || rewrite setStatus_present); reflexivity ].

Lemma show_result_keeps : forall h claim ev data,
  keeps_elements (show_result h claim ev data).
Proof.
  intros h claim ev data.
  unfold show_result, show_verdict, setText_value, show_why, show_citations.
  keeps. destruct (Nat.eqb _ 0); keeps.
Qed.

Lemma try_block_keeps : forall h claim ev, keeps_elements (try_block h claim ev).
Proof.
  intros h claim ev. unfold try_block. apply keeps_bind; [apply keeps_lift|].
  intros [[res data] raw].
  destruct (negb (res_ok res)).
  - keeps.
  - destruct (Json.truthy _).
    + unfold show_payload_error. keeps.
    + apply keeps_bind; [apply show_result_keeps | intros _; apply keeps_ret].
Qed.

Lemma show_result_status : forall h claim ev data ui (x : unit) ui',
  show_result h claim ev data ui = (Normal x, ui') ->
  ui' apiStatus
  = setStatus apiStatus apiPill SOk (lit "Checked " ++ checkmark) ui apiStatus.
Proof.
  intros h claim ev data ui x ui' H. unfold show_result in H.
  step_bind H score u0 Hscore. apply lift_Normal in Hscore.
  destruct Hscore as [_ ->].
  step_bind H x1 ua Hverdict.
  step_bind H x2 ub Hub. apply write_Normal in Hub.
  step_bind H x3 uc Hwhy.
  step_bind H x4 ud Hcit.
  apply write_Normal in H.
  unfold show_verdict in Hverdict.
  step_bind Hverdict x5 u1 Hu1. apply write_Normal in Hu1.
  step_bind Hverdict x6 u2 Htitle.
  subst ui'. unfold show_debug, setText. rewrite update_other by discriminate.
  rewrite (only_writes_eq citationsBox _ uc _ ud apiStatus
             (show_citations_writes h data) Hcit) by discriminate.
  rewrite (only_writes_eq whyList _ ub _ uc apiStatus
             (show_why_writes h claim ev data) Hwhy) by discriminate.
  subst ub. unfold show_score, setText. rewrite !update_other by discriminate.
  rewrite (only_writes_eq resultBadge _ u2 _ ua apiStatus
             (setText_value_writes h resultBadge _) Hverdict) by discriminate.
  rewrite (only_writes_eq resultTitle _ u1 _ u2 apiStatus
             (setText_value_writes h resultTitle _) Htitle) by discriminate.
  now subst u1.
Qed.

Lemma state_of_present : forall st (u ui : Els) detail,
  (forall j, present j u = present j ui) ->
  state_of apiStatus (setStatus apiStatus apiPill st detail u) = written st (ui apiStatus).
Proof.
  intros st u ui detail P. destruct (setStatus_state st detail u) as [S1 _].
  rewrite S1. now apply written_present.
Qed.

(** Every check leaves the status indicator in the ok state or in the
    error state. *)
Lemma checkBtn_click_status : forall h ui,
  exists st,
    (st = SOk \/ st = SError)
    /\ state_of apiStatus (snd (checkBtn_click h ui)) = written st (ui apiStatus).
Proof.
  intros h ui. unfold checkBtn_click.
  destruct (negb (JsStr.truthy (claim_of ui))).
  { exists SError. split; [now right|]. cbn [snd]. now apply state_of_present. }
  pose proof (try_block_keeps h (claim_of ui) (evidence_of ui) (show_checking ui)) as K.
  destruct (try_block h (claim_of ui) (evidence_of ui) (show_checking ui))
    as [[exit|e] u'] eqn:Hrun; cbn [snd] in *.
  2:{ exists SError. split; [now right|].
      destruct (catch_block_fields e u') as [F1 _]. rewrite F1.
      rewrite (written_present _ _ (show_checking ui) _ (K _)).
      apply written_checking. }
  unfold try_block in Hrun. step_bind Hrun r u0 Hcheck.
  apply lift_Normal in Hcheck. destruct Hcheck as [_ ->].
  destruct r as [[res data] raw].
  destruct (negb (res_ok res)).
  - step_bind Hrun x1 u1 Hw. apply write_Normal in Hw. inversion Hrun; subst.
    exists SError. split; [now right|].
    unfold show_http_error, state_of, setHTML, setText.
    rewrite !update_other by discriminate.
    apply (state_of_present SError (show_checking ui) ui).
    apply show_checking_present.
  - destruct (Json.truthy (get_opt (Some data) (lit "error"))).
    + step_bind Hrun x1 u1 Hp. inversion Hrun; subst.
      destruct (show_payload_error_frame h data raw _ _ _ Hp) as (_ & _ & Hs).
      exists SError. split; [now right|]. unfold state_of. rewrite Hs.
      apply (state_of_present SError (show_checking ui) ui).
      apply show_checking_present.
    + step_bind Hrun x1 u1 Hr. inversion Hrun; subst.
      apply show_result_status in Hr.
      exists SOk. split; [now left|]. unfold state_of. rewrite Hr.
      apply (state_of_present SOk (show_checking ui) ui).
      apply show_checking_present.
Qed.

(** The probe leaves the status indicator in the ok state or in the
    error state. *)
Lemma ping_on_load_status : forall h ui,
  exists st,
    (st = SOk \/ st = SError)
    /\ state_of apiStatus (ping_on_load h ui) = written st (ui apiStatus).
Proof.
  intros h ui. unfold ping_on_load.
  assert (P : forall d j, present j (setStatus apiStatus apiPill SChecking d ui)
                          = present j ui)
    by (intros; apply setStatus_present).
  destruct (pingWorker h) as [ping|e].
  - destruct (ping_ok ping).
    + exists SOk. split; [now left|]. now apply state_of_present.
    + exists SError. split; [now right|]. unfold state_of, setText.
      rewrite update_other by discriminate. now apply state_of_present.
  - exists SError. split; [now right|]. unfold state_of, setText.
    rewrite update_other by discriminate. now apply state_of_present.
Qed.

(** ** Who writes the status indicator *)

(** C9 as the specification words it does not hold: the clear button
    resets the status indicator of a checked page. *)
Lemma clear_resets_status :
  ~ status_written_only_by_probe_and_check.
Proof.
  intros H.
  destruct (H (world Hangs rejects) checked_page ClickClear) as [Hs _].
  - now left.
  - vm_compute in Hs. discriminate Hs.
Qed.

Lemma example_click_status : forall h x ui j,
  j <> claimInput -> j <> evidenceInput ->
  snd (example_click h x ui) j = ui j.
Proof.
  intros h x ui j Hc He.
  unfold example_click, bind, write, ret.
  destruct (JsStr.truthy (nth 0 (map trim (split 124 x)) []));
    destruct (nth_error (map trim (split 124 x)) 1) as [u|];
    try destruct (JsStr.truthy u);
    try destruct (present evidenceInput _);
    simpl; rewrite ?update_other by assumption; reflexivity.
Qed.

(** C9, amended.  Toggling the debug box and filling in an example leave
    the status indicator and the pill untouched; the clear button, on a
    page that has one, puts both in the idle state with the text
    "API: not checked"; the probe and the check each leave the indicator
    in the ok state or in the error state. *)
Theorem status_written_by_probe_check_and_clear :
  (forall h ui ev,
     (ev = ClickDebugToggle \/ exists x, ev = ClickExample x) ->
     handle h ev ui apiStatus = ui apiStatus
     /\ handle h ev ui apiPill = ui apiPill)
  /\ (forall h ui,
        wired ui = true ->
        present clearBtn ui = true ->
        state_of apiStatus (handle h ClickClear ui) = written SIdle (ui apiStatus)
        /\ state_of apiPill (handle h ClickClear ui) = written SIdle (ui apiPill)
        /\ shown apiStatus (handle h ClickClear ui)
           = written (Text (lit "API: not checked")) (ui apiStatus))
  /\ (forall h ui ev,
        wired ui = true ->
        ev = Loaded \/ ev = ClickCheck ->
        exists st,
          (st = SOk \/ st = SError)
          /\ state_of apiStatus (handle h ev ui) = written st (ui apiStatus)).
Proof.
  split; [|split].
  3:{ intros h ui ev Hw Hev. unfold handle. rewrite Hw. cbn [negb].
      destruct Hev as [->| ->];
        [apply ping_on_load_status | apply checkBtn_click_status]. }
  - intros h ui ev Hev. unfold handle.
    destruct (negb (wired ui)); [split; reflexivity|].
    destruct Hev as [->|[x ->]].
    + destruct (present debugToggle ui && present debugBox ui); split; reflexivity.
    + split; apply example_click_status; discriminate.
  - intros h ui Hw Hc. unfold handle. rewrite Hw, Hc. cbn [negb].
    unfold clearBtn_click.
    match goal with
    | |- context [setStatus apiStatus apiPill SIdle ?d ?u] =>
        destruct (setStatus_state SIdle d u) as (S1 & S2 & S3);
        assert (P : forall j, present j u = present j ui)
    end.
    { intros j. unfold present, setHTML, setText, update.
      destruct j; simpl; destruct (ui _); reflexivity. }
    rewrite !(written_present _ _ ui _ (P _)) in *.
    unfold state_of, shown in *. rewrite !update_other by discriminate.
    repeat split; assumption.
Qed.

(** C9 (amended), on a page that shows the result of a check: toggling
    the debug box keeps the status, clearing makes it idle. *)
Lemma status_witness :
  handle (world Hangs rejects) ClickDebugToggle checked_page apiStatus
  = checked_page apiStatus
  /\ state_of apiStatus (handle (world Hangs rejects) ClickClear checked_page)
     = Some SIdle.
Proof.
  destruct status_written_by_probe_check_and_clear as (Hkeep & Hclear & _).
  destruct (Hkeep (world Hangs rejects) checked_page ClickDebugToggle (or_introl eq_refl))
    as [H1 _].
  destruct (Hclear (world Hangs rejects) checked_page eq_refl eq_refl) as [H2 _].
  split; [exact H1 | rewrite H2; reflexivity].
Defined.

(** ** Outside the claims *)

(** A score whose [Number] is NaN is printed as it is: rounding and
    clamping keep NaN. *)
Remark nan_score_is_printed : forall h, pct_text h (pct_of NaN) = lit "NaN%".
Proof. reflexivity. Qed.

(** A response that makes the rendering throw (here a citation that is
    [null]) ends in the [catch] block after the score was written: the
    page shows the error message and the score of the response. *)
Remark thrown_while_rendering_keeps_score :
  exists e,
    checkBtn_click (answering 200 body_null_citation data_null_citation) page_hello
    = (ExitCaught e,
       snd (checkBtn_click (answering 200 body_null_citation data_null_citation) page_hello))
    /\ shown apiStatus
         (snd (checkBtn_click (answering 200 body_null_citation data_null_citation) page_hello))
       = Some (Text (lit "Failed to fetch"))
    /\ shown scorePct
         (snd (checkBtn_click (answering 200 body_null_citation data_null_citation) page_hello))
       = Some (Text (lit "90%")).
Proof. eexists. repeat split; reflexivity. Qed.

(* ================================================================== *)
(** * Further properties of the script *)

Import More.

(** ** [setStatus] *)

Lemma classList_remove_idem : forall names cl,
  classList_remove names (classList_remove names cl) = classList_remove names cl.
Proof.
  intros names cl. unfold classList_remove. induction cl as [|c cl IH]; simpl.
  - reflexivity.
  - destruct (negb (existsb (eqb c) names)) eqn:E; simpl; [rewrite E|]; now rewrite IH.
Qed.

Lemma classList_remove_app : forall names a b,
  classList_remove names (a ++ b)
  = classList_remove names a ++ classList_remove names b.
Proof. intros names a b. unfold classList_remove. apply filter_app. Qed.

Lemma restyle_form : forall st cl,
  restyle st cl = classList_remove state_classes cl ++ state_class st.
Proof.
  intros st cl. unfold restyle. fold state_classes.
  set (c0 := classList_remove state_classes cl).
  assert (E1 : existsb (eqb (lit "ok")) c0 = false)
    by (apply existsb_remove; simpl; tauto).
  assert (E2 : existsb (eqb (lit "error")) c0 = false)
    by (apply existsb_remove; simpl; tauto).
  assert (E3 : existsb (eqb (lit "checking")) c0 = false)
    by (apply existsb_remove; simpl; tauto).
  destruct st;
    repeat match goal with
           | |- context [is_state ?a ?b] =>
               let v := eval vm_compute in (is_state a b) in
               change (is_state a b) with v
           end;
    cbv iota; unfold classList_add; rewrite ?E1, ?E2, ?E3; simpl state_class;
    rewrite ?app_nil_r; reflexivity.
Qed.

Lemma restyle_restyle : forall a b cl, restyle b (restyle a cl) = restyle b cl.
Proof.
  intros a b cl. rewrite !restyle_form. f_equal.
  rewrite classList_remove_app, classList_remove_idem.
  replace (classList_remove state_classes (state_class a)) with (@nil jsstring);
    [apply app_nil_r | now destruct a].
Qed.

(** X1.  [setStatus] leaves on the indicator and on the pill every class
    that is not one of ok, error and checking, in its place, and puts the
    class of the new state (none for idle) after them: of the three, the
    element carries that one and no other. *)
Theorem setStatus_classes :
  forall st detail ui,
    option_map classList (setStatus apiStatus apiPill st detail ui apiStatus)
    = option_map (fun e => classList_remove state_classes (classList e) ++ state_class st)
                 (ui apiStatus)
    /\ option_map classList (setStatus apiStatus apiPill st detail ui apiPill)
       = option_map (fun e => classList_remove state_classes (classList e)
                              ++ state_class st)
                    (ui apiPill)
    /\ (forall cl c,
          In c (classList_remove state_classes cl ++ state_class st) <->
          (In c cl /\ ~ In c state_classes) \/ In c (state_class st)).
Proof.
  intros st detail ui. split; [|split].
  - unfold setStatus, setText, update. simpl.
    destruct (ui apiStatus); simpl; [|reflexivity]. now rewrite restyle_form.
  - unfold setStatus, setText, update. simpl.
    destruct (ui apiPill); simpl; [|reflexivity]. now rewrite restyle_form.
  - intros cl c. rewrite in_app_iff. unfold classList_remove. rewrite filter_In.
    rewrite negb_true_iff. split.
    + intros [[Hin Hn]|Hs]; [left|now right]. split; [assumption|].
      intros Hc. apply existsb_eqb_In in Hc. congruence.
    + intros [[Hin Hn]|Hs]; [left|now right]. split; [assumption|].
      destruct (existsb (eqb c) state_classes) eqn:E; [|reflexivity].
      exfalso. apply Hn. now apply existsb_eqb_In.
Qed.

(** X2.  Of two [setStatus] in a row the last one wins: the page is the
    one the second call alone would give. *)
Theorem setStatus_last_wins :
  forall a d1 b d2 ui j,
    setStatus apiStatus apiPill b d2 (setStatus apiStatus apiPill a d1 ui) j
    = setStatus apiStatus apiPill b d2 ui j.
Proof.
  intros a d1 b d2 ui j. unfold setStatus, setText, update.
  destruct j; simpl; try reflexivity; destruct (ui _); simpl; try reflexivity;
    unfold set_content, set_classList; simpl; now rewrite restyle_restyle.
Qed.

(** ** The clear button *)

Lemma clearBtn_click_at : forall ui j,
  clearBtn_click ui j = option_map (clear_element j) (ui j).
Proof.
  intros ui j. unfold clearBtn_click, setStatus, setHTML, setText, update.
  destruct j; simpl; destruct (ui _); reflexivity.
Qed.

Lemma clear_element_idempotent : forall j e,
  clear_element j (clear_element j e) = clear_element j e.
Proof.
  intros j e. destruct j; try reflexivity;
    unfold clear_element, set_content, set_classList; simpl;
    now rewrite restyle_restyle.
Qed.

(** X3.  Clearing twice is clearing once. *)
Theorem clearBtn_click_idempotent :
  forall ui j, clearBtn_click (clearBtn_click ui) j = clearBtn_click ui j.
Proof.
  intros ui j. rewrite !clearBtn_click_at. destruct (ui j); simpl; [|reflexivity].
  now rewrite clear_element_idempotent.
Qed.

(** ** The debug toggle *)

(** X4.  A click on the debug toggle leaves the debug box either open and
    displayed or closed and hidden, whatever it was before; it changes
    nothing else on the page, and neither the text nor the classes of the
    box; and from an open-and-displayed or closed-and-hidden box a second
    click gives back the page as it was. *)
Theorem debugToggle_click_flips :
  forall ui e,
    ui debugBox = Some e ->
    (exists e', debugToggle_click ui debugBox = Some e'
                /\ debug_consistent e'
                /\ content e' = content e /\ classList e' = classList e
                /\ (data_open e' = Some (lit "true")
                    <-> data_open e <> Some (lit "true")))
    /\ (forall j, j <> debugBox -> debugToggle_click ui j = ui j)
    /\ (debug_consistent e ->
        forall j, debugToggle_click (debugToggle_click ui) j = ui j).
Proof.
  intros ui e He. split; [|split].
  - unfold debugToggle_click, update. simpl. rewrite He. simpl.
    eexists. split; [reflexivity|].
    destruct (match data_open e with
              | Some a => eqb a (lit "true")
              | None => false
              end) eqn:Eopen; simpl.
    + assert (Ho : data_open e = Some (lit "true")).
      { destruct (data_open e) as [a|]; [|discriminate].
        apply eqb_eq in Eopen. now subst a. }
      split; [right; split; reflexivity|]. split; [reflexivity|].
      split; [reflexivity|]. split.
      * intros H. vm_compute in H. discriminate H.
      * intros H. now contradiction H.
    + split; [left; split; reflexivity|]. split; [reflexivity|].
      split; [reflexivity|]. split; [|reflexivity].
      intros _ Ho. rewrite Ho in Eopen. vm_compute in Eopen. discriminate Eopen.
  - intros j Hj. unfold debugToggle_click. now rewrite !update_other by assumption.
  - intros Hc j. unfold debugToggle_click, update.
    destruct j; simpl; try reflexivity. rewrite He. simpl.
    destruct e as [cl ct v w d o f]. unfold debug_consistent in Hc. simpl in *.
    destruct Hc as [[-> ->]|[-> ->]]; reflexivity.
Qed.

(** X4 on a page whose debug box is closed and hidden. *)
Lemma debugToggle_click_flips_witness :
  exists e',
    debugToggle_click
      (update debugBox (fun e => set_style_display (lit "none")
                                   (set_data_open (Some (lit "false")) e)) page_hello)
      debugBox = Some e'
    /\ data_open e' = Some (lit "true") /\ style_display e' = lit "block".
Proof.
  destruct (debugToggle_click_flips
              (update debugBox (fun e => set_style_display (lit "none")
                                           (set_data_open (Some (lit "false")) e))
                 page_hello)
              (set_style_display (lit "none") (set_data_open (Some (lit "false")) blank))
              eq_refl) as [(e' & H1 & _ & _ & _ & H2) _].
  exists e'. split; [exact H1|]. split.
  - apply H2. discriminate.
  - vm_compute in H1. injection H1 as <-. reflexivity.
Defined.

(** ** The probe *)

Lemma shown_setText : forall id t ui,
  shown id (setText id t ui) = written (Text t) (ui id).
Proof.
  intros id t ui. unfold shown, written, setText. rewrite update_same.
  now destruct (ui id).
Qed.

Lemma shown_setHTML : forall id t ui,
  shown id (setHTML id t ui) = written (Markup t) (ui id).
Proof.
  intros id t ui. unfold shown, written, setHTML. rewrite update_same.
  now destruct (ui id).
Qed.

Lemma shown_setText_other : forall j id t ui,
  j <> id -> shown j (setText id t ui) = shown j ui.
Proof.
  intros j id t ui H. unfold shown, setText. now rewrite update_other.
Qed.


(** ** [setText], [setHTML] and [fetchWithTimeout] *)

Lemma update_absent : forall id f ui j, ui id = None -> update id f ui j = ui j.
Proof.
  intros id f ui j H. unfold update. destruct (ElId_eqb j id) eqn:E; [|reflexivity].
  assert (j = id) as -> by (destruct j, id; (reflexivity || discriminate)).
  now rewrite H.
Qed.

Lemma update_update : forall id f g ui j,
  update id g (update id f ui) j = update id (fun e => g (f e)) ui j.
Proof.
  intros id f g ui j. unfold update. destruct (ElId_eqb j id); [|reflexivity].
  now destruct (ui j).
Qed.

(** X6.  [setText] and [setHTML] do nothing for an element the page does
    not have, and write the content of the one element they are given and
    nothing else; of two writes to one element the last wins.  [setText]
    of a value that is [undefined] or [null] writes the empty text, and
    for a missing element the value is not even converted, so that
    nothing can be thrown. *)
Theorem setText_guarded :
  forall id t ui,
    (ui id = None ->
     forall j, setText id t ui j = ui j /\ setHTML id t ui j = ui j)
    /\ (forall j, j <> id -> setText id t ui j = ui j /\ setHTML id t ui j = ui j)
    /\ option_map (fun e => (classList e, value e, style_width e, user_part e))
         (setText id t ui id)
       = option_map (fun e => (classList e, value e, style_width e, user_part e))
           (ui id)
    /\ shown id (setText id t ui) = written (Text t) (ui id)
    /\ shown id (setHTML id t ui) = written (Markup t) (ui id)
    /\ (forall t' j,
          setText id t' (setText id t ui) j = setText id t' ui j
          /\ setHTML id t' (setText id t ui) j = setHTML id t' ui j
          /\ setText id t' (setHTML id t ui) j = setText id t' ui j)
    /\ (forall h v j,
          is_nullish v = true ->
          fst (setText_value h id v ui) = Normal tt
          /\ snd (setText_value h id v ui) j = setText id [] ui j)
    /\ (forall h v, ui id = None -> setText_value h id v ui = (Normal tt, ui)).
Proof.
  intros id t ui. split; [|split; [|split; [|split; [|split; [|split; [|split]]]]]].
  - intros H j. split; now apply update_absent.
  - intros j Hj. split; now apply update_other.
  - unfold setText. rewrite update_same. now destruct (ui id).
  - apply shown_setText.
  - apply shown_setHTML.
  - intros t' j. unfold setText, setHTML. rewrite !update_update.
    unfold update. destruct (ElId_eqb j id); [|repeat split; reflexivity].
    destruct (ui j); repeat split; reflexivity.
  - intros h v j Hv. unfold setText_value, when_present, bind, lift, write.
    assert (E : nullish v (Some (JString [])) = Some (JString []))
      by (destruct v as [[]|]; (reflexivity || discriminate)).
    rewrite E. cbn [ToString]. unfold present.
    destruct (ui id) eqn:Ei; cbn [fst snd]; split; try reflexivity.
    symmetry. now apply update_absent.
  - intros h v H. unfold setText_value, when_present, present. now rewrite H.
Qed.

(** X7.  A longer deadline never loses an answer: what [fetchWithTimeout]
    gives within a deadline, a response or a failure of the network, it
    gives within every longer one; only a timeout can turn into something
    else. *)
Theorem fetchWithTimeout_longer_deadline :
  forall h req t t' c,
    fetchWithTimeout h req t = c ->
    (t <= t')%N ->
    (forall e, c = Throw e -> err_name e <> lit "AbortError") ->
    fetchWithTimeout h req t' = c.
Proof.
  intros h req t t' c H Ht Hc. subst c. unfold fetchWithTimeout in *.
  destruct (network h req) as [ms res|ms message|].
  - destruct (N.ltb_spec ms t) as [Hms|Hms].
    + replace (ms <? t')%N with true by (symmetry; apply N.ltb_lt; lia). reflexivity.
    + exfalso. now apply (Hc _ eq_refl).
  - destruct (N.ltb_spec ms t) as [Hms|Hms].
    + replace (ms <? t')%N with true by (symmetry; apply N.ltb_lt; lia). reflexivity.
    + exfalso. now apply (Hc _ eq_refl).
  - exfalso. now apply (Hc _ eq_refl).
Qed.

(** X7 on a response that arrives after 120 ms: within the probe's 8000
    ms, so within the check's 20000 ms. *)
Lemma fetchWithTimeout_longer_deadline_witness :
  fetchWithTimeout (world (responds 200 html_oops) rejects) ping_request
    FETCH_TIMEOUT_MS
  = Normal (response 200 html_oops).
Proof.
  apply (fetchWithTimeout_longer_deadline
           (world (responds 200 html_oops) rejects) ping_request 8000).
  - reflexivity.
  - vm_compute. discriminate.
  - discriminate.
Defined.

(** ** What a check keeps *)

Section CheckKeeps.

Variable B : Type.
Variable g : ElId -> Element -> B.
Hypothesis g_content : forall j c e, In j content_ids -> g j (set_content c e) = g j e.
Hypothesis g_status : forall j st e,
  j = apiStatus \/ j = apiPill ->
  g j (set_classList (restyle st (classList e)) e) = g j e.
Hypothesis g_width : forall w e, g scoreBar (set_style_width w e) = g scoreBar e.

Lemma keeps_update : forall id f,
  (forall e, g id (f e) = g id e) ->
  forall ui j, option_map (g j) (update id f ui j) = option_map (g j) (ui j).
Proof.
  intros id f Hf ui j. unfold update. destruct (ElId_eqb j id) eqn:E; [|reflexivity].
  assert (j = id) as -> by (destruct j, id; (reflexivity || discriminate)).
  destruct (ui id); simpl; [|reflexivity]. now rewrite Hf.
Qed.

Ltac keeps_writes :=
  intros;
  unfold show_checking, show_http_error, show_score, show_debug, catch_block,
    payload_error_page, setStatus, setHTML, setText;
  cbv zeta;
  repeat (rewrite keeps_update;
          [| intros;
             first [ apply g_content; simpl; tauto
                   | apply g_width
                   | apply g_status; tauto
                   | rewrite g_content by (simpl; tauto);
                     apply g_status; tauto ] ]);
  reflexivity.

Lemma keeps_setStatus : forall st d ui j,
  option_map (g j) (setStatus apiStatus apiPill st d ui j) = option_map (g j) (ui j).
Proof. keeps_writes. Qed.

Lemma keeps_show_checking : forall ui j,
  option_map (g j) (show_checking ui j) = option_map (g j) (ui j).
Proof. keeps_writes. Qed.

Lemma keeps_catch_block : forall e ui j,
  option_map (g j) (catch_block e ui j) = option_map (g j) (ui j).
Proof. keeps_writes. Qed.

Lemma keeps_parts_write : forall f,
  (forall ui j, option_map (g j) (f ui j) = option_map (g j) (ui j)) ->
  keeps_parts g (write f).
Proof. intros f H ui j. apply H. Qed.

Lemma keeps_parts_lift : forall {A} (c : Completion A), keeps_parts g (lift c).
Proof. intros A c ui j. reflexivity. Qed.

Lemma keeps_parts_ret : forall {A} (a : A), keeps_parts g (ret a).
Proof. intros A a ui j. reflexivity. Qed.

Lemma keeps_parts_bind : forall {A C} (m : M A) (k : A -> M C),
  keeps_parts g m -> (forall a, keeps_parts g (k a)) -> keeps_parts g (bind m k).
Proof.
  intros A C m k Hm Hk ui j. unfold bind. specialize (Hm ui j).
  destruct (m ui) as [[a|e] u1]; simpl in *; [|exact Hm].
  now rewrite (Hk a u1 j).
Qed.

Lemma keeps_parts_when_present : forall id m,
  keeps_parts g m -> keeps_parts g (when_present id m).
Proof.
  intros id m Hm ui j. unfold when_present.
  destruct (present id ui); [apply Hm | reflexivity].
Qed.

Ltac keeps_parts_tac :=
  repeat first
    [ apply keeps_parts_bind; [|intros ?]
    | apply keeps_parts_when_present
    | apply keeps_parts_lift
    | apply keeps_parts_ret
    | apply keeps_parts_write; keeps_writes ].

Lemma keeps_parts_try_block : forall h claim ev, keeps_parts g (try_block h claim ev).
Proof.
  intros h claim ev. unfold try_block.
  apply keeps_parts_bind; [apply keeps_parts_lift|].
  intros [[res data] raw].
  destruct (negb (res_ok res)); [keeps_parts_tac|].
  destruct (Json.truthy _).
  - unfold show_payload_error. keeps_parts_tac.
  - unfold show_result, show_verdict, setText_value, show_why, show_citations.
    keeps_parts_tac. destruct (Nat.eqb _ 0); keeps_parts_tac.
Qed.

Lemma keeps_parts_checkBtn_click : forall h ui j,
  option_map (g j) (snd (checkBtn_click h ui) j) = option_map (g j) (ui j).
Proof.
  intros h ui j. unfold checkBtn_click.
  destruct (negb (JsStr.truthy (claim_of ui))); [apply keeps_setStatus|].
  pose proof (keeps_parts_try_block h (claim_of ui) (evidence_of ui)
                (show_checking ui) j) as K.
  destruct (try_block h (claim_of ui) (evidence_of ui) (show_checking ui))
    as [[exit|e] u']; cbn [snd] in *.
  - now rewrite K, keeps_show_checking.
  - now rewrite keeps_catch_block, K, keeps_show_checking.
Qed.

Lemma keeps_ping_on_load : forall h ui j,
  option_map (g j) (ping_on_load h ui j) = option_map (g j) (ui j).
Proof.
  intros h ui j. unfold ping_on_load.
  destruct (pingWorker h) as [ping|e]; [destruct (ping_ok ping)|]; keeps_writes.
Qed.

End CheckKeeps.

(** X8.  A check, however it ends, leaves alone what the visitor typed
    and set: the value of every input, the open state and the display of
    the debug box, and the focus.  It writes to the ten elements of the
    result panel only, and neither adds nor removes an element. *)
Theorem checkBtn_click_keeps_inputs :
  forall h ui j,
    option_map user_part (snd (checkBtn_click h ui) j) = option_map user_part (ui j)
    /\ (~ In j check_view -> snd (checkBtn_click h ui) j = ui j)
    /\ present j (snd (checkBtn_click h ui)) = present j ui.
Proof.
  intros h ui j.
  assert (U : option_map user_part (snd (checkBtn_click h ui) j)
              = option_map user_part (ui j)).
  { apply (keeps_parts_checkBtn_click _ (fun _ => user_part)); reflexivity. }
  split; [exact U|]. split.
  - intros Hj.
    pose (g := fun (i : ElId) (e : Element) =>
                 if existsb (ElId_eqb i) check_view then None else Some e).
    assert (K : option_map (g j) (snd (checkBtn_click h ui) j)
                = option_map (g j) (ui j)).
    { apply (keeps_parts_checkBtn_click _ g).
      - intros i c e Hi. simpl in Hi.
        repeat (destruct Hi as [<-|Hi]; [reflexivity|]). contradiction.
      - intros i st e [->| ->]; reflexivity.
      - reflexivity. }
    assert (G : forall e, g j e = Some e).
    { intros e. unfold g.
      destruct (existsb (ElId_eqb j) check_view) eqn:E; [|reflexivity].
      exfalso. apply Hj. destruct j; simpl; try discriminate E; tauto. }
    destruct (snd (checkBtn_click h ui) j), (ui j); simpl in K;
      rewrite ?G in K; congruence.
  - unfold present.
    destruct (snd (checkBtn_click h ui) j), (ui j); simpl in U;
      (reflexivity || discriminate).
Qed.

(** ** Clearing after another event *)

Lemma clear_element_content : forall j c e,
  In j content_ids -> clear_element j (set_content c e) = clear_element j e.
Proof.
  intros j c e Hj. simpl in Hj.
  repeat (destruct Hj as [<-|Hj]; [reflexivity|]). contradiction.
Qed.

Lemma clear_element_status : forall j st e,
  j = apiStatus \/ j = apiPill ->
  clear_element j (set_classList (restyle st (classList e)) e) = clear_element j e.
Proof.
  intros j st e [->| ->]; unfold clear_element, set_content, set_classList; simpl;
    now rewrite restyle_restyle.
Qed.

Lemma clear_element_example : forall h x ui j,
  option_map (clear_element j) (snd (example_click h x ui) j)
  = option_map (clear_element j) (ui j).
Proof.
  intros h x ui j. unfold example_click, bind, write, ret.
  destruct (JsStr.truthy (nth 0 (map trim (split 124 x)) []));
    destruct (nth_error (map trim (split 124 x)) 1) as [u|];
    try destruct (JsStr.truthy u);
    try destruct (present evidenceInput _);
    cbn [snd]; unfold update; destruct j; simpl; destruct (ui _); reflexivity.
Qed.

(** X9.  The clear button wipes out what the probe, a check, an example
    button or an earlier clear did: after any event but a click on the
    debug toggle, clearing gives the page that clearing alone would have
    given. *)
Theorem clear_after_event :
  forall h ev ui j,
    ev <> ClickDebugToggle ->
    clearBtn_click (handle h ev ui) j = clearBtn_click ui j.
Proof.
  intros h ev ui j Hev. rewrite !clearBtn_click_at. unfold handle.
  destruct (negb (wired ui)); [reflexivity|].
  destruct ev as [| | | |x].
  - apply keeps_ping_on_load;
      first [apply clear_element_content | apply clear_element_status].
  - apply keeps_parts_checkBtn_click;
      [apply clear_element_content | apply clear_element_status | reflexivity].
  - destruct (present clearBtn ui); [|reflexivity].
    rewrite clearBtn_click_at. destruct (ui j); simpl; [|reflexivity].
    now rewrite clear_element_idempotent.
  - now contradiction Hev.
  - apply clear_element_example.
Qed.

(** X9 on a page that shows a result: a check that times out, then a
    clear. *)
Lemma clear_after_event_witness :
  clearBtn_click (handle (world Hangs rejects) ClickCheck checked_page) apiStatus
  = clearBtn_click checked_page apiStatus.
Proof.
  apply (clear_after_event (world Hangs rejects) ClickCheck checked_page apiStatus).
  discriminate.
Defined.

(** ** [trim] *)

Lemma trimStart_blank : forall s, blank_text s -> trimStart s = [].
Proof.
  intros s H. induction H as [|c s Hc _ IH]; simpl; [reflexivity|]. now rewrite Hc.
Qed.

Lemma trimStart_nil_blank : forall s, trimStart s = [] -> blank_text s.
Proof.
  induction s as [|c s IH]; simpl; intros H; [constructor|].
  destruct (is_ws c) eqn:E; [|discriminate]. constructor; [assumption | now apply IH].
Qed.

Lemma blank_text_rev : forall s, blank_text s -> blank_text (rev s).
Proof. intros s H. unfold blank_text in *. now apply Forall_rev. Qed.

Lemma trimStart_head : forall s c r, trimStart s = c :: r -> is_ws c = false.
Proof.
  induction s as [|a s IH]; simpl; intros c r H; [discriminate|].
  destruct (is_ws a) eqn:E; [now apply IH with r|]. now injection H as <- _.
Qed.

Lemma trimStart_snoc : forall s c, is_ws c = false -> trimStart (s ++ [c]) = trimStart s ++ [c].
Proof.
  induction s as [|a s IH]; intros c Hc; simpl.
  - now rewrite Hc.
  - destruct (is_ws a); [now apply IH | reflexivity].
Qed.

Lemma trimEnd_cons : forall c r, is_ws c = false ->
  trimEnd (c :: r) = c :: trimEnd r.
Proof.
  intros c r Hc. unfold trimEnd. simpl. rewrite trimStart_snoc by assumption.
  now rewrite rev_app_distr.
Qed.

Lemma trim_blank_iff : forall s, trim s = [] <-> blank_text s.
Proof.
  intros s. unfold trim. split.
  - intros H. destruct (trimStart s) as [|c r] eqn:E.
    + now apply trimStart_nil_blank.
    + rewrite trimEnd_cons in H by (eapply trimStart_head; eassumption).
      discriminate.
  - intros H. rewrite trimStart_blank by assumption. reflexivity.
Qed.

(** ** How a check ends *)

Lemma show_result_pill : forall h claim ev data ui (x : unit) ui',
  show_result h claim ev data ui = (Normal x, ui') ->
  ui' apiPill
  = setStatus apiStatus apiPill SOk (lit "Checked " ++ checkmark) ui apiPill.
Proof.
  intros h claim ev data ui x ui' H. unfold show_result in H.
  step_bind H score u0 Hscore. apply lift_Normal in Hscore.
  destruct Hscore as [_ ->].
  step_bind H x1 ua Hverdict.
  step_bind H x2 ub Hub. apply write_Normal in Hub.
  step_bind H x3 uc Hwhy.
  step_bind H x4 ud Hcit.
  apply write_Normal in H.
  unfold show_verdict in Hverdict.
  step_bind Hverdict x5 u1 Hu1. apply write_Normal in Hu1.
  step_bind Hverdict x6 u2 Htitle.
  subst ui'. unfold show_debug, setText. rewrite update_other by discriminate.
  rewrite (only_writes_eq citationsBox _ uc _ ud apiPill
             (show_citations_writes h data) Hcit) by discriminate.
  rewrite (only_writes_eq whyList _ ub _ uc apiPill
             (show_why_writes h claim ev data) Hwhy) by discriminate.
  subst ub. unfold show_score, setText. rewrite !update_other by discriminate.
  rewrite (only_writes_eq resultBadge _ u2 _ ua apiPill
             (setText_value_writes h resultBadge _) Hverdict) by discriminate.
  rewrite (only_writes_eq resultTitle _ u1 _ u2 apiPill
             (setText_value_writes h resultTitle _) Htitle) by discriminate.
  now subst u1.
Qed.

Lemma show_payload_error_pill : forall h data raw ui c ui',
  show_payload_error h data raw ui = (c, ui') ->
  ui' apiPill = setStatus apiStatus apiPill SError (lit "Bad response") ui apiPill.
Proof.
  intros h data raw ui c ui' H.
  unfold show_payload_error, bind, write, when_present, lift in H.
  destruct (present debugBox _); [destruct (ToString h _)|];
    inversion H; subst; unfold setHTML, setText;
    now rewrite ?update_other by discriminate.
Qed.

Lemma state_of_pill_present : forall st (u ui : Els) detail,
  (forall j, present j u = present j ui) ->
  state_of apiPill (setStatus apiStatus apiPill st detail u) = written st (ui apiPill).
Proof.
  intros st u ui detail P. destruct (setStatus_state st detail u) as (_ & S2 & _).
  rewrite S2. now apply written_present.
Qed.

(** X10.  After a check the status indicator and the pill are in the same
    state, and never in the checking or the idle state: ok when the
    handler reached the end of the rendering, error at every other exit
    (no claim, HTTP error, payload error, anything thrown). *)
Theorem checkBtn_click_final_state :
  forall h ui,
    state_of apiStatus (snd (checkBtn_click h ui))
    = written (exit_state (fst (checkBtn_click h ui))) (ui apiStatus)
    /\ state_of apiPill (snd (checkBtn_click h ui))
       = written (exit_state (fst (checkBtn_click h ui))) (ui apiPill).
Proof.
  intros h ui. unfold checkBtn_click.
  destruct (negb (JsStr.truthy (claim_of ui))).
  { cbn [fst snd exit_state].
    split; [now apply state_of_present | now apply state_of_pill_present]. }
  pose proof (try_block_keeps h (claim_of ui) (evidence_of ui) (show_checking ui)) as K.
  destruct (try_block h (claim_of ui) (evidence_of ui) (show_checking ui))
    as [[exit|e] u'] eqn:Hrun; cbn [fst snd exit_state] in *.
  2:{ destruct (catch_block_fields e u') as (F1 & F2 & _). rewrite F1, F2.
      rewrite !(written_present _ _ (show_checking ui) _ (K _)).
      split; apply written_checking. }
  unfold try_block in Hrun. step_bind Hrun r u0 Hcheck.
  apply lift_Normal in Hcheck. destruct Hcheck as [_ ->].
  destruct r as [[res data] raw].
  destruct (negb (res_ok res)).
  - step_bind Hrun x1 u1 Hw. apply write_Normal in Hw. inversion Hrun; subst.
    cbn [exit_state].
    unfold show_http_error, state_of, setHTML, setText.
    rewrite !update_other by discriminate.
    split; [apply (state_of_present SError (show_checking ui) ui)
           | apply (state_of_pill_present SError (show_checking ui) ui)];
      apply show_checking_present.
  - destruct (Json.truthy (get_opt (Some data) (lit "error"))).
    + step_bind Hrun x1 u1 Hp. inversion Hrun; subst. cbn [exit_state].
      pose proof (show_payload_error_pill h data raw _ _ _ Hp) as Hpill.
      destruct (show_payload_error_frame h data raw _ _ _ Hp) as (_ & _ & Hs).
      unfold state_of. rewrite Hs, Hpill.
      split; [apply (state_of_present SError (show_checking ui) ui)
             | apply (state_of_pill_present SError (show_checking ui) ui)];
        apply show_checking_present.
    + step_bind Hrun x1 u1 Hr. inversion Hrun; subst. cbn [exit_state].
      pose proof (show_result_pill _ _ _ _ _ _ _ Hr) as Hpill.
      apply show_result_status in Hr.
      unfold state_of. rewrite Hr, Hpill.
      split; [apply (state_of_present SOk (show_checking ui) ui)
             | apply (state_of_pill_present SOk (show_checking ui) ui)];
        apply show_checking_present.
Qed.

Lemma try_block_exits : forall h claim ev ui exit ui',
  try_block h claim ev ui = (Normal exit, ui') ->
  (exists code, exit = ExitHttpError code) \/ exit = ExitPayloadError \/ exit = ExitOk.
Proof.
  intros h claim ev ui exit ui' H. unfold try_block in H.
  step_bind H r u0 Hcheck. destruct r as [[res data] raw].
  destruct (negb (res_ok res)).
  - step_bind H x u1 Hw. inversion H. eauto.
  - destruct (Json.truthy _).
    + step_bind H x u1 Hw. inversion H. eauto.
    + step_bind H x u1 Hw. inversion H. eauto.
Qed.

(** X11.  Whatever is thrown during a check is reported by the [catch]
    block in the same way: the title is "Error", the status text and the
    badge carry one message, the citations read "None" and the debug box
    shows the error and the Worker's address.  The message is "Request
    timed out" exactly when the error is named AbortError; every other
    error, a TypeError raised while a response that did arrive was being
    rendered included, reads "Failed to fetch". *)
Theorem checkBtn_click_caught :
  forall h ui e,
    fst (checkBtn_click h ui) = ExitCaught e ->
    shown apiStatus (snd (checkBtn_click h ui))
    = written (Text (catch_message e)) (ui apiStatus)
    /\ shown resultTitle (snd (checkBtn_click h ui))
       = written (Text (lit "Error")) (ui resultTitle)
    /\ shown resultBadge (snd (checkBtn_click h ui))
       = written (Text (catch_message e)) (ui resultBadge)
    /\ shown citationsBox (snd (checkBtn_click h ui))
       = written (Markup (muted_div (lit "None"))) (ui citationsBox)
    /\ shown debugBox (snd (checkBtn_click h ui))
       = written (Text (lit "[FETCH ERROR]" ++ nl ++ Error_toString e ++ nl ++ nl
                        ++ lit "WORKER_BASE=" ++ WORKER_BASE))
                 (ui debugBox)
    /\ (catch_message e = lit "Request timed out" <-> err_name e = lit "AbortError")
    /\ (err_name e <> lit "AbortError" -> catch_message e = lit "Failed to fetch")
    /\ (forall site, catch_message (TypeError h site) = lit "Failed to fetch").
Proof.
  intros h ui e Hexit. unfold checkBtn_click in *.
  destruct (negb (JsStr.truthy (claim_of ui))); [discriminate|].
  pose proof (try_block_keeps h (claim_of ui) (evidence_of ui) (show_checking ui)) as K.
  destruct (try_block h (claim_of ui) (evidence_of ui) (show_checking ui))
    as [[exit|e'] u'] eqn:Hrun; cbn [fst snd] in *.
  { apply try_block_exits in Hrun. subst exit.
    destruct Hrun as [[code Hc]|[Hc|Hc]]; discriminate. }
  injection Hexit as ->.
  assert (P : forall j, present j u' = present j ui).
  { intros j. rewrite K. apply show_checking_present. }
  destruct (catch_block_fields e u') as (_ & _ & F3 & F4 & F5).
  rewrite F3, F4, F5. rewrite !(written_present _ _ ui _ (P _)).
  split; [reflexivity|]. split; [reflexivity|]. split; [reflexivity|].
  split; [|split; [|split; [|split]]].
  - unfold catch_block. cbv zeta. rewrite shown_setText_other by discriminate.
    rewrite shown_setHTML. apply written_present.
    unfold setHTML, setText. now rewrite !update_present, setStatus_present.
  - unfold catch_block. cbv zeta. rewrite shown_setText. apply written_present.
    unfold setHTML, setText. now rewrite !update_present, setStatus_present.
  - unfold catch_message. split.
    + destruct (eqb (err_name e) (lit "AbortError")) eqn:E.
      * intros _. now apply eqb_eq.
      * intros H. vm_compute in H. discriminate H.
    + intros H. rewrite H. reflexivity.
  - intros Hn. unfold catch_message.
    destruct (eqb (err_name e) (lit "AbortError")) eqn:E; [|reflexivity].
    apply eqb_eq in E. contradiction.
  - intros site. reflexivity.
Qed.

(** X11 on a response whose only citation is [null]: the rendering
    throws a TypeError and the page reads "Failed to fetch". *)
Lemma checkBtn_click_caught_witness :
  shown apiStatus
    (snd (checkBtn_click (answering 200 body_null_citation data_null_citation) page_hello))
  = Some (Text (lit "Failed to fetch")).
Proof.
  destruct (checkBtn_click_caught
              (answering 200 body_null_citation data_null_citation) page_hello
              (TypeError (answering 200 body_null_citation data_null_citation)
                 PropertyOfNull) eq_refl) as (H & _).
  rewrite H. reflexivity.
Defined.

(** ** A check without a claim *)

(** X12.  A check is refused exactly when the claim typed in is empty or
    all white space.  A refused check makes no request (its result is the
    same in every world), puts "Enter a claim first." in the status
    indicator in the error state, and changes nothing else on the page:
    the result of an earlier check stays. *)
Theorem checkBtn_click_blank_claim :
  forall h ui,
    (fst (checkBtn_click h ui) = ExitNoClaim <-> blank_text (value_of claimInput ui))
    /\ (blank_text (value_of claimInput ui) ->
        (forall h', checkBtn_click h' ui = checkBtn_click h ui)
        /\ (forall j, j <> apiStatus -> j <> apiPill ->
              snd (checkBtn_click h ui) j = ui j)
        /\ state_of apiStatus (snd (checkBtn_click h ui)) = written SError (ui apiStatus)
        /\ shown apiStatus (snd (checkBtn_click h ui))
           = written (Text (lit "Enter a claim first.")) (ui apiStatus)).
Proof.
  intros h ui.
  assert (Hblank : blank_text (value_of claimInput ui) ->
                   forall h', checkBtn_click h' ui
                              = (ExitNoClaim,
                                 setStatus apiStatus apiPill SError
                                   (lit "Enter a claim first.") ui)).
  { intros Hb h'. unfold checkBtn_click, claim_of.
    apply trim_blank_iff in Hb. now rewrite Hb. }
  split.
  - split; [|intros Hb; now rewrite (Hblank Hb h)].
    intros Hexit. apply trim_blank_iff. unfold checkBtn_click in Hexit.
    fold (claim_of ui). destruct (claim_of ui) as [|c r]; [reflexivity|].
    exfalso. cbn [JsStr.truthy negb] in Hexit.
    destruct (try_block h (c :: r) (evidence_of ui) (show_checking ui))
      as [[exit|e] u'] eqn:Hrun; cbn [fst] in Hexit; [|discriminate].
    apply try_block_exits in Hrun. subst exit.
    destruct Hrun as [[code Hc]|[Hc|Hc]]; discriminate.
  - intros Hb. split; [|split; [|split]].
    + intros h'. now rewrite !(Hblank Hb).
    + intros j Hs Hp. rewrite (Hblank Hb h). cbn [snd]. unfold setStatus, setText.
      now rewrite !update_other by assumption.
    + rewrite (Hblank Hb h). cbn [snd]. now apply state_of_present.
    + rewrite (Hblank Hb h). cbn [snd].
      now destruct (setStatus_state SError (lit "Enter a claim first.") ui)
        as (_ & _ & S3).
Qed.

(** X12 on a page whose claim is two spaces. *)
Lemma checkBtn_click_blank_claim_witness :
  shown apiStatus (snd (checkBtn_click (world Hangs rejects) (page (spaces 2) [])))
  = Some (Text (lit "Enter a claim first.")).
Proof.
  destruct (checkBtn_click_blank_claim (world Hangs rejects) (page (spaces 2) []))
    as [_ H].
  destruct H as (_ & _ & _ & H).
  - repeat constructor.
  - rewrite H. reflexivity.
Defined.

(** ** The rest of a rendered response *)

Lemma show_citations_Normal : forall h data ui (x : unit) ui1,
  show_citations h data ui = (Normal x, ui1) ->
  exists html,
    (present citationsBox ui = true ->
     renderCitations h (array_or_empty (get_opt (Some data) (lit "citations")))
     = Normal html)
    /\ ui1 citationsBox = option_map (set_content (Markup html)) (ui citationsBox).
Proof.
  intros h data ui x ui1 H. unfold show_citations, when_present in H.
  unfold present in *. destruct (ui citationsBox) as [e|] eqn:E.
  - apply bind_Normal in H. destruct H as (html & u & Hh & Hw).
    apply lift_Normal in Hh. destruct Hh as [Hh ->].
    apply write_Normal in Hw. subst ui1. exists html. split; [now intros _|].
    unfold setHTML. now rewrite update_same, E.
  - inversion H. subst ui1. exists []. split; [discriminate|]. now rewrite E.
Qed.

Lemma show_result_rest : forall h claim ev data ui (x : unit) ui',
  show_result h claim ev data ui = (Normal x, ui') ->
  (exists html,
     (present citationsBox ui = true ->
      renderCitations h (array_or_empty (get_opt (Some data) (lit "citations")))
      = Normal html)
     /\ ui' citationsBox = option_map (set_content (Markup html)) (ui citationsBox))
  /\ ui' debugBox
     = option_map (set_content
                     (Text (JSON_stringify_debug h (WORKER_BASE ++ CHECK_ENDPOINT)
                              claim ev data)))
                  (ui debugBox)
  /\ ui' scoreLabel
     = option_map (set_content (Text (lit "Confidence"))) (ui scoreLabel).
Proof.
  intros h claim ev data ui x ui' H. unfold show_result in H.
  step_bind H score u0 Hscore. apply lift_Normal in Hscore.
  destruct Hscore as [Hscore ->].
  step_bind H x1 ua Hverdict.
  step_bind H x2 ub Hub. apply write_Normal in Hub.
  step_bind H x3 uc Hwhy.
  step_bind H x4 ud Hcit.
  apply write_Normal in H.
  unfold show_verdict in Hverdict.
  step_bind Hverdict x5 u1 Hu1. apply write_Normal in Hu1.
  step_bind Hverdict x6 u2 Htitle.
  rename Hverdict into Hbadge.
  assert (Fwhy : forall j, j <> whyList -> uc j = ub j).
  { intros j Hj. eapply only_writes_eq; [apply show_why_writes | exact Hwhy | exact Hj]. }
  assert (Fcit : forall j, j <> citationsBox -> ud j = uc j).
  { intros j Hj. eapply only_writes_eq; [apply show_citations_writes | exact Hcit | exact Hj]. }
  assert (Fbadge : forall j, j <> resultBadge -> ua j = u2 j).
  { intros j Hj. eapply only_writes_eq; [apply setText_value_writes | exact Hbadge | exact Hj]. }
  assert (Ftitle : forall j, j <> resultTitle -> u2 j = u1 j).
  { intros j Hj. eapply only_writes_eq; [apply setText_value_writes | exact Htitle | exact Hj]. }
  assert (Eub : forall j, j <> apiStatus -> j <> apiPill -> j <> resultTitle ->
                          j <> resultBadge -> j <> scoreBar -> j <> scorePct ->
                          j <> scoreLabel -> ub j = ui j).
  { intros j H1 H2 H3 H4 H5 H6 H7. subst ub. unfold show_score, setText.
    rewrite !update_other by assumption.
    rewrite Fbadge, Ftitle by assumption. subst u1.
    unfold setStatus, setText. now rewrite !update_other by assumption. }
  split; [|split].
  - apply show_citations_Normal in Hcit. destruct Hcit as (html & Hh & Hc).
    assert (Euc : uc citationsBox = ui citationsBox).
    { rewrite Fwhy by discriminate. apply Eub; discriminate. }
    exists html. split.
    + intros Hp. apply Hh. unfold present in *. now rewrite Euc.
    + subst ui'. unfold show_debug, setText. rewrite update_other by discriminate.
      now rewrite Hc, Euc.
  - subst ui'. unfold show_debug, setText. rewrite update_same.
    rewrite Fcit, Fwhy by discriminate. now rewrite Eub by discriminate.
  - subst ui'. unfold show_debug, setText. rewrite update_other by discriminate.
    rewrite Fcit, Fwhy by discriminate. subst ub. unfold show_score, setText.
    rewrite update_same. rewrite !update_other by discriminate.
    rewrite Fbadge, Ftitle by discriminate. subst u1.
    unfold setStatus, setText. now rewrite !update_other by discriminate.
Qed.

(** X13.  A response that is rendered to the end leaves the status text
    "Checked" with the check mark, the score label "Confidence", the
    request and the response as the host prints them in the debug box,
    and in the citations box the markup of [renderCitations] for the
    [citations] list: the "None" placeholder when the response has no
    such list, or an empty one, or something that is not a list. *)
Theorem rendered_rest_shown :
  forall h ui res data raw,
    rendered h ui res data raw ->
    shown apiStatus (snd (checkBtn_click h ui))
    = written (Text (lit "Checked " ++ checkmark)) (ui apiStatus)
    /\ shown scoreLabel (snd (checkBtn_click h ui))
       = written (Text (lit "Confidence")) (ui scoreLabel)
    /\ shown debugBox (snd (checkBtn_click h ui))
       = written (Text (JSON_stringify_debug h (WORKER_BASE ++ CHECK_ENDPOINT)
                          (claim_of ui) (evidence_of ui) data))
                 (ui debugBox)
    /\ (exists html,
          (present citationsBox ui = true ->
           renderCitations h (array_or_empty (get_opt (Some data) (lit "citations")))
           = Normal html)
          /\ shown citationsBox (snd (checkBtn_click h ui))
             = written (Markup html) (ui citationsBox))
    /\ (array_or_empty (get_opt (Some data) (lit "citations")) = [] ->
        shown citationsBox (snd (checkBtn_click h ui))
        = written (Markup (muted_div (lit "None"))) (ui citationsBox)).
Proof.
  intros h ui res data raw (Hclaim & Hcheck & Hok & Herr & Hexit).
  destruct (checkBtn_click_usable h ui res data raw Hclaim Hcheck Hok Herr Hexit)
    as [x Hrun].
  pose proof (show_result_status _ _ _ _ _ _ _ Hrun) as Hstatus.
  apply show_result_rest in Hrun. destruct Hrun as ((html & Hh & Hc) & Hd & Hl).
  assert (P : forall j, present j (show_checking ui) = present j ui)
    by apply show_checking_present.
  assert (Hcit : shown citationsBox (snd (checkBtn_click h ui))
                 = written (Markup html) (ui citationsBox)).
  { now apply (shown_written ui (show_checking ui) _ citationsBox (Markup html)). }
  split; [|split; [|split; [|split]]].
  - unfold shown. rewrite Hstatus.
    destruct (setStatus_state SOk (lit "Checked " ++ checkmark) (show_checking ui))
      as (_ & _ & S3).
    unfold shown in S3. rewrite S3. apply written_checking.
  - now apply (shown_written ui (show_checking ui) _ scoreLabel
                 (Text (lit "Confidence"))).
  - now apply (shown_written ui (show_checking ui) _ debugBox
                 (Text (JSON_stringify_debug h (WORKER_BASE ++ CHECK_ENDPOINT)
                          (claim_of ui) (evidence_of ui) data))).
  - exists html. split; [|exact Hcit]. intros Hp. apply Hh. now rewrite P.
  - intros Hnone. rewrite Hcit. unfold written.
    destruct (ui citationsBox) eqn:E; [|reflexivity]. simpl.
    rewrite Hnone in Hh.
    assert (Hp : present citationsBox (show_checking ui) = true).
    { rewrite P. unfold present. now rewrite E. }
    specialize (Hh Hp). now injection Hh as <-.
Qed.

(** X13 on a response that has a score and nothing else. *)
Lemma rendered_rest_shown_witness :
  shown citationsBox
    (snd (checkBtn_click (answering 200 body_score_high (data_score (decimal 1427 10)))
            page_hello))
  = Some (Markup (muted_div (lit "None"))).
Proof.
  destruct (rendered_rest_shown
              (answering 200 body_score_high (data_score (decimal 1427 10)))
              page_hello (response 200 body_score_high)
              (data_score (decimal 1427 10)) body_score_high)
    as (_ & _ & _ & _ & H).
  - repeat split; reflexivity.
  - rewrite H; reflexivity.
Defined.

(** ** The pattern of the evidence extractor *)

Lemma match_lit_complete : forall p m r,
  map canonicalize m = map canonicalize p -> match_lit p (m ++ r) = Some (m, r).
Proof.
  induction p as [|pc p IH]; intros m r H; destruct m as [|c m]; simpl in *;
    try discriminate; [reflexivity|].
  injection H as H1 H2. rewrite H1, N.eqb_refl. now rewrite IH.
Qed.

Lemma span_nonspace_app : forall rest a,
  Forall (fun c => is_ws c = false) rest ->
  span_nonspace (rest ++ a)
  = (rest ++ fst (span_nonspace a), snd (span_nonspace a)).
Proof.
  intros rest a H. induction H as [|c rest Hc _ IH]; simpl.
  - now destruct (span_nonspace a).
  - now rewrite Hc, IH.
Qed.

Lemma match_tail_complete : forall rest a,
  rest <> [] -> Forall (fun c => is_ws c = false) rest ->
  match_tail (lit "://" ++ rest ++ a)
  = Some (lit "://" ++ rest ++ fst (span_nonspace a)).
Proof.
  intros rest a Hne Hf. unfold match_tail.
  rewrite match_lit_complete by reflexivity.
  rewrite span_nonspace_app by assumption.
  destruct rest as [|c rest]; [contradiction|]. reflexivity.
Qed.

(** A token at the head of [s] is matched there, together with the code
    units that follow it up to the next white space. *)
Lemma match_here_token : forall t a,
  is_http_token t -> match_here (t ++ a) = Some (t ++ fst (span_nonspace a)).
Proof.
  intros t a (scheme & rest & -> & Hs & Hne & Hf). unfold match_here.
  destruct Hs as [Hs|Hs].
  - rewrite <- !app_assoc.
    rewrite (match_lit_complete (lit "http") scheme) by exact Hs.
    assert (Hno : match_lit (lit "s") (lit "://" ++ rest ++ a) = None)
      by reflexivity.
    rewrite Hno, match_tail_complete by assumption.
    cbn [option_map]. now rewrite <- ?app_assoc.
  - destruct scheme as [|c1 [|c2 [|c3 [|c4 [|c5 [|? ?]]]]]]; try discriminate Hs.
    change (lit "HTTPS") with [72; 84; 84; 80; 83]%N in Hs. cbn [map] in Hs.
    injection Hs as H1 H2 H3 H4 H5.
    change ([c1; c2; c3; c4; c5] ++ lit "://" ++ rest)
      with ([c1; c2; c3; c4] ++ [c5] ++ lit "://" ++ rest).
    rewrite <- !app_assoc.
    rewrite (match_lit_complete (lit "http") [c1; c2; c3; c4])
      by (cbn [map]; now rewrite H1, H2, H3, H4).
    rewrite (match_lit_complete (lit "s") [c5]) by (cbn [map]; now rewrite H5).
    rewrite match_tail_complete by assumption. reflexivity.
Qed.

Lemma url_match_step : forall line,
  url_match line
  = match match_here line with
    | Some m => Some m
    | None => match line with [] => None | _ :: r => url_match r end
    end.
Proof. now destruct line. Qed.

Lemma span_nonspace_stops : forall a,
  fst (span_nonspace a) = [] ->
  a = [] \/ exists c r, a = c :: r /\ is_ws c = true.
Proof.
  intros [|c r] H; [now left|]. right. exists c, r. split; [reflexivity|].
  simpl in H. destruct (is_ws c); [reflexivity|].
  destruct (span_nonspace r). discriminate H.
Qed.

Lemma ends_stops_span : forall a,
  a = [] \/ (exists c r, a = c :: r /\ is_ws c = true) ->
  fst (span_nonspace a) = [].
Proof.
  intros a [->|(c & r & -> & Hc)]; [reflexivity|]. simpl. now rewrite Hc.
Qed.

Lemma is_http_token_nonempty : forall t, is_http_token t -> t <> [].
Proof.
  intros t (scheme & rest & -> & _ & Hne & _) H.
  apply app_eq_nil in H. destruct H as [_ H].
  apply app_eq_nil in H. destruct H as [H _]. discriminate H.
Qed.

(** X14.  The match that [extractUrls] takes from a line is the leftmost
    http(s):// token of the line, taken up to the next white space or the
    end of the line: no token begins before it, and what follows it is
    nothing or starts with white space.  A line has no match exactly when
    no token occurs in it. *)
Theorem url_match_leftmost_longest :
  forall line,
    (forall u, url_match line = Some u ->
       exists before after,
         line = before ++ u ++ after
         /\ is_http_token u
         /\ (after = [] \/ exists c r, after = c :: r /\ is_ws c = true)
         /\ (forall b1 b2 t a, before = b1 ++ b2 -> b2 <> [] -> is_http_token t ->
               b2 ++ u ++ after <> t ++ a))
    /\ (url_match line = None <-> forall t, is_http_token t -> ~ part_of t line).
Proof.
  induction line as [|c line [IHs IHn]].
  - split.
    + intros u H. vm_compute in H. discriminate H.
    + split; [|reflexivity]. intros _ t Ht (b & a & H).
      symmetry in H. apply app_eq_nil in H. destruct H as [_ H].
      apply app_eq_nil in H. destruct H as [H _].
      now apply is_http_token_nonempty in Ht.
  - split.
    + intros u H. rewrite url_match_step in H.
      destruct (match_here (c :: line)) as [m|] eqn:E.
      * injection H as ->. pose proof (match_here_sound _ _ E) as [Ht [after Ha]].
        exists [], after. split; [exact Ha|]. split; [exact Ht|]. split.
        -- apply span_nonspace_stops.
           rewrite Ha, (match_here_token u after Ht) in E. injection E as E.
           rewrite <- (app_nil_r u) in E at 2. now apply app_inv_head in E.
        -- intros b1 b2 t a Hb Hne. symmetry in Hb. apply app_eq_nil in Hb.
           destruct Hb as [_ Hb]. contradiction.
      * destruct (IHs u H) as (before & after & Hl & Ht & Hend & Hleft).
        exists (c :: before), after. split; [now rewrite Hl|].
        split; [exact Ht|]. split; [exact Hend|].
        intros b1 b2 t a Hb Hne Htok Heq. destruct b1 as [|c' b1].
        -- simpl in Hb. subst b2. simpl in Heq. rewrite <- Hl in Heq.
           rewrite Heq, (match_here_token t a Htok) in E. discriminate E.
        -- injection Hb as _ Hb. exact (Hleft b1 b2 t a Hb Hne Htok Heq).
    + rewrite url_match_step. split.
      * intros H t Ht (b & a & Hl).
        destruct (match_here (c :: line)) as [m|] eqn:E; [discriminate|].
        destruct b as [|c' b].
        -- simpl in Hl. rewrite Hl, (match_here_token t a Ht) in E. discriminate E.
        -- injection Hl as _ Hl. apply (proj1 IHn H t Ht). now exists b, a.
      * intros H. destruct (match_here (c :: line)) as [m|] eqn:E.
        -- exfalso. apply match_here_sound in E. destruct E as [Ht [after Ha]].
           apply (H m Ht). exists [], after. exact Ha.
        -- apply IHn. intros t Ht (b & a & Hl). apply (H t Ht).
           exists (c :: b), a. now rewrite Hl.
Qed.

(** ** Reading back a list of URLs *)

Lemma canonical_letter_no_ws : forall c k,
  canonicalize c = k -> In k [72; 84; 80; 83]%N -> is_ws c = false.
Proof.
  intros c k H Hk. unfold canonicalize in H.
  destruct ((97 <=? c) && (c <=? 122))%N eqn:E.
  - apply andb_true_iff in E. destruct E as [E1 E2]. apply N.leb_le in E1, E2.
    assert (Hc : c = (k + 32)%N) by lia. subst c. clear - Hk. simpl in Hk.
    repeat (destruct Hk as [<-|Hk]; [reflexivity|]). contradiction.
  - subst c. simpl in Hk.
    repeat (destruct Hk as [<-|Hk]; [reflexivity|]). contradiction.
Qed.

Lemma scheme_no_ws : forall scheme k,
  map canonicalize scheme = k ->
  forallb (fun c => existsb (N.eqb c) [72; 84; 80; 83]%N) k = true ->
  Forall (fun c => is_ws c = false) scheme.
Proof.
  induction scheme as [|c s IH]; intros k H Hk; [constructor|].
  simpl in H. subst k. cbn [forallb map] in Hk. apply andb_true_iff in Hk.
  destruct Hk as [Hc Hs]. constructor; [|now apply (IH _ eq_refl)].
  apply existsb_exists in Hc. destruct Hc as (k & Hin & Hk).
  apply N.eqb_eq in Hk. now apply (canonical_letter_no_ws c k).
Qed.

Lemma is_http_token_no_ws : forall t,
  is_http_token t -> Forall (fun c => is_ws c = false) t.
Proof.
  intros t (scheme & rest & -> & Hs & _ & Hf).
  apply Forall_app. split; [|apply Forall_app; split; [|assumption]].
  - destruct Hs as [Hs|Hs]; apply (scheme_no_ws _ _ Hs); reflexivity.
  - change (lit "://") with [58; 47; 47]%N. repeat constructor.
Qed.

Lemma trimStart_no_ws : forall s,
  Forall (fun c => is_ws c = false) s -> trimStart s = s.
Proof. intros s H. destruct H as [|c s Hc _]; simpl; [reflexivity | now rewrite Hc]. Qed.

Lemma trim_no_ws : forall s, Forall (fun c => is_ws c = false) s -> trim s = s.
Proof.
  intros s H. unfold trim, trimEnd. rewrite (trimStart_no_ws s) by assumption.
  rewrite trimStart_no_ws by now apply Forall_rev. apply rev_involutive.
Qed.

Lemma split_join : forall sep l,
  l <> [] -> Forall (fun p => ~ In sep p) l -> split sep (join [sep] l) = l.
Proof.
  intros sep l Hne H. induction H as [|p l Hp Hl IH]; [contradiction|].
  destruct l as [|q l].
  - simpl. now apply split_no_sep.
  - change (join [sep] (p :: q :: l)) with (p ++ sep :: join [sep] (q :: l)).
    rewrite split_app, split_no_sep by assumption.
    rewrite IH by discriminate. reflexivity.
Qed.

Lemma Set_new_NoDup_id : forall l : list jsstring, NoDup l -> Set_new l = l.
Proof.
  induction l as [|x l IH] using rev_ind; intros H; [reflexivity|].
  rewrite Set_new_snoc. apply NoDup_remove in H. rewrite app_nil_r in H.
  destruct H as [Hl Hx]. rewrite IH by assumption. unfold Set_add.
  destruct (existsb (eqb x) l) eqn:E; [|reflexivity].
  apply existsb_eqb_In in E. contradiction.
Qed.

Lemma tokens_read_back : forall l,
  Forall is_http_token l -> flat_map pushed_by (map trim l) = l.
Proof.
  intros l H. induction H as [|u l Hu _ IH]; [reflexivity|].
  simpl. rewrite IH, trim_no_ws by now apply is_http_token_no_ws.
  unfold pushed_by. rewrite url_match_step.
  rewrite <- (app_nil_r u) at 1. now rewrite match_here_token, app_nil_r.
Qed.

Lemma tokens_lines : forall l,
  Forall is_http_token l -> filter JsStr.truthy (map trim l) = map trim l.
Proof.
  intros l H. induction H as [|u l Hu _ IH]; [reflexivity|].
  simpl. rewrite IH, trim_no_ws by now apply is_http_token_no_ws.
  destruct u; [now apply is_http_token_nonempty in Hu | reflexivity].
Qed.

Lemma extractUrls_join_tokens : forall l,
  NoDup l -> Forall is_http_token l -> extractUrls (TString (join nl l)) = l.
Proof.
  intros l Hn Ht. destruct l as [|u l]; [reflexivity|].
  assert (Hj : JsStr.truthy (join nl (u :: l)) = true).
  { inversion Ht as [|? ? Hu _]; subst. apply is_http_token_nonempty in Hu.
    destruct u as [|c u]; [contradiction|]. now destruct l. }
  unfold extractUrls. rewrite Hj. cbn [negb]. unfold evidence_lines.
  change nl with [10%N]. rewrite split_join.
  - rewrite tokens_lines, collect_urls_flat_map, tokens_read_back by assumption.
    now apply Set_new_NoDup_id.
  - discriminate.
  - eapply Forall_impl; [|exact Ht]. intros t Htok Hin.
    apply is_http_token_no_ws in Htok. rewrite Forall_forall in Htok.
    specialize (Htok _ Hin). discriminate Htok.
Qed.

Lemma extractUrls_tokens : forall text, Forall is_http_token (extractUrls text).
Proof.
  intros text. apply Forall_forall. intros u Hu.
  rewrite extractUrls_Set_new, Set_new_In, pushed_urls_flat_map in Hu.
  apply in_flat_map in Hu. destruct Hu as (line & _ & Hu).
  unfold pushed_by in Hu. destruct (url_match line) as [m|] eqn:E; [|contradiction].
  destruct Hu as [<-|[]]. now apply url_match_sound in E.
Qed.

(** X15.  A list of distinct http(s):// tokens written one per line is
    read back by [extractUrls] as it is, in its order; so extracting from
    the extractor's own output, one URL per line, gives that output
    again. *)
Theorem extractUrls_reads_back :
  (forall l, NoDup l -> Forall is_http_token l ->
             extractUrls (TString (join nl l)) = l)
  /\ (forall text,
        extractUrls (TString (join nl (extractUrls text))) = extractUrls text).
Proof.
  split; [exact extractUrls_join_tokens|].
  intros text. apply extractUrls_join_tokens.
  - rewrite extractUrls_Set_new. apply Set_new_NoDup.
  - apply extractUrls_tokens.
Qed.

(** ** The example buttons *)

Lemma trimStart_app_blank : forall w s, blank_text w -> trimStart (w ++ s) = trimStart s.
Proof.
  intros w s H. induction H as [|c w Hc _ IH]; simpl; [reflexivity|]. now rewrite Hc.
Qed.

Lemma trim_padded : forall w1 s w2,
  blank_text w1 -> blank_text w2 -> Forall (fun c => is_ws c = false) s ->
  trim (w1 ++ s ++ w2) = s.
Proof.
  intros w1 s w2 H1 H2 Hs. unfold trim, trimEnd.
  rewrite trimStart_app_blank by assumption.
  destruct Hs as [|c s Hc Hs].
  - simpl. rewrite (trimStart_blank w2) by assumption. simpl.
    reflexivity.
  - simpl. rewrite Hc. change (c :: s ++ w2) with ((c :: s) ++ w2).
    rewrite rev_app_distr, trimStart_app_blank by now apply blank_text_rev.
    rewrite trimStart_no_ws by (apply Forall_rev; now constructor).
    apply rev_involutive.
Qed.

Lemma In_join : forall (x : N) sep l,
  In x (join sep l) -> In x sep \/ exists t, In t l /\ In x t.
Proof.
  intros x sep l. induction l as [|p l IH]; [contradiction|].
  destruct l as [|q l].
  - intros H. right. exists p. split; [now left | exact H].
  - change (join sep (p :: q :: l)) with (p ++ sep ++ join sep (q :: l)).
    rewrite !in_app_iff. intros [H|[H|H]].
    + right. exists p. split; [now left | exact H].
    + now left.
    + destruct (IH H) as [Hs|(t & Ht & Hx)]; [now left|].
      right. exists t. split; [now right | exact Hx].
Qed.

Lemma blank_text_not_In : forall w c, blank_text w -> is_ws c = false -> ~ In c w.
Proof.
  intros w c H Hc Hin. unfold blank_text in H. rewrite Forall_forall in H.
  specialize (H c Hin). congruence.
Qed.

Lemma map_trim_tokens : forall l, Forall is_http_token l -> map trim l = l.
Proof.
  intros l H. induction H as [|u l Hu _ IH]; [reflexivity|].
  simpl. now rewrite IH, trim_no_ws by now apply is_http_token_no_ws.
Qed.

Lemma join_tokens_no_ws : forall l,
  Forall is_http_token l -> Forall (fun c => is_ws c = false) (join [44%N] l).
Proof.
  intros l H. apply Forall_forall. intros x Hx. apply In_join in Hx.
  destruct Hx as [[<-|[]]|(t & Ht & Hx)]; [reflexivity|].
  rewrite Forall_forall in H. apply H, is_http_token_no_ws in Ht.
  rewrite Forall_forall in Ht. now apply Ht.
Qed.

Lemma example_click_filled : forall h x c u more ui,
  map trim (split 124 x) = c :: u :: more ->
  JsStr.truthy c = true -> JsStr.truthy u = true ->
  present evidenceInput ui = true ->
  example_click h x ui
  = (Normal tt,
     update claimInput (set_focused true)
       (update evidenceInput (set_value (join nl (example_urls u)))
          (update claimInput (set_value c) ui))).
Proof.
  intros h x c u more ui Hp Hc Hu He. unfold example_click. rewrite Hp.
  cbn [nth nth_error]. rewrite Hc, Hu. unfold bind, write.
  now rewrite update_present, He.
Qed.

(** X16.  An example of the form [claim | url1,url2], on a page with both
    inputs, fills the form so that a check would submit it: the claim
    input holds the trimmed claim and has the focus, the evidence input
    holds the URLs one per line, and the extractor reads from it exactly
    these URLs, in their order. *)
Theorem example_click_fills_form :
  forall h c0 w1 l w2 ui,
    present claimInput ui = true ->
    present evidenceInput ui = true ->
    ~ In 124%N c0 -> ~ blank_text c0 ->
    blank_text w1 -> blank_text w2 ->
    l <> [] -> NoDup l -> Forall is_http_token l ->
    Forall (fun t => ~ In 44%N t /\ ~ In 124%N t) l ->
    let r := example_click h (c0 ++ lit "|" ++ w1 ++ join (lit ",") l ++ w2) ui in
    fst r = Normal tt
    /\ value_of claimInput (snd r) = trim c0
    /\ value_of evidenceInput (snd r) = join nl l
    /\ evidence_of (snd r) = l
    /\ option_map focused (snd r claimInput) = Some true.
Proof.
  intros h c0 w1 l w2 ui Hc He Hc0 Hnb Hw1 Hw2 Hne Hnd Htok Hsep r.
  change (lit "|") with [124%N] in r. change (lit ",") with [44%N] in r.
  assert (Hrest : ~ In 124%N (w1 ++ join [44%N] l ++ w2)).
  { rewrite !in_app_iff. intros [H|[H|H]].
    - now apply (blank_text_not_In w1 124%N) in H.
    - apply In_join in H. destruct H as [[H|[]]|(t & Ht & Hx)]; [discriminate H|].
      rewrite Forall_forall in Hsep. now apply (Hsep t Ht).
    - now apply (blank_text_not_In w2 124%N) in H. }
  assert (Hparts : map trim (split 124 (c0 ++ [124%N] ++ w1 ++ join [44%N] l ++ w2))
                   = [trim c0; join [44%N] l]).
  { change (c0 ++ [124%N] ++ w1 ++ join [44%N] l ++ w2)
      with (c0 ++ 124%N :: (w1 ++ join [44%N] l ++ w2)).
    rewrite split_app, !split_no_sep by assumption. cbn [app map].
    now rewrite trim_padded by (assumption || now apply join_tokens_no_ws). }
  assert (Hurls : example_urls (join [44%N] l) = l).
  { unfold example_urls. rewrite split_join.
    - rewrite tokens_lines by assumption. now apply map_trim_tokens.
    - assumption.
    - eapply Forall_impl; [|exact Hsep]. now intros t [H _]. }
  assert (Hrun : r = (Normal tt,
                      update claimInput (set_focused true)
                        (update evidenceInput (set_value (join nl l))
                           (update claimInput (set_value (trim c0)) ui)))).
  { unfold r. rewrite <- Hurls at 2.
    apply (example_click_filled h _ _ _ [] ui Hparts); [| |assumption].
    - destruct (trim c0) eqn:E; [|reflexivity].
      exfalso. apply Hnb. now apply trim_blank_iff.
    - destruct l as [|t l]; [contradiction|]. inversion Htok as [|? ? Ht _]; subst.
      apply is_http_token_nonempty in Ht. destruct t; [contradiction|].
      now destruct l. }
  rewrite Hrun. cbn [fst snd]. unfold present in Hc, He.
  destruct (ui claimInput) as [e1|] eqn:E1; [|discriminate].
  destruct (ui evidenceInput) as [e2|] eqn:E2; [|discriminate].
  split; [reflexivity|]. split; [|split; [|split]].
  - unfold value_of, update. simpl. now rewrite E1.
  - unfold value_of, update. simpl. now rewrite E2.
  - unfold evidence_of, present, value_of, update. simpl. rewrite E2. simpl.
    now apply extractUrls_join_tokens.
  - unfold update. simpl. now rewrite E1.
Qed.

(** The two URLs of the witnesses are tokens. *)
Lemma sample_tokens :
  Forall is_http_token [lit "https://a.example/x"; lit "HTTP://b.example/y"].
Proof.
  constructor; [|constructor; [|constructor]].
  - exists (lit "https"), (lit "a.example/x").
    split; [reflexivity|]. split; [now right|]. split; [discriminate|].
    let v := eval vm_compute in (lit "a.example/x") in
    change (lit "a.example/x") with v.
    repeat constructor.
  - exists (lit "HTTP"), (lit "b.example/y").
    split; [reflexivity|]. split; [now left|]. split; [discriminate|].
    let v := eval vm_compute in (lit "b.example/y") in
    change (lit "b.example/y") with v.
    repeat constructor.
Qed.

(** X16 on an example with two URLs, clicked on an empty form. *)
Lemma example_click_fills_form_witness :
  evidence_of
    (snd (example_click (world Hangs rejects)
            (lit "The sky is blue " ++ lit "|" ++ spaces 1
             ++ join (lit ",") [lit "https://a.example/x"; lit "HTTP://b.example/y"]
             ++ [])
            (page [] [])))
  = [lit "https://a.example/x"; lit "HTTP://b.example/y"].
Proof.
  apply (example_click_fills_form (world Hangs rejects) (lit "The sky is blue ")
           (spaces 1) [lit "https://a.example/x"; lit "HTTP://b.example/y"] []
           (page [] [])).
  - reflexivity.
  - reflexivity.
  - vm_compute. intuition discriminate.
  - intros H. inversion H as [|? ? Hc _]. discriminate Hc.
  - repeat constructor.
  - constructor.
  - discriminate.
  - repeat constructor; vm_compute; intuition discriminate.
  - exact sample_tokens.
  - repeat constructor; vm_compute; intuition discriminate.
Defined.

(** X17.  The click handler of an example button throws exactly when the
    example has a second part that is not blank and the page has no
    evidence input; what it throws is the TypeError of the assignment, the
    claim has been written by then and the focus is not moved.  Parts
    after the second are ignored. *)
Theorem example_click_throws :
  forall h x ui,
    ((exists e, fst (example_click h x ui) = Throw e)
     <-> present evidenceInput ui = false
         /\ exists u, nth_error (example_parts x) 1 = Some u /\ u <> [])
    /\ (forall e, fst (example_click h x ui) = Throw e ->
          e = TypeError h SetPropertyOfNull
          /\ snd (example_click h x ui)
             = (if JsStr.truthy (nth 0 (example_parts x) [])
                then update claimInput (set_value (nth 0 (example_parts x) [])) ui
                else ui))
    /\ (forall a b rest,
          ~ In 124%N a -> ~ In 124%N b ->
          example_click h (a ++ lit "|" ++ b ++ lit "|" ++ rest) ui
          = example_click h (a ++ lit "|" ++ b) ui).
Proof.
  intros h x ui.
  assert (H3 : forall a b rest,
             ~ In 124%N a -> ~ In 124%N b ->
             example_click h (a ++ lit "|" ++ b ++ lit "|" ++ rest) ui
             = example_click h (a ++ lit "|" ++ b) ui).
  { intros a b rest Ha Hb. unfold example_click. change (lit "|") with [124%N].
    change (a ++ [124%N] ++ b ++ [124%N] ++ rest)
      with (a ++ 124%N :: (b ++ 124%N :: rest)).
    change (a ++ [124%N] ++ b) with (a ++ 124%N :: b).
    rewrite !split_app, !(split_no_sep 124 a), !(split_no_sep 124 b) by assumption.
    reflexivity. }
  split; [|split; [|exact H3]]; clear H3;
    unfold example_click, example_parts, bind, write, ret;
    set (parts := map trim (split 124 x));
    destruct (JsStr.truthy (nth 0 parts [])) eqn:Ec;
    destruct (nth_error parts 1) as [u|] eqn:Eu;
    try destruct (JsStr.truthy u) eqn:Et;
    rewrite ?update_present;
    destruct (present evidenceInput ui) eqn:Ep; cbn [fst snd].
  all: try (split;
            [ intros [e H];
              first [ discriminate H
                    | split; [reflexivity|]; exists u; split; [reflexivity|];
                      intros ->; discriminate Et ]
            | intros [Hp (u' & Hu & Hn)];
              first [ eexists; reflexivity
                    | discriminate Hp
                    | discriminate Hu
                    | injection Hu as <-; destruct u;
                      [now contradiction Hn | discriminate Et] ] ]).
  all: intros e H; first [discriminate H | injection H as <-; split; reflexivity].
Qed.

(** ** The request of a check *)

Lemma trimStart_idem : forall s, trimStart (trimStart s) = trimStart s.
Proof.
  induction s as [|c s IH]; [reflexivity|]. simpl.
  destruct (is_ws c) eqn:E; [exact IH|]. simpl. now rewrite E.
Qed.

Lemma trim_idem : forall s, trim (trim s) = trim s.
Proof.
  intros s. unfold trim. destruct (trimStart s) as [|c r] eqn:E; [reflexivity|].
  pose proof (trimStart_head _ _ _ E) as Hc.
  rewrite trimEnd_cons by assumption. simpl. rewrite Hc.
  rewrite <- (trimEnd_cons c r) by assumption.
  unfold trimEnd. now rewrite rev_involutive, trimStart_idem.
Qed.

Lemma render_items_net : forall h net cs i,
  render_items (with_network h net) i cs = render_items h i cs.
Proof.
  intros h net cs. induction cs as [|c cs IH]; intros i; [reflexivity|].
  cbn [render_items]. rewrite IH. reflexivity.
Qed.

Lemma show_result_net : forall h net claim ev data,
  show_result (with_network h net) claim ev data = show_result h claim ev data.
Proof.
  intros h net claim ev data.
  assert (C : show_citations (with_network h net) data = show_citations h data).
  { unfold show_citations, renderCitations.
    destruct (array_or_empty (get_opt (Some data) (lit "citations"))) as [|c cs];
      [reflexivity|].
    now rewrite render_items_net. }
  unfold show_result. rewrite C. reflexivity.
Qed.

Lemma checkClaim_net : forall h net claim ev,
  net (check_request h claim ev) = network h (check_request h claim ev) ->
  checkClaim (with_network h net) claim ev = checkClaim h claim ev.
Proof.
  intros h net claim ev H. unfold checkClaim, fetchWithTimeout.
  change (check_request (with_network h net)) with (check_request h).
  change (network (with_network h net)) with net.
  rewrite H. reflexivity.
Qed.

(** X18.  A check looks at the network through one request only, the
    POST to the Worker's [/api/check]: with any other network that treats
    this request in the same way the check ends in the same way on the
    same page.  The claim in its body is the trimmed text of the claim
    input, not empty whenever the check gets past the no-claim exit, and
    its evidence URLs are distinct http(s):// tokens. *)
Theorem check_request_sent :
  forall h ui,
    let req := check_request h (claim_of ui) (evidence_of ui) in
    (forall net, net req = network h req ->
                 checkBtn_click (with_network h net) ui = checkBtn_click h ui)
    /\ req_method req = lit "POST"
    /\ req_url req = WORKER_BASE ++ lit "/api/check"
    /\ exists p,
         req_body req = Some p
         /\ p_claim p = trim (value_of claimInput ui)
         /\ trim (p_claim p) = p_claim p
         /\ (fst (checkBtn_click h ui) <> ExitNoClaim -> p_claim p <> [])
         /\ NoDup (p_evidence_urls p)
         /\ Forall is_http_token (p_evidence_urls p).
Proof.
  intros h ui req. split; [|split; [reflexivity|split; [reflexivity|]]].
  - intros net Hnet. unfold checkBtn_click.
    destruct (negb (JsStr.truthy (claim_of ui))); [reflexivity|].
    assert (T : try_block (with_network h net) (claim_of ui) (evidence_of ui)
                  (show_checking ui)
                = try_block h (claim_of ui) (evidence_of ui) (show_checking ui)).
    { unfold try_block. rewrite checkClaim_net by exact Hnet.
      unfold bind, lift.
      destruct (checkClaim h (claim_of ui) (evidence_of ui))
        as [[[res data] raw]|e]; [|reflexivity].
      destruct (negb (res_ok res)); [reflexivity|].
      destruct (Json.truthy (get_opt (Some data) (lit "error"))); [reflexivity|].
      now rewrite show_result_net. }
    now rewrite T.
  - eexists. split; [reflexivity|]. cbn [p_claim p_evidence_urls].
    split; [reflexivity|]. split; [apply trim_idem|]. split; [|split].
    + intros Hexit Hnil. apply Hexit. unfold checkBtn_click. now rewrite Hnil.
    + unfold evidence_of. rewrite extractUrls_Set_new. apply Set_new_NoDup.
    + apply extractUrls_tokens.
Qed.

(** ** Sequences of events *)

Lemma option_map_present : forall {B} (g : Element -> B) (u ui : Els) j,
  option_map g (u j) = option_map g (ui j) -> present j u = present j ui.
Proof.
  intros B g u ui j H. unfold present.
  destruct (u j), (ui j); (reflexivity || discriminate).
Qed.

Lemma example_click_present : forall h x ui j,
  present j (snd (example_click h x ui)) = present j ui.
Proof.
  intros h x ui j. unfold example_click, bind, write, ret.
  destruct (JsStr.truthy (nth 0 (map trim (split 124 x)) []));
    destruct (nth_error (map trim (split 124 x)) 1) as [u|];
    try destruct (JsStr.truthy u);
    try destruct (present evidenceInput _);
    cbn [snd]; now rewrite ?update_present.
Qed.

Lemma handle_user_part : forall h ev ui j,
  ev = Loaded \/ ev = ClickCheck ->
  option_map user_part (handle h ev ui j) = option_map user_part (ui j).
Proof.
  intros h ev ui j Hev. unfold handle. destruct (negb (wired ui)); [reflexivity|].
  destruct Hev as [->| ->].
  - apply (keeps_ping_on_load _ (fun _ => user_part)); reflexivity.
  - apply (keeps_parts_checkBtn_click _ (fun _ => user_part)); reflexivity.
Qed.

Lemma handle_present : forall h ev ui j,
  present j (handle h ev ui) = present j ui.
Proof.
  intros h ev ui j. destruct ev as [| | | |x].
  - apply (option_map_present user_part), handle_user_part. now left.
  - apply (option_map_present user_part), handle_user_part. now right.
  - unfold handle. destruct (negb (wired ui)); [reflexivity|].
    destruct (present clearBtn ui); [|reflexivity].
    unfold present. rewrite clearBtn_click_at. now destruct (ui j).
  - unfold handle. destruct (negb (wired ui)); [reflexivity|].
    destruct (present debugToggle ui && present debugBox ui); [|reflexivity].
    unfold debugToggle_click. now rewrite !update_present.
  - unfold handle. destruct (negb (wired ui)); [reflexivity|].
    apply example_click_present.
Qed.

(** X19.  No sequence of events adds or removes an element, so the page
    stays wired or unwired as [boot] found it; and on a page without the
    check button or the claim input no event changes anything. *)
Theorem run_keeps_elements :
  forall h evs ui,
    (forall j, present j (run h evs ui) = present j ui)
    /\ wired (run h evs ui) = wired ui
    /\ (wired ui = false -> run h evs ui = ui).
Proof.
  intros h evs. unfold run. induction evs as [|ev evs IH]; intros ui.
  - repeat split; reflexivity.
  - cbn [fold_left]. destruct (IH (handle h ev ui)) as (IH1 & IH2 & IH3).
    assert (W : wired (handle h ev ui) = wired ui).
    { unfold wired. now rewrite !handle_present. }
    split; [|split].
    + intros j. now rewrite IH1, handle_present.
    + now rewrite IH2.
    + intros Hw. assert (E : handle h ev ui = ui).
      { unfold handle. now rewrite Hw. }
      rewrite E in *. now apply IH3.
Qed.

Lemma handle_debug_box : forall h ev ui,
  ev <> ClickDebugToggle ->
  option_map (fun e => (data_open e, style_display e)) (handle h ev ui debugBox)
  = option_map (fun e => (data_open e, style_display e)) (ui debugBox).
Proof.
  intros h ev ui Hev. destruct ev as [| | | |x].
  - pose proof (handle_user_part h Loaded ui debugBox (or_introl eq_refl)) as H.
    destruct (handle h Loaded ui debugBox), (ui debugBox); simpl in *;
      try discriminate; try reflexivity.
    unfold user_part in H. injection H as _ H1 H2 _. now rewrite H1, H2.
  - pose proof (handle_user_part h ClickCheck ui debugBox (or_intror eq_refl)) as H.
    destruct (handle h ClickCheck ui debugBox), (ui debugBox); simpl in *;
      try discriminate; try reflexivity.
    unfold user_part in H. injection H as _ H1 H2 _. now rewrite H1, H2.
  - unfold handle. destruct (negb (wired ui)); [reflexivity|].
    destruct (present clearBtn ui); [|reflexivity].
    rewrite clearBtn_click_at. now destruct (ui debugBox).
  - now contradiction Hev.
  - unfold handle. destruct (negb (wired ui)); [reflexivity|].
    now rewrite example_click_status by discriminate.
Qed.

Lemma debugToggle_click_consistent : forall ui, debug_ok (debugToggle_click ui).
Proof.
  intros ui. unfold debug_ok, debugToggle_click. rewrite !update_same.
  destruct (ui debugBox) as [e|]; simpl; [|exact I].
  destruct (match data_open e with
            | Some a => eqb a (lit "true")
            | None => false
            end); [right | left]; split; reflexivity.
Qed.

Lemma handle_debug_ok : forall h ev ui, debug_ok ui -> debug_ok (handle h ev ui).
Proof.
  intros h ev ui H.
  assert (D : {ev = ClickDebugToggle} + {ev <> ClickDebugToggle})
    by (destruct ev; ((now left) || (right; discriminate))).
  destruct D as [->|Hev].
  - unfold handle. destruct (negb (wired ui)); [exact H|].
    destruct (present debugToggle ui && present debugBox ui); [|exact H].
    apply debugToggle_click_consistent.
  - pose proof (handle_debug_box h ev ui Hev) as K. unfold debug_ok in *.
    destruct (handle h ev ui debugBox) as [e'|], (ui debugBox) as [e|];
      simpl in K; try discriminate; try exact I.
    injection K as K1 K2. unfold debug_consistent in *. now rewrite K1, K2.
Qed.

(** X20.  Only the debug toggle writes the open flag and the display of
    the debug box.  So a box that is open and displayed, or closed and
    hidden, stays so through every sequence of events, and after one
    click on the toggle of a wired page the box is in step for good. *)
Theorem debug_box_in_step :
  forall h evs ui,
    (forall ev, ev <> ClickDebugToggle ->
       option_map (fun e => (data_open e, style_display e)) (handle h ev ui debugBox)
       = option_map (fun e => (data_open e, style_display e)) (ui debugBox))
    /\ (debug_ok ui -> debug_ok (run h evs ui))
    /\ (wired ui = true -> present debugToggle ui = true ->
        debug_ok (run h (ClickDebugToggle :: evs) ui)).
Proof.
  intros h evs ui.
  assert (R : forall u, debug_ok u -> debug_ok (run h evs u)).
  { unfold run. induction evs as [|ev evs IH]; intros u Hu; [exact Hu|].
    cbn [fold_left]. now apply IH, handle_debug_ok. }
  split; [intros ev Hev; now apply handle_debug_box|]. split; [apply R|].
  intros Hw Ht. unfold run. cbn [fold_left]. apply R.
  unfold handle. rewrite Hw, Ht. cbn [negb andb].
  destruct (present debugBox ui) eqn:Hb; [apply debugToggle_click_consistent|].
  unfold debug_ok. unfold present in Hb. now destruct (ui debugBox).
Qed.

(** ** Escaping *)

Lemma escape_lt_cons : forall c s,
  escape_lt (c :: s) = (if N.eqb c 60 then lit "&lt;" else [c]) ++ escape_lt s.
Proof. reflexivity. Qed.

Lemma escape_lt_app : forall s t, escape_lt (s ++ t) = escape_lt s ++ escape_lt t.
Proof. intros s t. unfold escape_lt. apply flat_map_app. Qed.

Lemma count_lt_app : forall s t, count_lt (s ++ t) = (count_lt s + count_lt t)%nat.
Proof. intros s t. unfold count_lt. apply count_occ_app. Qed.

Lemma count_lt_escape : forall s, count_lt (escape_lt s) = 0%nat.
Proof.
  induction s as [|c s IH]; [reflexivity|].
  rewrite escape_lt_cons, count_lt_app, IH.
  destruct (N.eqb_spec c 60) as [->|Hc]; [reflexivity|].
  unfold count_lt. simpl. destruct (N.eq_dec c 60); [contradiction | reflexivity].
Qed.

Lemma escape_lt_id : forall s, count_lt s = 0%nat -> escape_lt s = s.
Proof.
  induction s as [|c s IH]; intros H; [reflexivity|].
  rewrite escape_lt_cons. unfold count_lt in H. simpl in H.
  destruct (N.eq_dec c 60) as [->|Hc]; [discriminate|].
  destruct (N.eqb_spec c 60) as [->|_]; [contradiction|].
  simpl. now rewrite IH.
Qed.

Lemma count_lt_join : forall items,
  count_lt (join [] items) = list_sum (map count_lt items).
Proof.
  induction items as [|p items IH]; [reflexivity|]. destruct items as [|q items].
  - simpl. now rewrite Nat.add_0_r.
  - change (join [] (p :: q :: items)) with (p ++ [] ++ join [] (q :: items)).
    rewrite !count_lt_app, IH. reflexivity.
Qed.

Lemma why_items_count : forall h why items,
  cmap (why_item h) why = Normal items ->
  list_sum (map count_lt items) = (2 * List.length why)%nat.
Proof.
  intros h why. induction why as [|x why IH]; intros items H; simpl in H.
  - injection H as <-. reflexivity.
  - unfold why_item at 1 in H. destruct (ToString h (Some x)) as [s|e]; [|discriminate].
    cbn [cbind] in H. destruct (cmap (why_item h) why) as [rest|e]; [|discriminate].
    cbn [cbind] in H. injection H as <-.
    change (list_sum (map count_lt (li (escape_lt s) :: rest)))
      with (count_lt (li (escape_lt s)) + list_sum (map count_lt rest))%nat.
    cbn [List.length]. rewrite (IH rest eq_refl). unfold li. rewrite !count_lt_app, count_lt_escape.
    change (count_lt (lit "<li>")) with 1%nat.
    change (count_lt (lit "</li>")) with 1%nat. lia.
Qed.

(** X21.  Escaping leaves no [<] in a string, changes nothing in a string
    without one, works piece by piece and need not be repeated.  So the
    markup of the explanation list holds two [<] for each item of the
    service's [why] list, those of its own [<li>] and [</li>]: no text of
    the service opens a tag there. *)
Theorem escape_lt_leaves_no_tag :
  (forall s, count_lt (escape_lt s) = 0%nat)
  /\ (forall s, count_lt s = 0%nat -> escape_lt s = s)
  /\ (forall s t, escape_lt (s ++ t) = escape_lt s ++ escape_lt t)
  /\ (forall s, escape_lt (escape_lt s) = escape_lt s)
  /\ (forall h why items,
        cmap (why_item h) why = Normal items ->
        count_lt (join [] items) = (2 * List.length why)%nat).
Proof.
  split; [exact count_lt_escape|]. split; [exact escape_lt_id|].
  split; [exact escape_lt_app|]. split.
  - intros s. apply escape_lt_id, count_lt_escape.
  - intros h why items H. rewrite count_lt_join. now apply (why_items_count h).
Qed.

(** ** Citations that cannot be rendered *)

Lemma replace_lt_cases : forall h v d,
  (stringish v /\ exists s, replace_lt h (or_else v (Some (JString d))) = Normal s)
  \/ (~ stringish v
      /\ replace_lt h (or_else v (Some (JString d))) = Throw (TypeError h NotAFunction)).
Proof.
  intros h v d. unfold or_else, stringish.
  destruct (Json.truthy v) eqn:T.
  - destruct v as [[| | |s| |]|];
      try (right; split; [intros [H|[s' H]]; discriminate | reflexivity]).
    left. split; [right; eauto | simpl; eauto].
  - left. split; [now left | simpl; eauto].
Qed.

Lemma get_strict_nonnull : forall h c k,
  c <> JNull -> get_strict h c k = Normal (get_opt (Some c) k).
Proof. intros h c k H. destruct c; (reflexivity || contradiction). Qed.

Lemma render_citation_cases : forall h i c,
  (renderable c /\ exists out, render_citation h i c = Normal out)
  \/ (~ renderable c
      /\ (render_citation h i c = Throw (TypeError h PropertyOfNull)
          \/ render_citation h i c = Throw (TypeError h NotAFunction))).
Proof.
  intros h i c. unfold renderable.
  assert (D : c = JNull \/ c <> JNull) by (destruct c; (now left) || (right; discriminate)).
  destruct D as [->|Hc].
  { right. split; [intros [H _]; now contradiction H|]. now left. }
  unfold render_citation. rewrite !get_strict_nonnull by assumption. cbn [cbind].
  destruct (replace_lt_cases h (get_opt (Some c) (lit "title"))
              (lit "Source " ++ dec (N.of_nat (i + 1)))) as [[S1 [s1 E1]]|[N1 E1]];
    rewrite E1; cbn [cbind];
    [|right; split; [tauto | now right]].
  destruct (replace_lt_cases h (get_opt (Some c) (lit "url")) [])
    as [[S2 [s2 E2]]|[N2 E2]];
    rewrite E2; cbn [cbind];
    [|right; split; [tauto | now right]].
  destruct (replace_lt_cases h (get_opt (Some c) (lit "snippet")) [])
    as [[S3 [s3 E3]]|[N3 E3]];
    rewrite E3; cbn [cbind];
    [|right; split; [tauto | now right]].
  left. split; [tauto | eauto].
Qed.

Lemma render_items_cases : forall h cs i,
  (Forall renderable cs /\ exists out, render_items h i cs = Normal out)
  \/ (~ Forall renderable cs
      /\ (render_items h i cs = Throw (TypeError h PropertyOfNull)
          \/ render_items h i cs = Throw (TypeError h NotAFunction))).
Proof.
  intros h cs. induction cs as [|c cs IH]; intros i; cbn [render_items].
  - left. split; [constructor | eauto].
  - destruct (render_citation_cases h i c) as [[R [x ->]]|[R [-> | ->]]]; cbn [cbind].
    + destruct (IH (S i)) as [[Rs [xs ->]]|[Rs [-> | ->]]]; cbn [cbind].
      * left. split; [now constructor | eauto].
      * right. split; [|now left]. intros H. inversion H. contradiction.
      * right. split; [|now right]. intros H. inversion H. contradiction.
    + right. split; [|now left]. intros H. inversion H. contradiction.
    + right. split; [|now right]. intros H. inversion H. contradiction.
Qed.

(** X22.  [renderCitations] returns markup exactly when every citation is
    something other than [null] whose title, URL and snippet are each
    falsy or a string; otherwise it throws a TypeError.  Without
    citations the markup is the "None" placeholder. *)
Theorem renderCitations_throws :
  forall h cs,
    ((exists html, renderCitations h cs = Normal html) <-> Forall renderable cs)
    /\ (forall e, renderCitations h cs = Throw e -> exists site, e = TypeError h site)
    /\ (In JNull cs -> renderCitations h cs = Throw (TypeError h PropertyOfNull)
                       \/ renderCitations h cs = Throw (TypeError h NotAFunction))
    /\ (cs = [] -> renderCitations h cs = Normal (muted_div (lit "None"))).
Proof.
  intros h cs.
  assert (C : (Forall renderable cs /\ exists out, renderCitations h cs = Normal out)
              \/ (~ Forall renderable cs
                  /\ (renderCitations h cs = Throw (TypeError h PropertyOfNull)
                      \/ renderCitations h cs = Throw (TypeError h NotAFunction)))).
  { destruct cs as [|c cs]; [left; split; [constructor | simpl; eauto]|].
    unfold renderCitations.
    destruct (render_items_cases h (c :: cs) 0) as [[R [x ->]]|[R [-> | ->]]];
      cbn [cbind]; [left; split; eauto | right; split; auto | right; split; auto]. }
  split; [|split; [|split]].
  - destruct C as [[R [out E]]|[R [E|E]]]; split; intros H; eauto;
      try contradiction; destruct H as [html H]; rewrite E in H; discriminate H.
  - intros e H. destruct C as [[R [out E]]|[R [E|E]]]; rewrite E in H;
      [discriminate H | injection H as <-; eauto | injection H as <-; eauto].
  - intros Hin. destruct C as [[R [out E]]|[R E]]; [|exact E].
    exfalso. rewrite Forall_forall in R. destruct (R JNull Hin) as [H _].
    now apply H.
  - intros ->. reflexivity.
Qed.

(** ** The tier and the percentage *)

Lemma Qle_bool_false : forall a b : Q, Qle_bool a b = false -> (b < a)%Q.
Proof.
  intros a b H. destruct (Qlt_le_dec b a) as [Hlt|Hle]; [exact Hlt|].
  apply Qle_bool_iff in Hle. congruence.
Qed.

Lemma Qfloor_ge : forall (t : Z) (x : Q),
  (t <= Qfloor x)%Z <-> (inject_Z t <= x)%Q.
Proof.
  intros t x. split; intros H.
  - apply Qle_trans with (inject_Z (Qfloor x)); [|apply Qfloor_le].
    now rewrite <- Zle_Qle.
  - pose proof (Qlt_floor x) as Hx.
    assert (Hlt : (inject_Z t < inject_Z (Qfloor x + 1))%Q)
      by (eapply Qle_lt_trans; eassumption).
    rewrite <- Zlt_Qlt in Hlt. lia.
Qed.

Lemma pct_reaches : forall (q : Q) (t : Z),
  (0 < t <= 100)%Z ->
  ge (pct_of (Fin q)) (of_Z t) = Qle_bool (inject_Z t - (1 # 2)) q.
Proof.
  intros q t Ht. rewrite pct_of_Fin. unfold of_Z. rewrite ge_Fin, Qle_bool_inject_Z.
  destruct (Qle_bool (inject_Z t - (1 # 2)) q) eqn:E.
  - apply Qle_bool_iff in E. apply Z.leb_le.
    assert (H : (t <= Qfloor (q + (1 # 2)))%Z) by (apply Qfloor_ge; lra).
    lia.
  - apply Qle_bool_false in E. apply Z.leb_gt.
    assert (H : ~ (t <= Qfloor (q + (1 # 2)))%Z).
    { intros H. apply Qfloor_ge in H. lra. }
    lia.
Qed.

(** X23.  The fallback verdict is derived from the score itself, the
    percentage from the rounded score: the tier of the percentage shown
    is the tier of the verdict shown except for a score in the half unit
    below 40, 65 or 85, where the page shows the percentage of the
    threshold with the verdict of the tier below it. *)
Theorem verdict_vs_percentage :
  forall q : Q,
    (verdictFromScore (pct_of (Fin q)) = verdictFromScore (Fin q)
     <-> ~ exists t, In t [40; 65; 85]%Z
                     /\ (inject_Z t - (1 # 2) <= q)%Q /\ (q < inject_Z t)%Q)
    /\ (forall t, In t [40; 65; 85]%Z ->
          (inject_Z t - (1 # 2) <= q)%Q -> (q < inject_Z t)%Q ->
          pct_of (Fin q) = of_Z t).
Proof.
  intros q. split.
  - unfold verdictFromScore. rewrite !pct_reaches by lia.
    unfold of_Z. rewrite !ge_Fin.
    destruct (Qle_bool (inject_Z 85 - (1 # 2)) q) eqn:A85;
      [apply Qle_bool_iff in A85 | apply Qle_bool_false in A85];
    destruct (Qle_bool (inject_Z 65 - (1 # 2)) q) eqn:A65;
      [apply Qle_bool_iff in A65 | apply Qle_bool_false in A65
      |apply Qle_bool_iff in A65 | apply Qle_bool_false in A65];
    destruct (Qle_bool (inject_Z 40 - (1 # 2)) q) eqn:A40;
      try (apply Qle_bool_iff in A40); try (apply Qle_bool_false in A40);
    destruct (Qle_bool (inject_Z 85) q) eqn:B85;
      try (apply Qle_bool_iff in B85); try (apply Qle_bool_false in B85);
    destruct (Qle_bool (inject_Z 65) q) eqn:B65;
      try (apply Qle_bool_iff in B65); try (apply Qle_bool_false in B65);
    destruct (Qle_bool (inject_Z 40) q) eqn:B40;
      try (apply Qle_bool_iff in B40); try (apply Qle_bool_false in B40);
    unfold inject_Z in *;
    first
      [ exfalso; lra
      | split;
        [ intros _ (t & Hin & H1 & H2); simpl in Hin;
          destruct Hin as [<-|[<-|[<-|[]]]]; unfold inject_Z in *; lra
        | reflexivity ]
      | split;
        [ intros H; vm_compute in H; discriminate H
        | intros Hn; exfalso; apply Hn;
          first [ exists 40%Z; split; [simpl; tauto | unfold inject_Z; split; lra]
                | exists 65%Z; split; [simpl; tauto | unfold inject_Z; split; lra]
                | exists 85%Z; split; [simpl; tauto | unfold inject_Z; split; lra] ] ] ].
  - intros t Hin Hlo Hhi. rewrite pct_of_Fin. unfold of_Z. do 2 f_equal.
    assert (H1 : (t <= Qfloor (q + (1 # 2)))%Z) by (apply Qfloor_ge; lra).
    assert (H2 : ~ (t + 1 <= Qfloor (q + (1 # 2)))%Z).
    { intros H. apply Qfloor_ge in H. rewrite inject_Z_plus in H.
      change (inject_Z 1) with 1%Q in H. lra. }
    simpl in Hin. destruct Hin as [<-|[<-|[<-|[]]]]; lia.
Qed.
